(** * The GROMACS easyblock [EB_GROMACS] (easybuild/easyblocks/g/gromacs.py)

    A shallow embedding of the easyblock's variant build matrix: the
    planning of the precision x MPI variants in [run_all_steps], the
    per-variant steps ([configure_step], [build_step], [test_step],
    [install_step], [extensions_step]) and the save/restore of the shared
    configuration around them.

    The easyblock is a Python class whose methods mutate [self] and the
    easyconfig dictionary [self.cfg] and may raise.  Methods are embedded in
    a state-and-error monad over a record holding both; everything the class
    obtains from the host framework or from the machine (dependency roots,
    [which], [glob], the parent class' steps, ...) is a field of [Env]. *)

From Stdlib Require Import String Ascii List Bool Arith ZArith Lia DecimalString.
Import ListNotations.
Local Open Scope string_scope.

(** ** Python strings and paths *)

Module Py.

(** [pat in s] on two [str]: substring test. *)
Fixpoint str_in (pat s : string) : bool :=
  match s with
  | EmptyString => prefix pat s
  | String _ s' => prefix pat s || str_in pat s'
  end.

(** [sep.join(l)] *)
Definition join (sep : string) (l : list string) : string := String.concat sep l.

(** ["%s" % n] for a Python [int]. *)
Definition str_of_int (z : Z) : string := NilZero.string_of_int (Z.to_int z).

(** [s.startswith(p)] *)
Definition startswith (s p : string) : bool := prefix p s.

(** [s.split(sep)] for a one-character separator. *)
Fixpoint split (sep : ascii) (s : string) : list string :=
  match s with
  | EmptyString => [""]
  | String c s' =>
      if Ascii.eqb c sep then "" :: split sep s'
      else match split sep s' with
           | [] => [String c ""]
           | h :: t => String c h :: t
           end
  end.

Definition upper_ascii (c : ascii) : ascii :=
  let n := nat_of_ascii c in
  if ((97 <=? n) && (n <=? 122))%nat then ascii_of_nat (n - 32) else c.

(** [s.upper()] (ASCII letters). *)
Fixpoint upper (s : string) : string :=
  match s with
  | EmptyString => EmptyString
  | String c s' => String (upper_ascii c) (upper s')
  end.

(** [s[n:]] for [n >= 0]. *)
Fixpoint drop (n : nat) (s : string) : string :=
  match n, s with
  | O, _ => s
  | S _, EmptyString => EmptyString
  | S n', String _ s' => drop n' s'
  end.

Definition is_slash (c : ascii) : bool := Ascii.eqb c "/"%char.

Fixpoint endswith_slash (s : string) : bool :=
  match s with
  | EmptyString => false
  | String c EmptyString => is_slash c
  | String _ s' => endswith_slash s'
  end.

(** [os.path.join(a, b)] (posixpath). *)
Definition path_join (a b : string) : string :=
  if startswith b "/" then b
  else if String.eqb a "" || endswith_slash a then a ++ b
  else a ++ "/" ++ b.

Fixpoint drop_while (f : ascii -> bool) (l : list ascii) : list ascii :=
  match l with
  | [] => []
  | c :: l' => if f c then drop_while f l' else l
  end.

(** [os.path.dirname(p)] (posixpath): the part up to the last slash, with
    trailing slashes stripped unless it consists of slashes only. *)
Definition dirname (p : string) : string :=
  let head_rev := drop_while (fun c => negb (is_slash c)) (rev (list_ascii_of_string p)) in
  let head_rev' :=
    if forallb is_slash head_rev then head_rev else drop_while is_slash head_rev in
  string_of_list_ascii (rev head_rev').

End Py.

(** ** Data model *)

(** [LooseVersion(v)] of a dotted numeric version string, as its list of
    components; ['4.6.5'] is [[4; 6; 5]].  Comparison is Python's comparison
    of the component lists. *)
Definition Version := list nat.

Fixpoint loose_lt (a b : Version) : bool :=
  match a, b with
  | [], [] => false
  | [], _ :: _ => true
  | _ :: _, [] => false
  | x :: a', y :: b' =>
      if (x <? y)%nat then true
      else if (y <? x)%nat then false
      else loose_lt a' b'
  end.

Definition loose_ge (a b : Version) : bool := negb (loose_lt a b).

(** The value of an option such as [cfg['configopts']]: a [str], or a
    [list] of [str] once the variants have been planned. *)
Inductive optval :=
| OStr (s : string)
| OList (l : list string).

(** The value of [cfg['runtest']]: [None], a [bool] or a [str]. *)
Inductive runtest_val :=
| RNone
| RBool (b : bool)
| RStr (s : string).

Inductive OptKey := K_configopts | K_buildopts | K_installopts.

(** The easyconfig parameters the easyblock reads and writes. *)
Record Cfg := mkCfg {
  configopts : optval;
  buildopts : optval;
  installopts : optval;
  install_cmd : string;
  build_cmd : string;
  configure_cmd : string;
  runtest : runtest_val;
  double_precision : option bool;
  build_shared_libs : bool;
  parallel : Z;
  mpi_numprocs : Z;
  mpiexec : string;
  mpiexec_numproc_flag : string;
  mpisuffix : string
}.

Definition get_opt (k : OptKey) (c : Cfg) : optval :=
  match k with
  | K_configopts => configopts c
  | K_buildopts => buildopts c
  | K_installopts => installopts c
  end.

Definition set_opt (k : OptKey) (v : optval) (c : Cfg) : Cfg :=
  match k with
  | K_configopts =>
      mkCfg v (buildopts c) (installopts c) (install_cmd c) (build_cmd c) (configure_cmd c)
        (runtest c) (double_precision c) (build_shared_libs c) (parallel c) (mpi_numprocs c)
        (mpiexec c) (mpiexec_numproc_flag c) (mpisuffix c)
  | K_buildopts =>
      mkCfg (configopts c) v (installopts c) (install_cmd c) (build_cmd c) (configure_cmd c)
        (runtest c) (double_precision c) (build_shared_libs c) (parallel c) (mpi_numprocs c)
        (mpiexec c) (mpiexec_numproc_flag c) (mpisuffix c)
  | K_installopts =>
      mkCfg (configopts c) (buildopts c) v (install_cmd c) (build_cmd c) (configure_cmd c)
        (runtest c) (double_precision c) (build_shared_libs c) (parallel c) (mpi_numprocs c)
        (mpiexec c) (mpiexec_numproc_flag c) (mpisuffix c)
  end.

Definition set_install_cmd (v : string) (c : Cfg) : Cfg :=
  mkCfg (configopts c) (buildopts c) (installopts c) v (build_cmd c) (configure_cmd c)
    (runtest c) (double_precision c) (build_shared_libs c) (parallel c) (mpi_numprocs c)
    (mpiexec c) (mpiexec_numproc_flag c) (mpisuffix c).

Definition set_configure_cmd (v : string) (c : Cfg) : Cfg :=
  mkCfg (configopts c) (buildopts c) (installopts c) (install_cmd c) (build_cmd c) v
    (runtest c) (double_precision c) (build_shared_libs c) (parallel c) (mpi_numprocs c)
    (mpiexec c) (mpiexec_numproc_flag c) (mpisuffix c).

Definition set_runtest (v : runtest_val) (c : Cfg) : Cfg :=
  mkCfg (configopts c) (buildopts c) (installopts c) (install_cmd c) (build_cmd c)
    (configure_cmd c) v (double_precision c) (build_shared_libs c) (parallel c)
    (mpi_numprocs c) (mpiexec c) (mpiexec_numproc_flag c) (mpisuffix c).

Definition set_double_precision (v : option bool) (c : Cfg) : Cfg :=
  mkCfg (configopts c) (buildopts c) (installopts c) (install_cmd c) (build_cmd c)
    (configure_cmd c) (runtest c) v (build_shared_libs c) (parallel c)
    (mpi_numprocs c) (mpiexec c) (mpiexec_numproc_flag c) (mpisuffix c).

Definition set_build_shared_libs (v : bool) (c : Cfg) : Cfg :=
  mkCfg (configopts c) (buildopts c) (installopts c) (install_cmd c) (build_cmd c)
    (configure_cmd c) (runtest c) (double_precision c) v (parallel c)
    (mpi_numprocs c) (mpiexec c) (mpiexec_numproc_flag c) (mpisuffix c).

(** The steps of the parent classes the easyblock delegates to. *)
Inductive ParentStep :=
| ConfigureMake_configure_step
| Super_configure_step
| Super_build_step
| Super_test_step
| Super_install_step
| Super_extensions_step.

(** What a run leaves behind: log records (message template and arguments),
    warnings printed with [print_warning], shell commands, and calls of
    parent steps with the iteration index they were made in. *)
Inductive Event :=
| EvLog (template : string) (args : list string)
| EvPrintWarning (msg : string)
| EvRunCmd (cmd : string)
| EvParent (s : ParentStep) (idx : nat).

(** Exceptions.  [EasyBuildError] carries the message template and its
    arguments, as the constructor of the Python class does. *)
Inductive Error :=
| EasyBuildError (template : string) (args : list string)
| StepFailure (s : ParentStep)
| CmdFailure (cmd : string)
| KeyError (key : string)
| TypeError (what : string)
| AttributeError (what : string).

(** The easyblock instance: [self.cfg], the attributes [run_all_steps]
    assigns, the iteration index kept by the framework, and the process
    environment.  The steps are only called by the driver after
    [run_all_steps] has assigned [save_installopts], [double_prec_pattern]
    and [variants_to_build], so these are plain fields. *)
Record State := mkState {
  cfg : Cfg;
  save_installopts : optval;
  save_install_cmd : string;
  save_build_cmd : string;
  double_prec_pattern : string;
  variants_to_build : Z;
  iter_idx : nat;
  lib_subdir : string;
  libext : string;
  environ : list (string * string);
  trace : list Event
}.

(** The outcome of a method: it returns, or it raises.  An exception does
    not undo what the method had done to the instance: [Err e st] carries
    the state [st] the instance was in when [e] was raised. *)
Inductive result (A : Type) :=
| Ok (a : A)
| Err (e : Error) (st : State).
Arguments Ok {A} a.
Arguments Err {A} e st.

Definition with_cfg (f : Cfg -> Cfg) (st : State) : State :=
  mkState (f (cfg st)) (save_installopts st) (save_install_cmd st) (save_build_cmd st)
    (double_prec_pattern st) (variants_to_build st) (iter_idx st) (lib_subdir st)
    (libext st) (environ st) (trace st).

Definition set_save_installopts (v : optval) (st : State) : State :=
  mkState (cfg st) v (save_install_cmd st) (save_build_cmd st)
    (double_prec_pattern st) (variants_to_build st) (iter_idx st) (lib_subdir st)
    (libext st) (environ st) (trace st).

Definition set_save_install_cmd (v : string) (st : State) : State :=
  mkState (cfg st) (save_installopts st) v (save_build_cmd st)
    (double_prec_pattern st) (variants_to_build st) (iter_idx st) (lib_subdir st)
    (libext st) (environ st) (trace st).

Definition set_save_build_cmd (v : string) (st : State) : State :=
  mkState (cfg st) (save_installopts st) (save_install_cmd st) v
    (double_prec_pattern st) (variants_to_build st) (iter_idx st) (lib_subdir st)
    (libext st) (environ st) (trace st).

Definition set_double_prec_pattern (v : string) (st : State) : State :=
  mkState (cfg st) (save_installopts st) (save_install_cmd st) (save_build_cmd st)
    v (variants_to_build st) (iter_idx st) (lib_subdir st)
    (libext st) (environ st) (trace st).

Definition set_variants_to_build (v : Z) (st : State) : State :=
  mkState (cfg st) (save_installopts st) (save_install_cmd st) (save_build_cmd st)
    (double_prec_pattern st) v (iter_idx st) (lib_subdir st)
    (libext st) (environ st) (trace st).

Definition set_iter_idx (v : nat) (st : State) : State :=
  mkState (cfg st) (save_installopts st) (save_install_cmd st) (save_build_cmd st)
    (double_prec_pattern st) (variants_to_build st) v (lib_subdir st)
    (libext st) (environ st) (trace st).

Definition set_lib_subdir (v : string) (st : State) : State :=
  mkState (cfg st) (save_installopts st) (save_install_cmd st) (save_build_cmd st)
    (double_prec_pattern st) (variants_to_build st) (iter_idx st) v
    (libext st) (environ st) (trace st).

Definition set_libext (v : string) (st : State) : State :=
  mkState (cfg st) (save_installopts st) (save_install_cmd st) (save_build_cmd st)
    (double_prec_pattern st) (variants_to_build st) (iter_idx st) (lib_subdir st)
    v (environ st) (trace st).

Definition set_environ (v : list (string * string)) (st : State) : State :=
  mkState (cfg st) (save_installopts st) (save_install_cmd st) (save_build_cmd st)
    (double_prec_pattern st) (variants_to_build st) (iter_idx st) (lib_subdir st)
    (libext st) v (trace st).

Definition add_event (e : Event) (st : State) : State :=
  mkState (cfg st) (save_installopts st) (save_install_cmd st) (save_build_cmd st)
    (double_prec_pattern st) (variants_to_build st) (iter_idx st) (lib_subdir st)
    (libext st) (environ st) (trace st ++ [e]).

(** What the easyblock asks of the host framework and of the machine. *)
Record Env := mkEnv {
  version : Version;                                (* self.version *)
  installdir : string;                              (* self.installdir *)
  src_names : list string;                          (* src['name'] for src in self.src *)
  tc_usempi : bool;                                 (* toolchain.options.get('usempi', None) *)
  tc_openmp : bool;                                 (* toolchain.options.get('openmp', None) *)
  tc_is_craype : bool;                              (* toolchain_family() == toolchain.CRAYPE *)
  optarch : string;                                 (* build_option('optarch') or '' *)
  cpu_is_x86_64 : bool;                             (* get_cpu_architecture() == X86_64 *)
  shared_lib_ext : string;                          (* get_shared_lib_ext() *)
  get_software_root : string -> option string;
  get_software_version : string -> option string;
  get_software_libdir : string -> option string;
  which : string -> option string;
  run_cmd : string -> option string;                (* None: the command failed *)
  re_search : string -> string -> bool;             (* re.search(pattern, text) finds a match *)
  glob : string -> list string;
  path_exists : string -> bool;
  parent_step : ParentStep -> State -> option string (* None: the step failed; else its output *)
}.

(** ** The state-and-error monad of the methods *)

Definition M (A : Type) : Type := State -> result (A * State).

Definition ret {A} (a : A) : M A := fun st => Ok (a, st).

Definition bind {A B} (c : M A) (f : A -> M B) : M B :=
  fun st =>
    match c st with
    | Ok (a, st') => f a st'
    | Err e st' => Err e st'
    end.

Definition raise {A} (e : Error) : M A := fun st => Err e st.

Definition gets {A} (f : State -> A) : M A := fun st => Ok (f st, st).

Definition modify (f : State -> State) : M unit := fun st => Ok (tt, f st).

Declare Scope py_scope.
Delimit Scope py_scope with py.
Notation "x <- c1 ;; c2" := (bind c1 (fun x => c2))
  (at level 61, c1 at next level, right associativity) : py_scope.
Notation "c1 ;; c2" := (bind c1 (fun _ => c2))
  (at level 61, right associativity) : py_scope.
Local Open Scope py_scope.

(** [for x in l: body(x)] *)
Fixpoint for_each {B} (l : list B) (body : B -> M unit) : M unit :=
  match l with
  | [] => ret tt
  | x :: l' => body x ;; for_each l' body
  end.

(** A loop that threads a local variable [acc] through its body. *)
Fixpoint for_fold {A B} (l : list B) (acc : A) (body : A -> B -> M A) : M A :=
  match l with
  | [] => ret acc
  | x :: l' => acc' <- body acc x ;; for_fold l' acc' body
  end.

(** The final state of a computation, if it returns. *)
Definition exec {A} (c : M A) (st : State) : option State :=
  match c st with
  | Ok (_, st') => Some st'
  | Err _ _ => None
  end.

(** The exception a computation ends in and the state it leaves, if it
    raises. *)
Definition raised {A} (c : M A) (st : State) : option (Error * State) :=
  match c st with
  | Ok _ => None
  | Err e st' => Some (e, st')
  end.

(** *** Reading and writing [self.cfg], logging, the process environment *)

Definition cfg_get {A} (f : Cfg -> A) : M A := gets (fun st => f (cfg st)).

Definition cfg_set (k : OptKey) (v : optval) : M unit := modify (with_cfg (set_opt k v)).

Definition log (template : string) (args : list string) : M unit :=
  modify (add_event (EvLog template args)).

(** [print_warning(msg)] *)
Definition print_warning (msg : string) : M unit :=
  modify (add_event (EvPrintWarning msg)).

(** [EasyConfig.update(key, value)] of the host framework: the items of
    [value] (a string counts as one item) are appended, to a string value
    each as [' %s ' % item], to a list value as new elements. *)
Definition update_value (prev value : optval) : optval :=
  let lval := match value with OStr s => [s] | OList l => l end in
  match prev with
  | OStr p => OStr (fold_left (fun acc item => acc ++ " " ++ item ++ " ") lval p)
  | OList l => OList (fold_left (fun acc item => (acc ++ [item])%list) lval l)
  end.

Definition cfg_update (k : OptKey) (value : optval) : M unit :=
  modify (with_cfg (fun c => set_opt k (update_value (get_opt k c) value) c)).

(** [cfg.update('runtest', item)]: the framework refuses a value that is
    neither a string nor a list. *)
Definition cfg_update_runtest (item : string) : M unit :=
  rt <- cfg_get runtest ;;
  match rt with
  | RStr s => modify (with_cfg (set_runtest (RStr (s ++ " " ++ item ++ " "))))
  | _ => raise (EasyBuildError
                  "Can't update configuration value for %s, because it's not a string or list."
                  ["runtest"])
  end.

Fixpoint lookup (k : string) (l : list (string * string)) : option string :=
  match l with
  | [] => None
  | (k', v) :: l' => if String.eqb k k' then Some v else lookup k l'
  end.

(** [os.getenv(k)] *)
Definition getenv (k : string) : M (option string) := gets (fun st => lookup k (environ st)).

(** [os.environ[k]] *)
Definition environ_item (k : string) : M string :=
  v <- getenv k ;;
  match v with
  | Some s => ret s
  | None => raise (KeyError k)
  end.

(** [os.environ.get(k, '')] *)
Definition environ_get (k : string) : M string :=
  v <- getenv k ;;
  ret (match v with Some s => s | None => "" end).

(** [env.setvar(k, v)] *)
Definition setvar (k v : string) : M unit :=
  modify (fun st => set_environ ((k, v) :: environ st) st).

(** *** Truth values *)

Definition truthy_str (s : string) : bool := negb (String.eqb s "").

Definition truthy_opt (o : option string) : bool :=
  match o with
  | Some s => truthy_str s
  | None => false
  end.

Definition truthy_runtest (r : runtest_val) : bool :=
  match r with
  | RNone => false
  | RBool b => b
  | RStr s => truthy_str s
  end.

Definition truthy_flag (o : option bool) : bool :=
  match o with
  | Some b => b
  | None => false
  end.

(** [pat in v]: a substring test when [v] is a string, membership when it
    is a list. *)
Definition py_in (pat : string) (v : optval) : bool :=
  match v with
  | OStr s => Py.str_in pat s
  | OList l => existsb (String.eqb pat) l
  end.

(** [len(v)] *)
Definition py_len (v : optval) : Z :=
  match v with
  | OStr s => Z.of_nat (String.length s)
  | OList l => Z.of_nat (List.length l)
  end.

(** The double quote, for the messages and options that quote a word. *)
Definition dquote : string := String (ascii_of_nat 34) EmptyString.

(** The message of [str + list]: the type name is in double quotes. *)
Definition MSG_STR_PLUS_LIST : string :=
  "can only concatenate str (not " ++ dquote ++ "list" ++ dquote ++ ") to str".

(** [s + v] for a string [s]: a [TypeError] unless [v] is a string too. *)
Definition str_plus (s : string) (v : optval) : M string :=
  match v with
  | OStr s' => ret (s ++ s')
  | OList _ => raise (TypeError MSG_STR_PLUS_LIST)
  end.

Definition str_of_opt (o : option string) : string :=
  match o with
  | Some s => s
  | None => "None"
  end.

Definition str_of_nat (n : nat) : string := Py.str_of_int (Z.of_nat n).

(** [repr(v)], for log records (quotes inside the strings are not escaped). *)
Definition repr_optval (v : optval) : string :=
  match v with
  | OStr s => "'" ++ s ++ "'"
  | OList l => "[" ++ Py.join ", " (map (fun s => "'" ++ s ++ "'") l) ++ "]"
  end.

(** ** The methods of [EB_GROMACS] *)

Inductive Precision := single | double.
Inductive MpiType := nompi | mpi.

Definition precision_name (p : Precision) : string :=
  match p with single => "single" | double => "double" end.

Definition mpitype_name (m : MpiType) : string :=
  match m with nompi => "nompi" | mpi => "mpi" end.

Section Easyblock.

Variable env : Env.

Definition version_string : string := Py.join "." (map str_of_nat (version env)).

Definition software_root (name : string) : option string := get_software_root env name.

(** A call of a parent class' step.  The parent steps are external: they
    succeed or fail, the easyblock's own attributes and the parameters
    modelled in [Cfg] are left as they are.  The call is recorded whether
    the step succeeds or fails. *)
Definition call_parent (s : ParentStep) : M string :=
  fun st =>
    match parent_step env s st with
    | Some out => Ok (out, add_event (EvParent s (iter_idx st)) st)
    | None => Err (StepFailure s) (add_event (EvParent s (iter_idx st)) st)
    end.

(** [run_cmd(cmd, log_all=True, ...)]: a failing command is an error. *)
Definition do_run_cmd (cmd : string) : M string :=
  modify (add_event (EvRunCmd cmd)) ;;
  match run_cmd env cmd with
  | Some out => ret out
  | None => raise (CmdFailure cmd)
  end.

(** *** [get_gromacs_arch] *)

(** [optarch env] is the build option after the lookup by compiler family.
    The warning of lines 120-123 is formatted first, then logged and
    printed. *)

Definition OPTARCH_GENERIC : string := "GENERIC".

Definition get_gromacs_arch : M (option string) :=
  let optarch := Py.upper (optarch env) in
  res <-
    (if Py.str_in "MIC-AVX512" optarch && loose_ge (version env) [2016] then
       ret (Some "AVX_512_KNL")
     else if Py.str_in "AVX512" optarch && loose_ge (version env) [2016] then
       ret (Some "AVX_512")
     else if Py.str_in "AVX2" optarch && loose_ge (version env) [5; 0] then
       ret (Some "AVX2_256")
     else if Py.str_in "AVX" optarch then
       ret (Some "AVX_256")
     else if Py.str_in "SSE3" optarch || Py.str_in "SSE2" optarch
             || Py.str_in "MARCH=NOCONA" optarch then
       ret (Some "SSE2")
     else if String.eqb optarch OPTARCH_GENERIC then
       (if cpu_is_x86_64 env then ret (Some "SSE2") else ret (Some "None"))
     else if truthy_str optarch then
       let warn_msg :=
         "--optarch configuration setting set to " ++ optarch
         ++ " but not taken into account; "
         ++ "compiling GROMACS for the current host architecture (i.e. the default behavior)" in
       log warn_msg [] ;;
       print_warning warn_msg ;;
       ret None
     else ret None) ;;
  (if truthy_opt res then
     log "Target architecture based on optarch configuration option ('%s'): %s"
       [optarch; str_of_opt res]
   else
     log "No target architecture specified based on optarch configuration option ('%s')"
       [optarch]) ;;
  ret res.

(** *** [is_double_precision_cuda_build] *)

(** The method only reads [self]; its result is used as a truth value. *)
Definition is_double_precision_cuda_build (st : State) : bool :=
  let cuda := software_root "CUDA" in
  truthy_opt cuda && py_in (double_prec_pattern st) (configopts (cfg st)).

(** *** [run_all_steps]: planning the variants *)

Definition prec_opts (p : Precision) : string :=
  if loose_lt (version env) [4; 6] then
    match p with
    | single => "--disable-double"
    | double => "--enable-double"
    end
  else
    match p with
    | single => "-DGMX_DOUBLE=OFF"
    | double => "-DGMX_DOUBLE=ON"
    end.

Definition mpi_type_opts (m : MpiType) : string :=
  if loose_lt (version env) [4; 6] then
    match m with
    | nompi => "--disable-mpi"
    | mpi => "--enable-mpi"
    end
  else
    match m with
    | nompi => "-DGMX_MPI=OFF -DGMX_THREAD_MPI=ON"
    | mpi => "-DGMX_MPI=ON -DGMX_THREAD_MPI=OFF"
    end.

Definition build_opts (m : MpiType) : string :=
  if loose_lt (version env) [5] then
    match m with
    | nompi => ""
    | mpi => "mdrun"
    end
  else
    match m with
    | nompi => ""
    | mpi => ""
    end.

Definition install_opts (m : MpiType) : string :=
  if loose_lt (version env) [5] then
    match m with
    | nompi => "install"
    | mpi => "install-mdrun"
    end
  else
    match m with
    | nompi => "install"
    | mpi => "install"
    end.

(** [precisions], lines 637-639. *)
Definition precisions (dp : option bool) : list Precision :=
  [single] ++
  (if match dp with None => true | Some b => b end then [double] else []).

(** [mpitypes], lines 641-643. *)
Definition mpitypes : list MpiType :=
  [nompi] ++ (if tc_usempi env then [mpi] else []).

(** The label appended to [versions_built]. *)
Definition variant_label (p : Precision) (m : MpiType) : string :=
  precision_name p ++ " precision " ++ mpitype_name m.

(** The local [suffix] of lines 659-663, for GROMACS < 4.6. *)
Definition program_suffix (sfx : string) (p : Precision) (m : MpiType) : string :=
  match m with
  | mpi => "--program-suffix=" ++ sfx ++ match p with double => "_d" | single => "" end
  | nompi => ""
  end.

(** [var_confopts] as the loop body builds it, lines 652-664. *)
Definition var_confopts (sfx : string) (p : Precision) (m : MpiType) : list string :=
  [mpi_type_opts m] ++ [prec_opts p] ++
  (if loose_lt (version env) [4; 6] then [program_suffix sfx p m] else []).

(** The body of the inner loop, lines 651-671; [versions_built] is the
    local list of labels. *)
Definition plan_variant (common_config_opts common_build_opts common_install_opts : optval)
    (versions_built : list string) (p : Precision) (m : MpiType) : M (list string) :=
  let versions_built := (versions_built ++ [variant_label p m])%list in
  sfx <- cfg_get mpisuffix ;;
  let var_buildopts := [build_opts m] in
  let var_installopts := [install_opts m] in
  c <- str_plus (Py.join " " (var_confopts sfx p m) ++ " ") common_config_opts ;;
  cfg_update K_configopts (OList [c]) ;;
  b <- str_plus (Py.join " " var_buildopts ++ " ") common_build_opts ;;
  cfg_update K_buildopts (OList [b]) ;;
  i <- str_plus (Py.join " " var_installopts ++ " ") common_install_opts ;;
  cfg_update K_installopts (OList [i]) ;;
  ret versions_built.

(** [run_all_steps] up to the assignment of [variants_to_build],
    lines 574-672; the result is [versions_built]. *)
Definition plan_variants : M (list string) :=
  io <- cfg_get installopts ;;
  modify (set_save_installopts io) ;;
  common_config_opts <- cfg_get configopts ;;
  common_build_opts <- cfg_get buildopts ;;
  common_install_opts <- cfg_get installopts ;;
  ic <- cfg_get install_cmd ;;
  modify (set_save_install_cmd ic) ;;
  bc <- cfg_get build_cmd ;;
  modify (set_save_build_cmd bc) ;;
  cfg_set K_configopts (OList []) ;;
  cfg_set K_buildopts (OList []) ;;
  cfg_set K_installopts (OList []) ;;
  modify (set_double_prec_pattern (prec_opts double)) ;;
  (if loose_lt (version env) [5] then modify (with_cfg (set_install_cmd "make"))
   else ret tt) ;;
  dp <- cfg_get double_precision ;;
  modify (set_variants_to_build 0) ;;
  versions_built <-
    for_fold (precisions dp) [] (fun vb precicion =>
      for_fold mpitypes vb (fun vb mpitype =>
        plan_variant common_config_opts common_build_opts common_install_opts
          vb precicion mpitype)) ;;
  co <- cfg_get configopts ;;
  modify (set_variants_to_build (py_len co)) ;;
  ret versions_built.

(** *** [configure_step] *)

Definition MSG_DOUBLE_GPU : string :=
  "Double precision is not available for GPU build. Please explicitly set "
  ++ dquote ++ "double_precision = False" ++ dquote ++ " or remove it in the easyconfig file.".

(** Lines 159-184.  The result is [true] when the step returns here
    (line 178), [false] when it goes on. *)
Definition configure_cuda_check : M bool :=
  if loose_ge (version env) [4; 6] then
    let cuda := software_root "CUDA" in
    if truthy_opt cuda then
      dp <- cfg_get double_precision ;;
      if truthy_flag dp then raise (EasyBuildError MSG_DOUBLE_GPU [])
      else
        pat <- gets double_prec_pattern ;;
        co <- cfg_get configopts ;;
        if py_in pat co then
          dp <- cfg_get double_precision ;;
          match dp with
          | None =>
              modify (with_cfg (set_double_precision (Some false))) ;;
              log "Double precision is not available for GPU build. Skipping the double precision build." []
          | Some _ => ret tt
          end ;;
          log "skipping configure step" [] ;;
          ret true
        else
          cfg_update K_configopts
            (OStr ("-DGMX_GPU=ON -DCUDA_TOOLKIT_ROOT_DIR=" ++ str_of_opt cuda)) ;;
          ret false
    else
      cfg_update K_configopts (OStr "-DGMX_GPU=OFF") ;;
      ret false
  else ret false.

(** Lines 186-199: the first part of [plumed_cmd], when PLUMED is a
    dependency. *)
Definition configure_plumed_check : M (option string) :=
  if truthy_opt (software_root "PLUMED") then
    let engine := "gromacs-" ++ version_string in
    out <- do_run_cmd "plumed-patch -l" ;;
    if negb (re_search env engine out) then
      raise (EasyBuildError "There is no support in PLUMED version %s for GROMACS %s: %s"
               [str_of_opt (get_software_version env "PLUMED"); version_string; out])
    else ret (Some ("plumed-patch -p -e " ++ engine))
  else ret None.

(** Lines 202-238: GROMACS < 4.6, configured with a configure script. *)
Definition configure_legacy (plumed_cmd : option string) : M unit :=
  log "Using configure script for configuring GROMACS build." [] ;;
  bsl <- cfg_get build_shared_libs ;;
  (if bsl then cfg_update K_configopts (OStr "--enable-shared --disable-static")
   else cfg_update K_configopts (OStr "--enable-static")) ;;
  cfg_update K_configopts (OStr "--with-external-blas --with-external-lapack") ;;
  liblapack <- environ_item "LIBLAPACK" ;;
  libs <- environ_item "LIBS" ;;
  setvar "LIBS" (liblapack ++ " " ++ libs) ;;
  cfg_update K_configopts (OStr "--without-x") ;;
  (if loose_ge (version env) [4; 5] then
     (if tc_openmp env then cfg_update K_configopts (OStr "--enable-threads")
      else cfg_update K_configopts (OStr "--disable-threads"))
   else if tc_openmp env then
     raise (EasyBuildError ("GROMACS version " ++ version_string ++ " does not support OpenMP")
              [])
   else ret tt) ;;
  (if truthy_opt (software_root "GSL") then cfg_update K_configopts (OStr "--with-gsl")
   else cfg_update K_configopts (OStr "--without-gsl")) ;;
  modify (with_cfg (set_configure_cmd "./configure")) ;;
  call_parent ConfigureMake_configure_step ;;
  match plumed_cmd with
  | Some cmd => do_run_cmd cmd ;; ret tt
  | None => ret tt
  end.

(** Lines 241-261: the MPI executable of an MPI variant. *)
Definition configure_mpi_options : M unit :=
  co <- cfg_get configopts ;;
  if py_in "-DGMX_MPI=ON" co then
    n0 <- cfg_get mpi_numprocs ;;
    par <- cfg_get parallel ;;
    numprocs <-
      (if (n0 =? 0)%Z then
         log "No number of test MPI tasks specified -- using default: %s" [Py.str_of_int par] ;;
         ret par
       else if (n0 >? par)%Z then
         log "Number of test MPI tasks (%s) is greater than value for 'parallel': %s"
           [Py.str_of_int n0; Py.str_of_int par] ;;
         ret n0
       else ret n0) ;;
    name <- cfg_get mpiexec ;;
    flag <- cfg_get mpiexec_numproc_flag ;;
    let found := which env name in
    (if truthy_opt found then
       cfg_update K_configopts (OStr ("-DMPIEXEC=" ++ str_of_opt found)) ;;
       cfg_update K_configopts (OStr ("-DMPIEXEC_NUMPROC_FLAG=" ++ flag)) ;;
       cfg_update K_configopts (OStr ("-DNUMPROC=" ++ Py.str_of_int numprocs))
     else
       rt <- cfg_get runtest ;;
       if truthy_runtest rt then raise (EasyBuildError "'%s' not found in $PATH" [name])
       else ret tt) ;;
    log "Using %s as MPI executable when testing, with numprocs flag '%s' and %s tasks"
      [name; flag; Py.str_of_int numprocs]
  else ret tt.

(** [[os.path.join(libdir, lib) for lib in libs if lib != 'libgfortran.a']] *)
Definition lib_paths (libdir : option string) (libs : list string) : M (list string) :=
  for_fold (filter (fun lib => negb (String.eqb lib "libgfortran.a")) libs) []
    (fun acc lib =>
       match libdir with
       | Some d => ret (acc ++ [Py.path_join d lib])%list
       | None => raise (TypeError "expected str, bytes or os.PathLike object, not NoneType")
       end).

(** [os.getenv(k).split(',')] *)
Definition getenv_split (k : string) : M (list string) :=
  v <- getenv k ;;
  match v with
  | Some s => ret (Py.split "," s)
  | None => raise (AttributeError "'NoneType' object has no attribute 'split'")
  end.

(** Lines 325-348: FFT, BLAS and LAPACK. *)
Definition configure_blas_lapack : M unit :=
  if truthy_opt (software_root "imkl") then
    cfg_update K_configopts
      (OStr ("-DGMX_FFT_LIBRARY=mkl -DMKL_INCLUDE_DIR=" ++ dquote
             ++ "$EBROOTMKL/mkl/include" ++ dquote ++ " ")) ;;
    libs <- getenv_split "LAPACK_STATIC_LIBS" ;;
    libdir <- getenv "LAPACK_LIB_DIR" ;;
    mkl_libs <- lib_paths libdir libs ;;
    let mkl_libs := (["-Wl,--start-group"] ++ mkl_libs ++ ["-Wl,--end-group"])%list in
    cfg_update K_configopts
      (OStr ("-DMKL_LIBRARIES=" ++ dquote ++ Py.join ";" mkl_libs ++ dquote ++ " "))
  else
    for_each ["BLAS"; "LAPACK"] (fun libname =>
      libdir <- getenv (libname ++ "_LIB_DIR") ;;
      if tc_is_craype env then
        match libdir with
        | None => raise (TypeError "expected str, bytes or os.PathLike object, not NoneType")
        | Some d =>
            match glob env (Py.path_join d "libsci_*_mpi_mp.a") with
            | first :: _ =>
                cfg_update K_configopts (OStr ("-DGMX_" ++ libname ++ "_USER=" ++ first))
            | [] =>
                raise (EasyBuildError "Failed to find libsci library to link with for %s"
                         [libname])
            end
        end
      else
        libs <- getenv_split (libname ++ "_STATIC_LIBS") ;;
        libpaths <- lib_paths libdir libs ;;
        cfg_update K_configopts
          (OStr ("-DGMX_" ++ libname ++ "_USER=" ++ dquote ++ Py.join ";" libpaths ++ dquote)) ;;
        if existsb (String.eqb "libgfortran.a") libs then
          ldflags <- environ_get "LDFLAGS" ;;
          setvar "LDFLAGS" (ldflags ++ " -lgfortran -lm")
        else ret tt).

(** Lines 263-380: after the MPI options, for GROMACS >= 4.6. *)
Definition configure_cmake_rest (plumed_cmd : option string) : M unit :=
  (if loose_ge (version env) [2019] then
     modify (with_cfg (set_build_shared_libs true)) ;;
     cfg_update K_configopts (OStr "-DGMXAPI=ON") ;;
     if loose_ge (version env) [2020] then
       let python_root := software_root "Python" in
       if truthy_opt python_root then
         cfg_update K_configopts
           (OStr ("-DPYTHON_EXECUTABLE="
                  ++ Py.path_join (Py.path_join (str_of_opt python_root) "bin") "python")) ;;
         cfg_update K_configopts (OStr "-DGMX_PYTHON_PACKAGE=ON")
       else ret tt
     else ret tt
   else ret tt) ;;
  match plumed_cmd with
  | Some cmd0 =>
      cmd <-
        (if loose_ge (version env) [5; 1] then
           bsl <- cfg_get build_shared_libs ;;
           ret (cmd0 ++ " -m " ++ (if bsl then "shared" else "static"))
         else ret cmd0) ;;
      do_run_cmd cmd ;; ret tt
  | None => ret tt
  end ;;
  bsl <- cfg_get build_shared_libs ;;
  (if bsl then cfg_update K_configopts (OStr "-DGMX_PREFER_STATIC_LIBS=OFF")
   else cfg_update K_configopts (OStr "-DGMX_PREFER_STATIC_LIBS=ON")) ;;
  cfg_update K_configopts (OStr "-DGMX_EXTERNAL_BLAS=ON -DGMX_EXTERNAL_LAPACK=ON") ;;
  cfg_update K_configopts (OStr "-DGMX_X11=OFF") ;;
  (if negb (tc_is_craype env) then
     gmx_simd <- get_gromacs_arch ;;
     if truthy_opt gmx_simd then
       if loose_lt (version env) [5; 0] then
         cfg_update K_configopts (OStr ("-DGMX_CPU_ACCELERATION=" ++ str_of_opt gmx_simd))
       else cfg_update K_configopts (OStr ("-DGMX_SIMD=" ++ str_of_opt gmx_simd))
     else ret tt
   else ret tt) ;;
  (if existsb (fun name => Py.startswith name "regressiontests") (src_names env) then
     cfg_update K_configopts
       (OStr "-DREGRESSIONTEST_PATH='%(builddir)s/regressiontests-%(version)s' ")
   else ret tt) ;;
  (if tc_openmp env then cfg_update K_configopts (OStr "-DGMX_OPENMP=ON")
   else cfg_update K_configopts (OStr "-DGMX_OPENMP=OFF")) ;;
  configure_blas_lapack ;;
  (if loose_lt (version env) [5; 0] then
     (if truthy_opt (software_root "GSL") then cfg_update K_configopts (OStr "-DGMX_GSL=ON")
      else cfg_update K_configopts (OStr "-DGMX_GSL=OFF"))
   else ret tt) ;;
  for_each [("XZ", "-llzma"); ("zlib", "-lz")] (fun '(dep, link_flag) =>
    let root := software_root dep in
    if truthy_opt root then
      match get_software_libdir env dep with
      | None => raise (TypeError "expected str, bytes or os.PathLike object, not NoneType")
      | Some libdir =>
          ldflags <- environ_get "LDFLAGS" ;;
          setvar "LDFLAGS"
            (ldflags ++ " -L" ++ Py.path_join (str_of_opt root) libdir ++ " " ++ link_flag)
      end
    else ret tt) ;;
  out <- call_parent Super_configure_step ;;
  if loose_ge (version env) [4; 6; 5] then
    for_each ["Using external FFT library - \S*";
              "Looking for dgemm_ - found";
              "Looking for cheev_ - found"] (fun pattern =>
      if negb (re_search env pattern out) then
        raise (EasyBuildError "Pattern '%s' not found in GROMACS configuration output."
                 [pattern])
      else ret tt)
  else ret tt.

Definition configure_step : M unit :=
  returned <- configure_cuda_check ;;
  if returned then ret tt
  else
    plumed_cmd <- configure_plumed_check ;;
    if loose_lt (version env) [4; 6] then configure_legacy plumed_cmd
    else
      configure_mpi_options ;;
      configure_cmake_rest plumed_cmd.

(** *** [build_step], [test_step], [install_step], [extensions_step] *)

Definition build_step : M unit :=
  skip <- gets is_double_precision_cuda_build ;;
  if skip then log "skipping build step" []
  else call_parent Super_build_step ;; ret tt.

Definition test_step : M unit :=
  skip <- gets is_double_precision_cuda_build ;;
  if skip then log "skipping test step" []
  else
    rt <- cfg_get runtest ;;
    if match rt with RNone => true | _ => truthy_runtest rt end then
      old_runtest <- cfg_get runtest ;;
      setvar "OMP_NUM_THREADS" "1" ;;
      rt <- cfg_get runtest ;;
      match rt with
      | RNone | RBool _ => modify (with_cfg (set_runtest (RStr "check")))
      | RStr _ => ret tt
      end ;;
      par <- cfg_get parallel ;;
      cfg_update_runtest ("-j " ++ Py.str_of_int par) ;;
      call_parent Super_test_step ;;
      modify (with_cfg (set_runtest old_runtest))
    else ret tt.

(** The inner loop of lines 448-453, left at the first directory in which
    [glob] finds the library. *)
Fixpoint find_lib_subdir (libname : string) (subdirs : list string) : M unit :=
  match subdirs with
  | [] => ret tt
  | subdir :: rest =>
      match glob env (Py.path_join (Py.path_join (installdir env) subdir) libname) with
      | first :: _ =>
          modify (set_lib_subdir
                    (Py.drop (String.length (installdir env) + 1) (Py.dirname first))) ;;
          ls <- gets lib_subdir ;;
          log "Found lib subdirectory that contains %s: %s" [libname; ls]
      | [] => find_lib_subdir libname rest
      end
  end.

Definition install_step : M unit :=
  skip <- gets is_double_precision_cuda_build ;;
  if skip then log "skipping install step" []
  else
    par <- cfg_get parallel ;;
    cfg_update K_installopts (OStr ("-j " ++ Py.str_of_int par)) ;;
    call_parent Super_install_step ;;
    bsl <- cfg_get build_shared_libs ;;
    (if bsl then modify (set_libext (shared_lib_ext env))
     else modify (set_libext "a")) ;;
    ext <- gets libext ;;
    let libname :=
      if loose_lt (version env) [5; 0] then "libgmx*." ++ ext else "libgromacs*." ++ ext in
    for_each ["lib"; "lib64"] (fun libdir =>
      if path_exists env (Py.path_join (installdir env) libdir) then
        find_lib_subdir libname [libdir; Py.path_join libdir "*"]
      else ret tt) ;;
    ls <- gets lib_subdir ;;
    if negb (truthy_str ls) then
      raise (EasyBuildError "Failed to determine lib subdirectory in %s" [installdir env])
    else
      saved <- gets save_installopts ;;
      cfg_set K_installopts saved.

Definition extensions_step : M unit :=
  idx <- gets iter_idx ;;
  n <- gets variants_to_build ;;
  if (Z.of_nat idx <? n - 1)%Z then
    log "skipping extension step %s" [str_of_nat idx]
  else
    modify (with_cfg (set_runtest RNone)) ;;
    call_parent Super_extensions_step ;;
    ret tt.

(** *** The host pipeline *)

(** Modelled from the spec: one point of the build matrix, holding the
    merged configure, build and install option strings. *)
Record Variant := mkVariant {
  v_configopts : string;
  v_buildopts : string;
  v_installopts : string
}.

Definition opt_items (v : optval) : list string :=
  match v with
  | OStr s => [s]
  | OList l => l
  end.

Fixpoint zip_variants (lc lb li : list string) : list Variant :=
  match lc, lb, li with
  | c :: lc', b :: lb', i :: li' => mkVariant c b i :: zip_variants lc' lb' li'
  | _, _, _ => []
  end.

(** Modelled from the spec: the sequence of variants the driver consumes,
    read off the three option lists planned by [run_all_steps]. *)
Definition planned_variants (st : State) : list Variant :=
  zip_variants (opt_items (configopts (cfg st))) (opt_items (buildopts (cfg st)))
    (opt_items (installopts (cfg st))).

(** Modelled from the spec: the parent's [run_all_steps] is the host
    framework's pipeline driver, which is not part of this repository.  For
    each variant in sequence order it makes the variant's merged option
    strings the active configuration, tracks the zero-based index of the
    variant as [iter_idx], and runs configure, build, test, install and the
    extension phase; an error in any step ends the run.  [activate_variant]
    is the first of these: the variant's strings become the active options
    and [iter_idx] its index. *)
Definition activate_variant (idx : nat) (v : Variant) (st : State) : State :=
  with_cfg (fun c => set_opt K_installopts (OStr (v_installopts v))
                       (set_opt K_buildopts (OStr (v_buildopts v))
                          (set_opt K_configopts (OStr (v_configopts v)) c)))
    (set_iter_idx idx st).

(** Modelled from the spec: the pipeline of one variant, which is part of
    the host framework's driver: configure, build, test and install with the
    variant's options active, then the extension phase. *)
Definition run_variant (idx : nat) (v : Variant) : M unit :=
  modify (activate_variant idx v) ;;
  configure_step ;;
  build_step ;;
  test_step ;;
  install_step ;;
  extensions_step.

(** Modelled from the spec: the variants are run one after another in
    sequence order, the index counting from [idx]; the first error ends the
    run. *)
Fixpoint run_variants (idx : nat) (vs : list Variant) : M unit :=
  match vs with
  | [] => ret tt
  | v :: rest => run_variant idx v ;; run_variants (S idx) rest
  end.

(** Modelled from the spec: [super(EB_GROMACS, self).run_all_steps], the
    driver of the host framework, absent from this repository. *)
Definition super_run_all_steps : M unit :=
  vs <- gets planned_variants ;;
  run_variants 0 vs.

(** *** [run_all_steps] *)

(** Lines 568-676.  The statements that follow the [return] (lines 678-681:
    the two assignments restoring [install_cmd] and [build_cmd], and a log
    record) are never reached and have no counterpart here. *)
Definition run_all_steps : M unit :=
  versions_built <- plan_variants ;;
  co <- cfg_get configopts ;;
  log "List of configure options to iterate over: %s" [repr_optval co] ;;
  log "Building these versions of GROMACS: %s" [Py.join ", " versions_built] ;;
  super_run_all_steps.

End Easyblock.

(** ** Concrete configurations *)

Module Example.

(** An easyconfig with common options ["--X"], testing enabled, and the
    precision left to the default. *)
Definition cfg0 : Cfg :=
  mkCfg (OStr "--X") (OStr "") (OStr "") "make install" "make" "cmake" (RBool true) None false
    4 0 "mpirun" "-np" "_mpi".

Definition st0 : State :=
  mkState cfg0 (OStr "") "" "" "" 0 0 "" ""
    [("BLAS_LIB_DIR", "/b"); ("BLAS_STATIC_LIBS", "libblas.a");
     ("LAPACK_LIB_DIR", "/l"); ("LAPACK_STATIC_LIBS", "liblapack.a");
     ("LIBLAPACK", "-llapack"); ("LIBS", "-lm")]
    [].

(** A machine on which every external step succeeds; GROMACS [v] built
    with an MPI toolchain, CUDA and [mpirun] present or not. *)
Definition env0 (v : Version) (cuda mpirun : bool) : Env :=
  mkEnv v "/opt/gromacs" [] true false false "" true "so"
    (fun name => if String.eqb name "CUDA" && cuda then Some "/opt/cuda" else None)
    (fun _ => None)
    (fun _ => Some "lib")
    (fun name => if mpirun then Some ("/usr/bin/" ++ name) else None)
    (fun _ => Some "")
    (fun _ _ => true)
    (fun pat => if Py.startswith pat "/opt/gromacs/lib/" then ["/opt/gromacs/lib/libgromacs.so"]
                else [])
    (fun path => String.eqb path "/opt/gromacs/lib")
    (fun _ _ => Some "").

End Example.

(** ** Vocabulary of the statements *)

(** The indices at which parent step [s] was called, in order. *)
Definition parent_step_eqb (a b : ParentStep) : bool :=
  match a, b with
  | ConfigureMake_configure_step, ConfigureMake_configure_step
  | Super_configure_step, Super_configure_step
  | Super_build_step, Super_build_step
  | Super_test_step, Super_test_step
  | Super_install_step, Super_install_step
  | Super_extensions_step, Super_extensions_step => true
  | _, _ => false
  end.

Fixpoint parent_calls (s : ParentStep) (tr : list Event) : list nat :=
  match tr with
  | [] => []
  | EvParent s' idx :: tr' =>
      if parent_step_eqb s s' then idx :: parent_calls s tr' else parent_calls s tr'
  | _ :: tr' => parent_calls s tr'
  end.

(** A computation that, when it returns, leaves the observation [f] of the
    state as it was. *)
Definition keeps {A X} (f : State -> X) (c : M A) : Prop :=
  forall st a st', c st = Ok (a, st') -> f st' = f st.

(** The state a complete run ends in; the starting state when it raises. *)
Definition final_state (env : Env) (st : State) : State :=
  match exec (run_all_steps env) st with
  | Some st' => st'
  | None => st
  end.

(** The state planning ends in; the starting state when it raises. *)
Definition planned_state (env : Env) (st : State) : State :=
  match exec (plan_variants env) st with
  | Some st' => st'
  | None => st
  end.

(** The state after the build, test, install and extensions steps of
    iteration [idx] have all been skipped: four log records. *)
Definition skipped_variant (idx : nat) (st : State) : State :=
  add_event (EvLog "skipping extension step %s" [str_of_nat idx])
    (add_event (EvLog "skipping install step" [])
       (add_event (EvLog "skipping test step" [])
          (add_event (EvLog "skipping build step" []) st))).

(** A computation all of whose exceptions satisfy [P]. *)
Definition raises_only {A} (P : Error -> Prop) (c : M A) : Prop :=
  forall st e st', c st = Err e st' -> P e.

(** Any exception but the one of line 258. *)
Definition not_mpiexec_error (e : Error) : Prop :=
  forall args, e <> EasyBuildError "'%s' not found in $PATH" args.

(** The PLUMED check of lines 187-195 passes: PLUMED is not a dependency,
    or [plumed-patch -l] runs and lists an engine for this version. *)
Definition plumed_check_passes (env : Env) : bool :=
  if truthy_opt (get_software_root env "PLUMED") then
    match run_cmd env "plumed-patch -l" with
    | Some out => re_search env ("gromacs-" ++ version_string env) out
    | None => false
    end
  else true.

(** The option of line 180 with CUDA, of line 184 without. *)
Definition gpu_option (env : Env) : string :=
  let cuda := get_software_root env "CUDA" in
  if truthy_opt cuda then "-DGMX_GPU=ON -DCUDA_TOOLKIT_ROOT_DIR=" ++ str_of_opt cuda
  else "-DGMX_GPU=OFF".

(** Any exception but the one of lines 166-168. *)
Definition not_double_gpu_error (e : Error) : Prop :=
  forall args, e <> EasyBuildError MSG_DOUBLE_GPU args.

(** The machine without the CUDA dependency: [get_software_root('CUDA')]
    finds nothing, all else is as in [env]. *)
Definition without_cuda (env : Env) : Env :=
  mkEnv (version env) (installdir env) (src_names env) (tc_usempi env) (tc_openmp env)
    (tc_is_craype env) (optarch env) (cpu_is_x86_64 env) (shared_lib_ext env)
    (fun name => if String.eqb name "CUDA" then None else get_software_root env name)
    (get_software_version env) (get_software_libdir env) (which env) (run_cmd env)
    (re_search env) (glob env) (path_exists env) (parent_step env).

(** What configure, build, test and install leave alone: the attributes
    assigned by [run_all_steps], the iteration index, [install_cmd], and the
    calls of the parent's extensions step made so far. *)
Definition frame (st : State) :=
  (variants_to_build st, iter_idx st, parent_calls Super_extensions_step (trace st),
   save_installopts st, save_install_cmd st, save_build_cmd st, double_prec_pattern st,
   install_cmd (cfg st), build_cmd (cfg st)).

(** What configure, build, test and the extensions step leave alone of the
    install options. *)
Definition frame_opts (st : State) := (installopts (cfg st), save_installopts st).

(** The state in which the three option lists are [lc], [lb] and [li]. *)
Definition set_lists (lc lb li : list string) (st : State) : State :=
  with_cfg (fun c => set_opt K_installopts (OList li)
                       (set_opt K_buildopts (OList lb)
                          (set_opt K_configopts (OList lc) c))) st.

(** The state [plan_variants] starts its loops in. *)
Definition plan_prelude (env : Env) (st : State) : State :=
  set_variants_to_build 0
    ((if loose_lt (version env) [5] then with_cfg (set_install_cmd "make") else fun s => s)
       (set_double_prec_pattern (prec_opts env double)
          (set_save_build_cmd (build_cmd (cfg st))
             (set_save_install_cmd (install_cmd (cfg st))
                (set_save_installopts (installopts (cfg st)) st))))).

(** What [plan_variants] leaves behind: the labels, the three option lists
    and [variants_to_build]; [None] when it raises. *)
Definition planned (env : Env) (st : State)
  : option (list string * optval * optval * optval * Z) :=
  match plan_variants env st with
  | Ok (labels, st') =>
      Some (labels, configopts (cfg st'), buildopts (cfg st'), installopts (cfg st'),
            variants_to_build st')
  | Err _ _ => None
  end.

Definition planned_configopts (env : Env) (st : State) : list string :=
  match planned env st with
  | Some (_, co, _, _, _) => opt_items co
  | None => []
  end.

(** The merged option string as the specification words it: the per-axis
    fragments in axis declaration order, joined by single spaces, followed
    by the common options. *)
Definition spec_merged_options (fragments : list string) (common : string) : string :=
  Py.join " " fragments ++ " " ++ common.

(** For the configure options the axes are precision (declared first, the
    outer loop) and MPI type. *)
Definition spec_variant_configopts (env : Env) (common : string) (p : Precision) (m : MpiType)
  : string :=
  spec_merged_options [prec_opts env p; mpi_type_opts env m] common.

(** The merged option strings of the variant [(p, m)], given the common
    options [cc], [cb], [ci] and the MPI suffix [sfx]. *)
Definition merged_configopts (env : Env) (sfx cc : string) (p : Precision) (m : MpiType) :=
  Py.join " " (var_confopts env sfx p m) ++ " " ++ cc.

Definition merged_buildopts (env : Env) (cb : string) (m : MpiType) :=
  build_opts env m ++ " " ++ cb.

Definition merged_installopts (env : Env) (ci : string) (m : MpiType) :=
  install_opts env m ++ " " ++ ci.

(** ** [sanity_check_step] *)

(** The [custom_paths] dictionary handed to the parent's sanity check. *)
Record CustomPaths := mkCustomPaths {
  files : list string;
  dirs : list string
}.

Section SanityCheck.

Variable env : Env.

(** The binaries that never carry an MPI suffix, lines 489-501. *)
Definition sanity_bins : list string :=
  if loose_ge (version env) [5; 0] then []
  else ["editconf"; "g_lie"; "genbox"; "genconf"].

(** The binaries that may carry an MPI suffix, before the MPI variants are
    added: lines 492-498. *)
Definition sanity_mpi_bins0 : list string :=
  (if loose_lt (version env) [5; 1] then ["mdrun"] else []) ++
  (if loose_ge (version env) [5; 0] then ["gmx"] else []).

(** The libraries that never carry an MPI suffix, lines 490-518. *)
Definition sanity_libnames (shared : bool) : list string :=
  if loose_ge (version env) [5; 0] then []
  else
    ["gmxana"] ++
    (if loose_ge (version env) [4; 6] then (if shared then [] else ["gmx"; "md"]) else []) ++
    (if loose_ge (version env) [4; 5] then
       (if loose_ge (version env) [4; 6] then (if shared then [] else ["gmxpreprocess"])
        else [])
     else []).

(** The libraries that may carry an MPI suffix, before the MPI variants are
    added. *)
Definition sanity_mpi_libnames0 (shared : bool) : list string :=
  if loose_ge (version env) [5; 0] then ["gromacs"]
  else
    (if loose_ge (version env) [4; 6] then (if shared then ["gmx"; "md"] else [])
     else ["gmx"; "md"]) ++
    (if loose_ge (version env) [4; 5] then
       (if loose_ge (version env) [4; 6] then (if shared then ["gmxpreprocess"] else [])
        else ["gmxpreprocess"])
     else []).

(** Lines 520-528: with an MPI toolchain every name of [l] is listed once
    more with the MPI suffix appended. *)
Definition with_mpi_variants (sfx : string) (l : list string) : list string :=
  if tc_usempi env then
    let mpisuff := if loose_lt (version env) [4; 6] then sfx else "_mpi" in
    l ++ map (fun name => name ++ mpisuff) l
  else l.

(** [suffixes], lines 530-548: ['_d'] is added when CUDA is absent and some
    entry of configopts contains the double-precision pattern. *)
Definition sanity_suffixes (st : State) : list string :=
  let configopts_list := opt_items (configopts (cfg st)) in
  let dsuff :=
    if negb (truthy_opt (get_software_root env "CUDA")) then
      fold_left (fun dsuff configopts =>
                   if Py.str_in (double_prec_pattern st) configopts then Some "_d" else dsuff)
        configopts_list None
    else None in
  [""] ++ (if truthy_opt dsuff then [str_of_opt dsuff] else []).

(** [custom_paths], lines 484-565: what the method hands to the parent's
    sanity check.  The attributes [libext], [lib_subdir] and
    [double_prec_pattern] are read from the state, as [install_step] and
    [run_all_steps] have left them. *)
Definition sanity_check_paths (st : State) : CustomPaths :=
  let shared := build_shared_libs (cfg st) in
  let bins := sanity_bins in
  let libnames := sanity_libnames shared in
  let mpi_bins := with_mpi_variants (mpisuffix (cfg st)) sanity_mpi_bins0 in
  let mpi_libnames := with_mpi_variants (mpisuffix (cfg st)) (sanity_mpi_libnames0 shared) in
  let suffixes := sanity_suffixes st in
  let lib_files :=
    flat_map (fun libname =>
                map (fun suff => "lib" ++ libname ++ suff ++ "." ++ libext st) suffixes)
      (libnames ++ mpi_libnames) in
  let bin_files := flat_map (fun b => map (fun suff => b ++ suff) suffixes) (bins ++ mpi_bins) in
  mkCustomPaths
    (map (fun b => Py.path_join "bin" b) bin_files
     ++ map (fun l => Py.path_join (lib_subdir st) l) lib_files)
    ([Py.path_join "include" "gromacs"]
     ++ (if loose_ge (version env) [4; 6] then [Py.path_join (lib_subdir st) "pkgconfig"]
         else [])).

End SanityCheck.

(** ** Further vocabulary *)

(** A computation that, when it returns, has taken the state along [R]. *)
Definition steps {A} (R : State -> State -> Prop) (c : M A) : Prop :=
  forall st a st', c st = Ok (a, st') -> R st st'.

(** [v'] is [v] with something appended: more text for a string, more
    elements for a list. *)
Definition extends (v v' : optval) : Prop :=
  match v, v' with
  | OStr s, OStr s' => exists t, s' = s ++ t
  | OList l, OList l' => exists t, l' = (l ++ t)%list
  | _, _ => False
  end.

(** The configure options have only been appended to. *)
Definition configopts_grow (st st' : State) : Prop :=
  extends (configopts (cfg st)) (configopts (cfg st')).

(** The parameters [configure_step] has no business with. *)
Definition other_params (st : State) :=
  (buildopts (cfg st), installopts (cfg st), install_cmd (cfg st), build_cmd (cfg st),
   runtest (cfg st), parallel (cfg st), mpi_numprocs (cfg st), mpiexec (cfg st),
   mpiexec_numproc_flag (cfg st), mpisuffix (cfg st)).

(** The state a computation ends in; the starting state when it raises. *)
Definition after {A} (c : M A) (st : State) : State :=
  match exec c st with
  | Some st' => st'
  | None => st
  end.

(** The variant single/mpi of GROMACS 2020.1 with common options ["--X"]. *)
Definition single_mpi_2020 : Variant :=
  mkVariant "-DGMX_MPI=ON -DGMX_THREAD_MPI=OFF -DGMX_DOUBLE=OFF --X" " " "install ".

(** Line 402: testing is requested unless [runtest] is [False] or empty. *)
Definition tests_requested (r : runtest_val) : bool :=
  match r with
  | RNone => true
  | _ => truthy_runtest r
  end.

(** The test command [test_step] starts from: ['check'] unless [runtest]
    is a string. *)
Definition test_command (r : runtest_val) : string :=
  match r with
  | RStr s => s
  | _ => "check"
  end.

(** The file name pattern [install_step] looks for, lines 436-444. *)
Definition install_libname (env : Env) (st : State) : string :=
  (if loose_lt (version env) [5; 0] then "libgmx*." else "libgromacs*.")
  ++ (if build_shared_libs (cfg st) then shared_lib_ext env else "a").

(** The commands [run_all_steps] saves, and the saved copies. *)
Definition build_install_cmds (st : State) :=
  (build_cmd (cfg st), save_build_cmd st, install_cmd (cfg st), save_install_cmd st).

(** [double_precision] is as it was, or has been set to [False]. *)
Definition double_precision_lowered (st st' : State) : Prop :=
  double_precision (cfg st') = double_precision (cfg st) \/
  double_precision (cfg st') = Some false.


(** ** Strings and lists *)

Lemma append_assoc (a b c : string) : (a ++ b) ++ c = a ++ (b ++ c).
Proof.
  induction a as [|ch a IH]; simpl.
  - reflexivity.
  - now rewrite IH.
Qed.

Lemma prefix_append (p s : string) : prefix p (p ++ s) = true.
Proof.
  induction p as [|ch p IH]; simpl.
  - now destruct s.
  - destruct (ascii_dec ch ch) as [_|N]; [exact IH | now elim N].
Qed.

Lemma prefix_str_in (p s : string) : prefix p s = true -> Py.str_in p s = true.
Proof.
  destruct s as [|ch s]; intros H.
  - exact H.
  - change (prefix p (String ch s) || Py.str_in p s = true).
    now rewrite H.
Qed.

(** A string occurs in whatever is written around it. *)
Lemma str_in_middle (pat a b : string) : Py.str_in pat (a ++ pat ++ b) = true.
Proof.
  induction a as [|ch a IH].
  - change ("" ++ pat ++ b) with (pat ++ b).
    apply prefix_str_in, prefix_append.
  - change (prefix pat (String ch (a ++ pat ++ b)) || Py.str_in pat (a ++ pat ++ b) = true).
    rewrite IH. apply orb_true_r.
Qed.

(** An occurrence survives appending. *)
Lemma prefix_append_r (p s t : string) : prefix p s = true -> prefix p (s ++ t) = true.
Proof.
  revert s; induction p as [|ch p IH]; intros s H.
  - now destruct (s ++ t).
  - destruct s as [|c s]; simpl in *; [discriminate|].
    destruct (ascii_dec ch c); [now apply IH | discriminate].
Qed.

Lemma str_in_append_r (pat s t : string) :
  Py.str_in pat s = true -> Py.str_in pat (s ++ t) = true.
Proof.
  induction s as [|ch s IH]; intros H.
  - simpl in H. destruct pat; [|discriminate]. destruct t; reflexivity.
  - change (prefix pat (String ch s) || Py.str_in pat s = true) in H.
    change (prefix pat (String ch (s ++ t)) || Py.str_in pat (s ++ t) = true).
    apply orb_true_iff in H. destruct H as [H|H].
    + change (String ch (s ++ t)) with (String ch s ++ t).
      now rewrite (prefix_append_r _ _ _ H).
    + rewrite (IH H). apply orb_true_r.
Qed.

Lemma flat_map_map_length {A B C} (f : A -> B -> C) (P : list A) (Q : list B) :
  length (flat_map (fun p => map (f p) Q) P) = length P * length Q.
Proof.
  apply flat_map_constant_length. intros; apply length_map.
Qed.

(** The entry for the [i]-th outer and [j]-th inner value sits at index
    [i * |Q| + j]: the outer list varies slowest. *)
Lemma flat_map_map_nth {A B C} (f : A -> B -> C) (P : list A) (Q : list B) i j p q :
  nth_error P i = Some p -> nth_error Q j = Some q ->
  nth_error (flat_map (fun p => map (f p) Q) P) (i * length Q + j) = Some (f p q).
Proof.
  revert i; induction P as [|p0 P IH]; intros i Hp Hq.
  - now destruct i.
  - assert (Hj : j < length Q) by (apply nth_error_Some; congruence).
    destruct i as [|i]; simpl in *.
    + injection Hp as ->.
      rewrite nth_error_app1 by (rewrite length_map; exact Hj).
      rewrite nth_error_map, Hq. reflexivity.
    + rewrite nth_error_app2 by (rewrite length_map; lia).
      rewrite length_map.
      replace (length Q + i * length Q + j - length Q) with (i * length Q + j) by lia.
      now apply IH.
Qed.

(** ** The monad *)

Lemma bind_ok {A B} (c : M A) (f : A -> M B) st a st1 :
  c st = Ok (a, st1) -> bind c f st = f a st1.
Proof. unfold bind; now intros ->. Qed.

Lemma bind_inv {A B} (c : M A) (f : A -> M B) st b st' :
  bind c f st = Ok (b, st') ->
  exists a st1, c st = Ok (a, st1) /\ f a st1 = Ok (b, st').
Proof.
  unfold bind. destruct (c st) as [[a st1]|e s]; [|discriminate].
  intros H. now exists a, st1.
Qed.

Lemma bind_err {A B} (c : M A) (f : A -> M B) st e s :
  c st = Err e s -> bind c f st = Err e s.
Proof. unfold bind; now intros ->. Qed.

Section Keeps.

Context {X : Type} (f : State -> X).

Lemma keeps_ret {A} (a : A) : keeps f (ret a).
Proof. intros st a' st' H; injection H as _ <-; reflexivity. Qed.

Lemma keeps_raise {A} (e : Error) : keeps f (@raise A e).
Proof. intros st a st' H; discriminate H. Qed.

Lemma keeps_gets {A} (g : State -> A) : keeps f (gets g).
Proof. intros st a st' H; injection H as _ <-; reflexivity. Qed.

Lemma keeps_modify (g : State -> State) :
  (forall st, f (g st) = f st) -> keeps f (modify g).
Proof. intros Hg st a st' H; injection H as _ <-; apply Hg. Qed.

Lemma keeps_bind {A B} (c : M A) (k : A -> M B) :
  keeps f c -> (forall a, keeps f (k a)) -> keeps f (bind c k).
Proof.
  intros Hc Hk st b st' H.
  apply bind_inv in H as (a & st1 & H1 & H2).
  rewrite (Hk a _ _ _ H2). exact (Hc _ _ _ H1).
Qed.

Lemma keeps_for_each {B} (l : list B) (body : B -> M unit) :
  (forall x, keeps f (body x)) -> keeps f (for_each l body).
Proof.
  intros Hb; induction l as [|x l IH]; cbn [for_each].
  - apply keeps_ret.
  - apply keeps_bind; [apply Hb | intros _; exact IH].
Qed.

Lemma keeps_for_fold {A B} (l : list B) (body : A -> B -> M A) :
  (forall acc x, keeps f (body acc x)) -> forall acc, keeps f (for_fold l acc body).
Proof.
  intros Hb; induction l as [|x l IH]; intros acc; cbn [for_fold].
  - apply keeps_ret.
  - apply keeps_bind; [apply Hb | intros acc'; apply IH].
Qed.

End Keeps.

Lemma parent_calls_app s tr1 tr2 :
  parent_calls s (tr1 ++ tr2) = (parent_calls s tr1 ++ parent_calls s tr2)%list.
Proof.
  induction tr1 as [|[t a|w|c|s' i] tr1 IH]; cbn [parent_calls app]; try exact IH.
  - reflexivity.
  - destruct (parent_step_eqb s s'); cbn [app]; now rewrite IH.
Qed.

(** A parent step other than the extensions step leaves [frame] alone. *)
Lemma call_parent_frame env s :
  s <> Super_extensions_step -> keeps frame (call_parent env s).
Proof.
  intros Hs st out st' H. unfold call_parent in H.
  destruct (parent_step env s st); [|discriminate].
  injection H as _ <-. unfold frame, add_event; cbn.
  rewrite parent_calls_app; cbn.
  destruct s; try (now rewrite app_nil_r). now elim Hs.
Qed.

(** A parent step changes nothing of the install options. *)
Lemma call_parent_opts env s : keeps frame_opts (call_parent env s).
Proof.
  intros st out st' H. unfold call_parent in H.
  destruct (parent_step env s st); [|discriminate].
  injection H as _ <-. reflexivity.
Qed.

(** Decomposes a goal [keeps frame c] or [keeps frame_opts c] along the
    syntax of [c]. *)
Ltac keeps_frame :=
  repeat first
    [ apply keeps_ret
    | apply keeps_raise
    | apply keeps_gets
    | apply keeps_bind; [|intros]
    | apply keeps_for_each; intros
    | apply keeps_for_fold; intros
    | apply call_parent_frame; discriminate
    | apply call_parent_opts
    | apply keeps_modify; intros;
      unfold frame, frame_opts, add_event, set_environ, set_lib_subdir, set_libext, with_cfg;
      cbn;
      rewrite ?parent_calls_app, ?app_nil_r; reflexivity
    | match goal with
      | |- keeps _ (if ?b then _ else _) => destruct b
      | |- keeps _ (match ?x with _ => _ end) => destruct x
      | |- keeps _ (let _ := _ in _) => cbv zeta
      end
    | progress unfold cfg_get, cfg_set, cfg_update, cfg_update_runtest, log, print_warning, setvar,
        getenv, environ_item, environ_get, getenv_split, lib_paths, do_run_cmd ].

(** ** C1, C2: the planned matrix *)

Lemma plan_variant_ok env cc cb ci vb p m lc lb li st0 :
  plan_variant env (OStr cc) (OStr cb) (OStr ci) vb p m (set_lists lc lb li st0) =
  Ok ((vb ++ [variant_label p m])%list,
      set_lists (lc ++ [merged_configopts env (mpisuffix (cfg st0)) cc p m])
                (lb ++ [merged_buildopts env cb m])
                (li ++ [merged_installopts env ci m]) st0).
Proof.
  unfold merged_configopts, merged_buildopts, merged_installopts.
  rewrite <- !append_assoc.
  reflexivity.
Qed.

(** The inner loop appends one entry per MPI type, in the order of the list. *)
Lemma plan_inner_loop env cc cb ci p (Q : list MpiType) :
  forall vb lc lb li st0,
    for_fold Q vb (fun vb m => plan_variant env (OStr cc) (OStr cb) (OStr ci) vb p m)
      (set_lists lc lb li st0) =
    Ok ((vb ++ map (variant_label p) Q)%list,
        set_lists (lc ++ map (merged_configopts env (mpisuffix (cfg st0)) cc p) Q)
                  (lb ++ map (merged_buildopts env cb) Q)
                  (li ++ map (merged_installopts env ci) Q) st0).
Proof.
  induction Q as [|m Q IH]; intros vb lc lb li st0.
  - simpl. now rewrite !app_nil_r.
  - cbn [for_fold map].
    rewrite (bind_ok _ _ _ _ _ (plan_variant_ok env cc cb ci vb p m lc lb li st0)).
    rewrite IH, <- !app_assoc. reflexivity.
Qed.

(** The outer loop runs the inner loop once per precision. *)
Lemma plan_outer_loop env cc cb ci (P : list Precision) (Q : list MpiType) :
  forall vb lc lb li st0,
    for_fold P vb (fun vb p =>
      for_fold Q vb (fun vb m => plan_variant env (OStr cc) (OStr cb) (OStr ci) vb p m))
      (set_lists lc lb li st0) =
    Ok ((vb ++ flat_map (fun p => map (variant_label p) Q) P)%list,
        set_lists
          (lc ++ flat_map (fun p => map (merged_configopts env (mpisuffix (cfg st0)) cc p) Q) P)
          (lb ++ flat_map (fun _ => map (merged_buildopts env cb) Q) P)
          (li ++ flat_map (fun _ => map (merged_installopts env ci) Q) P) st0).
Proof.
  induction P as [|p P IH]; intros vb lc lb li st0.
  - simpl. now rewrite !app_nil_r.
  - cbn [for_fold flat_map].
    rewrite (bind_ok _ _ _ _ _ (plan_inner_loop env cc cb ci p Q vb lc lb li st0)).
    rewrite IH, <- !app_assoc. reflexivity.
Qed.

Lemma plan_variants_unfold env st :
  plan_variants env st =
  bind (for_fold (precisions (double_precision (cfg st))) [] (fun vb p =>
          for_fold (mpitypes env) vb (fun vb m =>
            plan_variant env (configopts (cfg st)) (buildopts (cfg st)) (installopts (cfg st))
              vb p m)))
       (fun vb => co <- cfg_get configopts ;;
                  modify (set_variants_to_build (py_len co)) ;;
                  ret vb)
       (set_lists [] [] [] (plan_prelude env st)).
Proof.
  unfold plan_variants, plan_prelude.
  destruct (loose_lt (version env) [5]); reflexivity.
Qed.

Lemma plan_variants_ok env st cc cb ci :
  configopts (cfg st) = OStr cc ->
  buildopts (cfg st) = OStr cb ->
  installopts (cfg st) = OStr ci ->
  let P := precisions (double_precision (cfg st)) in
  let Q := mpitypes env in
  let lc := flat_map (fun p => map (merged_configopts env (mpisuffix (cfg st)) cc p) Q) P in
  plan_variants env st =
  Ok (flat_map (fun p => map (variant_label p) Q) P,
      set_variants_to_build (Z.of_nat (length lc))
        (set_lists lc
           (flat_map (fun _ => map (merged_buildopts env cb) Q) P)
           (flat_map (fun _ => map (merged_installopts env ci) Q) P)
           (plan_prelude env st))).
Proof.
  intros Hc Hb Hi P Q lc.
  rewrite plan_variants_unfold, Hc, Hb, Hi.
  rewrite (bind_ok _ _ _ _ _
             (plan_outer_loop env cc cb ci P Q [] [] [] [] (plan_prelude env st))).
  replace (mpisuffix (cfg (plan_prelude env st))) with (mpisuffix (cfg st)).
  2:{ unfold plan_prelude. destruct (loose_lt (version env) [5]); reflexivity. }
  reflexivity.
Qed.

(** The axes of the matrix: double precision unless [double_precision] is
    [False], MPI only with the [usempi] toolchain option. *)
Lemma precisions_eq dp :
  precisions dp = single :: match dp with Some false => [] | _ => [double] end.
Proof. now destruct dp as [[|]|]. Qed.

Lemma mpitypes_eq env : mpitypes env = nompi :: if tc_usempi env then [mpi] else [].
Proof. reflexivity. Qed.

(** C1: for string-valued common options, [run_all_steps] plans one entry
    per pair of an enabled precision and an enabled MPI type.  The
    precisions are [single] and, unless [double_precision] is [False],
    [double]; the MPI types are [nompi] and, with the [usempi] toolchain
    option, [mpi].  Each of the three option lists has (number of
    precisions) x (number of MPI types) entries, [variants_to_build] is
    that product, and the entry of the [i]-th precision and [j]-th MPI type
    sits at index [i * #mpitypes + j] (precision is the outer loop, MPI
    type the inner one), as does its label in [versions_built]. *)
Theorem C1_plan_counts_and_order env st cc cb ci :
  configopts (cfg st) = OStr cc ->
  buildopts (cfg st) = OStr cb ->
  installopts (cfg st) = OStr ci ->
  let P := single :: match double_precision (cfg st) with
                     | Some false => []
                     | _ => [double]
                     end in
  let Q := nompi :: if tc_usempi env then [mpi] else [] in
  let n := length P * length Q in
  exists labels st' lc lb li,
    plan_variants env st = Ok (labels, st') /\
    configopts (cfg st') = OList lc /\
    buildopts (cfg st') = OList lb /\
    installopts (cfg st') = OList li /\
    length lc = n /\ length lb = n /\ length li = n /\ length labels = n /\
    variants_to_build st' = Z.of_nat n /\
    labels = flat_map (fun p => map (fun m => precision_name p ++ " precision " ++ mpitype_name m) Q)
               P /\
    forall i j p m,
      nth_error P i = Some p -> nth_error Q j = Some m ->
      nth_error labels (i * length Q + j) = Some (variant_label p m) /\
      nth_error lc (i * length Q + j)
        = Some (merged_configopts env (mpisuffix (cfg st)) cc p m) /\
      nth_error lb (i * length Q + j) = Some (merged_buildopts env cb m) /\
      nth_error li (i * length Q + j) = Some (merged_installopts env ci m).
Proof.
  intros Hc Hb Hi P Q n.
  pose proof (plan_variants_ok env st cc cb ci Hc Hb Hi) as H; cbv zeta in H.
  rewrite precisions_eq, mpitypes_eq in H.
  fold P Q in H.
  eexists _, _, _, _, _. split; [exact H|].
  repeat split; try reflexivity.
  - apply flat_map_map_length.
  - apply (flat_map_map_length (fun _ => merged_buildopts env cb)).
  - apply (flat_map_map_length (fun _ => merged_installopts env ci)).
  - apply flat_map_map_length.
  - unfold set_variants_to_build; cbn [variants_to_build].
    f_equal. apply flat_map_map_length.
  - now apply flat_map_map_nth.
  - now apply (flat_map_map_nth (merged_configopts env (mpisuffix (cfg st)) cc)).
  - now apply (flat_map_map_nth (fun _ => merged_buildopts env cb)) with (p := p).
  - now apply (flat_map_map_nth (fun _ => merged_installopts env ci)) with (p := p).
Qed.

(** The scenario of the specification: both axes full and common options
    ["--X"] give four variants, in the order single/nompi, single/mpi,
    double/nompi, double/mpi. *)
Lemma C1_witness :
  exists labels st',
    plan_variants (Example.env0 [2020; 1] false true) Example.st0 = Ok (labels, st') /\
    length (opt_items (configopts (cfg st'))) = 4 /\
    variants_to_build st' = 4%Z /\
    labels = ["single precision nompi"; "single precision mpi";
              "double precision nompi"; "double precision mpi"].
Proof.
  destruct (C1_plan_counts_and_order (Example.env0 [2020; 1] false true) Example.st0
              "--X" "" "" eq_refl eq_refl eq_refl)
    as (labels & st' & lc & lb & li & H & Hc & _ & _ & Hlc & _ & _ & _ & Hv & Hlab & Hnth).
  exists labels, st'. split; [exact H|]. split; [|split].
  - rewrite Hc. exact Hlc.
  - exact Hv.
  - exact Hlab.
Defined.

(** The axes restricted: with [double_precision = False] and no MPI
    toolchain a single variant is planned. *)
Example plan_single_variant :
  planned (mkEnv [2020; 1] "/opt/gromacs" [] false false false "" true "so"
             (fun _ => None) (fun _ => None) (fun _ => None) (fun _ => None) (fun _ => None)
             (fun _ _ => true) (fun _ => []) (fun _ => false) (fun _ _ => Some ""))
    (with_cfg (set_double_precision (Some false)) Example.st0)
  = Some (["single precision nompi"],
          OList ["-DGMX_MPI=OFF -DGMX_THREAD_MPI=ON -DGMX_DOUBLE=OFF --X"],
          OList [" "], OList ["install "], 1%Z).
Proof. vm_compute. reflexivity. Qed.

(** The scenario of the specification: both axes full and common options
    ["--X"] give four variants, single/nompi, single/mpi, double/nompi,
    double/mpi. *)
Example plan_full_matrix :
  planned (Example.env0 [2020; 1] false true) Example.st0
  = Some (["single precision nompi"; "single precision mpi";
           "double precision nompi"; "double precision mpi"],
          OList ["-DGMX_MPI=OFF -DGMX_THREAD_MPI=ON -DGMX_DOUBLE=OFF --X";
                 "-DGMX_MPI=ON -DGMX_THREAD_MPI=OFF -DGMX_DOUBLE=OFF --X";
                 "-DGMX_MPI=OFF -DGMX_THREAD_MPI=ON -DGMX_DOUBLE=ON --X";
                 "-DGMX_MPI=ON -DGMX_THREAD_MPI=OFF -DGMX_DOUBLE=ON --X"],
          OList [" "; " "; " "; " "],
          OList ["install "; "install "; "install "; "install "],
          4%Z).
Proof. vm_compute. reflexivity. Qed.

Lemma merged_configopts_eq env sfx cc p m :
  merged_configopts env sfx cc p m =
  mpi_type_opts env m ++ " " ++ prec_opts env p
  ++ (if loose_lt (version env) [4; 6] then " " ++ program_suffix sfx p m else "")
  ++ " " ++ cc.
Proof.
  unfold merged_configopts, var_confopts, Py.join.
  destruct (loose_lt (version env) [4; 6]); cbn [app String.concat];
    rewrite !append_assoc; reflexivity.
Qed.

(** C2, as the code has it: for string-valued common options every planned
    entry is, for configopts, the MPI-type fragment, a space, the precision
    fragment (for GROMACS < 4.6 followed by a space and the program-suffix
    fragment), a space and the common configopts; for buildopts and
    installopts the MPI type's build or install fragment, a space and the
    common value.  Planning returns for all strings, empty ones included. *)
Theorem C2_merged_options_mpi_first env st cc cb ci :
  configopts (cfg st) = OStr cc ->
  buildopts (cfg st) = OStr cb ->
  installopts (cfg st) = OStr ci ->
  let P := precisions (double_precision (cfg st)) in
  let Q := mpitypes env in
  exists labels st' lc lb li,
    plan_variants env st = Ok (labels, st') /\
    configopts (cfg st') = OList lc /\
    buildopts (cfg st') = OList lb /\
    installopts (cfg st') = OList li /\
    forall i j p m,
      nth_error P i = Some p -> nth_error Q j = Some m ->
      nth_error lc (i * length Q + j)
        = Some (mpi_type_opts env m ++ " " ++ prec_opts env p
                ++ (if loose_lt (version env) [4; 6]
                    then " " ++ program_suffix (mpisuffix (cfg st)) p m else "")
                ++ " " ++ cc) /\
      nth_error lb (i * length Q + j) = Some (build_opts env m ++ " " ++ cb) /\
      nth_error li (i * length Q + j) = Some (install_opts env m ++ " " ++ ci).
Proof.
  intros Hc Hb Hi P Q.
  pose proof (plan_variants_ok env st cc cb ci Hc Hb Hi) as H; cbv zeta in H.
  fold P Q in H.
  eexists _, _, _, _, _. split; [exact H|].
  split; [reflexivity|]. split; [reflexivity|]. split; [reflexivity|].
  intros i j p m Hp Hm. rewrite <- merged_configopts_eq. repeat split.
  - now apply (flat_map_map_nth (merged_configopts env (mpisuffix (cfg st)) cc)).
  - now apply (flat_map_map_nth (fun _ => merged_buildopts env cb)) with (p := p).
  - now apply (flat_map_map_nth (fun _ => merged_installopts env ci)) with (p := p).
Qed.

Lemma C2_witness :
  exists labels st' lc,
    plan_variants (Example.env0 [4; 5; 7] false true) Example.st0 = Ok (labels, st') /\
    configopts (cfg st') = OList lc /\
    nth_error lc (1 * 2 + 1)
    = Some "--enable-mpi --enable-double --program-suffix=_mpi_d --X".
Proof.
  destruct (C2_merged_options_mpi_first (Example.env0 [4; 5; 7] false true) Example.st0
              "--X" "" "" eq_refl eq_refl eq_refl)
    as (labels & st' & lc & lb & li & H & Hc & _ & _ & Hnth).
  exists labels, st', lc. split; [exact H|]. split; [exact Hc|].
  exact (proj1 (Hnth 1 1 double mpi eq_refl eq_refl)).
Defined.

(** C2 as stated fails: the configure options of the variant
    single/nompi start with the MPI fragment, not with the fragment of the
    first axis (precision). *)
Lemma C2_counterexample :
  nth_error (planned_configopts (Example.env0 [2020; 1] false true) Example.st0) 0
  = Some "-DGMX_MPI=OFF -DGMX_THREAD_MPI=ON -DGMX_DOUBLE=OFF --X" /\
  spec_variant_configopts (Example.env0 [2020; 1] false true) "--X" single nompi
  = "-DGMX_DOUBLE=OFF -DGMX_MPI=OFF -DGMX_THREAD_MPI=ON --X" /\
  nth_error (planned_configopts (Example.env0 [2020; 1] false true) Example.st0) 0
  <> Some (spec_variant_configopts (Example.env0 [2020; 1] false true) "--X" single nompi).
Proof.
  split; [vm_compute; reflexivity|]. split; [vm_compute; reflexivity|].
  vm_compute. discriminate.
Qed.

(** ** What the steps leave alone *)

Lemma get_gromacs_arch_frame env : keeps frame (get_gromacs_arch env).
Proof. unfold get_gromacs_arch. keeps_frame. Qed.

Lemma configure_step_frame env : keeps frame (configure_step env).
Proof.
  unfold configure_step, configure_cuda_check, configure_plumed_check, configure_legacy,
    configure_mpi_options, configure_cmake_rest, configure_blas_lapack.
  pose proof (get_gromacs_arch_frame env).
  keeps_frame; assumption.
Qed.

Lemma build_step_frame env : keeps frame (build_step env).
Proof.
  unfold build_step. keeps_frame.
Qed.

Lemma test_step_frame env : keeps frame (test_step env).
Proof.
  unfold test_step. keeps_frame.
Qed.

Lemma find_lib_subdir_frame env libname subdirs :
  keeps frame (find_lib_subdir env libname subdirs).
Proof.
  induction subdirs as [|subdir rest IH]; cbn [find_lib_subdir].
  - apply keeps_ret.
  - destruct (glob env _); [exact IH | keeps_frame].
Qed.

Lemma install_step_frame env : keeps frame (install_step env).
Proof.
  unfold install_step.
  pose proof (find_lib_subdir_frame env).
  keeps_frame; auto.
Qed.

(** ** C4: the extensions step *)

Lemma extensions_step_skip env st :
  (Z.of_nat (iter_idx st) < variants_to_build st - 1)%Z ->
  extensions_step env st
  = Ok (tt, add_event (EvLog "skipping extension step %s" [str_of_nat (iter_idx st)]) st).
Proof.
  intros H. unfold extensions_step, bind, gets.
  apply Z.ltb_lt in H. now rewrite H.
Qed.

Lemma extensions_step_last env st :
  (variants_to_build st - 1 <= Z.of_nat (iter_idx st))%Z ->
  extensions_step env st
  = (call_parent env Super_extensions_step ;; ret tt) (with_cfg (set_runtest RNone) st).
Proof.
  intros H. unfold extensions_step, bind at 1 2, gets.
  apply Z.ltb_ge in H. now rewrite H.
Qed.

(** The calls of the parent's extensions step made by one variant. *)
Lemma run_variant_extensions env idx v st st' :
  run_variant env idx v st = Ok (tt, st') ->
  variants_to_build st' = variants_to_build st /\
  parent_calls Super_extensions_step (trace st')
  = (parent_calls Super_extensions_step (trace st)
     ++ if (Z.of_nat idx <? variants_to_build st - 1)%Z then [] else [idx])%list.
Proof.
  unfold run_variant. intros H.
  apply bind_inv in H as ([] & s4 & H4 & H).
  apply bind_inv in H as ([] & s5 & H5 & H).
  apply bind_inv in H as ([] & s6 & H6 & H).
  apply bind_inv in H as ([] & s7 & H7 & H).
  apply bind_inv in H as ([] & s8 & H8 & H).
  injection H4 as <-.
  apply configure_step_frame in H5. apply build_step_frame in H6.
  apply test_step_frame in H7. apply install_step_frame in H8.
  assert (F : frame s8 = frame (set_iter_idx idx st)).
  { rewrite H8, H7, H6, H5. reflexivity. }
  unfold frame in F; cbn in F.
  injection F as Fv Fi Fp _ _ _ _ _ _.
  destruct (Z.ltb_spec (Z.of_nat idx) (variants_to_build st - 1)) as [L|L].
  - rewrite extensions_step_skip in H by (rewrite Fv, Fi; exact L).
    injection H as <-. cbn. rewrite parent_calls_app, Fp, Fv. cbn.
    rewrite ?app_nil_r; split; reflexivity.
  - rewrite extensions_step_last in H by (rewrite Fv, Fi; exact L).
    unfold bind, call_parent in H.
    destruct (parent_step env _ _); [|discriminate].
    injection H as <-. cbn. rewrite parent_calls_app, Fp, Fv, Fi. cbn.
    rewrite ?app_nil_r; split; reflexivity.
Qed.

Lemma run_variants_extensions env vs :
  forall idx st st',
    run_variants env idx vs st = Ok (tt, st') ->
    Z.of_nat (idx + length vs) = variants_to_build st ->
    variants_to_build st' = variants_to_build st /\
    parent_calls Super_extensions_step (trace st')
    = (parent_calls Super_extensions_step (trace st)
       ++ match vs with [] => [] | _ :: _ => [idx + length vs - 1] end)%list.
Proof.
  induction vs as [|v rest IH]; intros idx st st' H Hn.
  - injection H as <-. now rewrite app_nil_r.
  - cbn [run_variants] in H.
    apply bind_inv in H as ([] & s1 & H1 & H).
    apply run_variant_extensions in H1 as [Hv Hp].
    cbn [length] in Hn.
    apply IH in H as [Hv' Hp']; [|rewrite Hv; cbn [length]; lia].
    split; [congruence|].
    rewrite Hp', Hp, <- app_assoc. f_equal.
    destruct (Z.ltb_spec (Z.of_nat idx) (variants_to_build st - 1)) as [L|L];
      destruct rest as [|v' rest]; cbn [length app] in *; try lia.
    + do 2 f_equal. lia.
    + do 2 f_equal. lia.
Qed.

(** Planning raises a [TypeError] unless the common options are strings. *)
Lemma plan_variants_inv env st vb st1 :
  plan_variants env st = Ok (vb, st1) ->
  exists cc cb ci,
    configopts (cfg st) = OStr cc /\ buildopts (cfg st) = OStr cb /\
    installopts (cfg st) = OStr ci.
Proof.
  rewrite plan_variants_unfold. intros H.
  destruct (configopts (cfg st)) as [cc|lc], (buildopts (cfg st)) as [cb|lb],
    (installopts (cfg st)) as [ci|li];
    try (now exists cc, cb, ci);
    exfalso; revert H;
    unfold precisions, mpitypes; cbn [app for_fold];
    unfold bind, plan_variant, str_plus, bind, cfg_get, gets, raise, cfg_update, modify, ret;
    discriminate.
Qed.

Lemma zip_variants_length n : forall lc lb li,
  length lc = n -> length lb = n -> length li = n -> length (zip_variants lc lb li) = n.
Proof.
  induction n as [|n IH]; intros [|c lc] [|b lb] [|i li]; cbn; try discriminate; try reflexivity.
  intros Hc Hb Hi. f_equal. apply IH; congruence.
Qed.

Lemma precisions_length dp : 1 <= length (precisions dp).
Proof. unfold precisions. rewrite length_app. cbn. lia. Qed.

Lemma mpitypes_length env : 1 <= length (mpitypes env).
Proof. unfold mpitypes. rewrite length_app. cbn. lia. Qed.

(** Planning records no event. *)
Lemma plan_prelude_trace env st : trace (plan_prelude env st) = trace st.
Proof. unfold plan_prelude. destruct (loose_lt (version env) [5]); reflexivity. Qed.

(** What the steps rely on after planning: at least one variant is planned,
    [variants_to_build] counts the planned variants, no event is recorded. *)
Lemma plan_variants_summary env st vb s1 :
  plan_variants env st = Ok (vb, s1) ->
  exists n,
    1 <= n /\ variants_to_build s1 = Z.of_nat n /\
    length (planned_variants s1) = n /\ trace s1 = trace st.
Proof.
  intros Hplan.
  destruct (plan_variants_inv _ _ _ _ Hplan) as (cc & cb & ci & Hc & Hb & Hi).
  pose proof (plan_variants_ok env st cc cb ci Hc Hb Hi) as Hok; cbv zeta in Hok.
  pose proof (precisions_length (double_precision (cfg st))) as HP.
  pose proof (mpitypes_length env) as HQ.
  remember (precisions (double_precision (cfg st))) as P eqn:EP.
  remember (mpitypes env) as Q eqn:EQ.
  assert (Es : s1 = set_variants_to_build
                      (Z.of_nat (length (flat_map (fun p =>
                         map (merged_configopts env (mpisuffix (cfg st)) cc p) Q) P)))
                      (set_lists
                         (flat_map (fun p =>
                            map (merged_configopts env (mpisuffix (cfg st)) cc p) Q) P)
                         (flat_map (fun _ => map (merged_buildopts env cb) Q) P)
                         (flat_map (fun _ => map (merged_installopts env ci) Q) P)
                         (plan_prelude env st))) by congruence.
  exists (length P * length Q). split; [nia|]. subst s1. split; [|split].
  - unfold set_variants_to_build; cbn [variants_to_build].
    now rewrite flat_map_map_length.
  - unfold planned_variants, set_variants_to_build, set_lists, with_cfg.
    cbn [cfg configopts buildopts installopts set_opt opt_items].
    apply zip_variants_length; apply flat_map_map_length.
  - unfold set_variants_to_build, set_lists, with_cfg; cbn [trace].
    apply plan_prelude_trace.
Qed.

(** C4: in a run that completes, the parent's extensions step is called
    exactly once, in the iteration whose zero-based index is
    [variants_to_build - 1]; and in every iteration with a smaller index
    [extensions_step] only logs that it skips, without calling the parent. *)
Theorem C4_extensions_once_on_last env st st' :
  run_all_steps env st = Ok (tt, st') ->
  (1 <= variants_to_build st')%Z /\
  parent_calls Super_extensions_step (trace st')
  = (parent_calls Super_extensions_step (trace st)
     ++ [Z.to_nat (variants_to_build st' - 1)])%list /\
  (forall s,
     (Z.of_nat (iter_idx s) < variants_to_build s - 1)%Z ->
     extensions_step env s
     = Ok (tt, add_event (EvLog "skipping extension step %s" [str_of_nat (iter_idx s)]) s)) /\
  (forall s s',
     Z.of_nat (iter_idx s) = (variants_to_build s - 1)%Z ->
     extensions_step env s = Ok (tt, s') ->
     trace s' = (trace s ++ [EvParent Super_extensions_step (iter_idx s)])%list).
Proof.
  intros H. unfold run_all_steps in H.
  apply bind_inv in H as (vb & s1 & Hplan & H).
  destruct (plan_variants_summary _ _ _ _ Hplan) as (n & Hn & Hv1 & Hl & Ht).
  apply bind_inv in H as (co & s2 & H2 & H).
  assert (s2 = s1) by (unfold cfg_get, gets in H2; congruence); subst s2.
  apply bind_inv in H as ([] & s3 & H3 & H).
  apply bind_inv in H as ([] & s4 & H4 & H).
  unfold log, modify in H3, H4.
  assert (E3 : s3 = add_event (EvLog "List of configure options to iterate over: %s"
                                 [repr_optval co]) s1) by congruence.
  assert (E4 : s4 = add_event (EvLog "Building these versions of GROMACS: %s"
                                 [Py.join ", " vb]) s3) by congruence.
  clear H2 H3 H4.
  unfold super_run_all_steps in H.
  apply bind_inv in H as (vs & s5 & H5 & H).
  assert (E5 : vs = planned_variants s1 /\ s5 = s4).
  { unfold gets in H5. injection H5 as <- <-. subst s4 s3. split; reflexivity. }
  destruct E5 as [-> ->].
  assert (V4 : variants_to_build s4 = Z.of_nat n) by (subst s4 s3; exact Hv1).
  assert (T4 : parent_calls Super_extensions_step (trace s4)
               = parent_calls Super_extensions_step (trace st)).
  { subst s4 s3. unfold add_event; cbn [trace].
    rewrite !parent_calls_app, Ht. cbn. now rewrite !app_nil_r. }
  apply run_variants_extensions in H as [Hv Hp]; [|rewrite V4, Hl; reflexivity].
  rewrite V4 in Hv.
  repeat split.
  - lia.
  - rewrite Hp, T4, Hv, Hl. f_equal.
    destruct (planned_variants s1); cbn [length] in *; [lia|].
    f_equal. lia.
  - apply extensions_step_skip.
  - intros s s' Hs Hx. rewrite extensions_step_last in Hx by lia.
    unfold bind, call_parent in Hx.
    destruct (parent_step env _ _); [|discriminate].
    injection Hx as <-. reflexivity.
Qed.

Lemma C4_witness :
  run_all_steps (Example.env0 [2020; 1] false true) Example.st0
  = Ok (tt, final_state (Example.env0 [2020; 1] false true) Example.st0) /\
  parent_calls Super_extensions_step
    (trace (final_state (Example.env0 [2020; 1] false true) Example.st0))
  = [Z.to_nat
       (variants_to_build (final_state (Example.env0 [2020; 1] false true) Example.st0) - 1)].
Proof.
  assert (E : run_all_steps (Example.env0 [2020; 1] false true) Example.st0
              = Ok (tt, final_state (Example.env0 [2020; 1] false true) Example.st0))
    by (vm_compute; reflexivity).
  split; [exact E|].
  exact (proj1 (proj2 (C4_extensions_once_on_last _ _ _ E))).
Defined.

(** With CUDA the two double-precision variants are skipped, and the
    extensions step still runs once, in the last of the four iterations. *)
Example extensions_step_with_cuda :
  let st' := final_state (Example.env0 [2020; 1] true true) Example.st0 in
  parent_calls Super_extensions_step (trace st') = [3] /\
  parent_calls Super_install_step (trace st') = [0; 1] /\
  variants_to_build st' = 4%Z.
Proof. vm_compute. repeat split. Qed.

(** ** C3: what is restored when [run_all_steps] returns *)

(** C3 does not hold of the code: for GROMACS 4.6.7 (< 5) and
    [install_cmd = 'make install'] the run replaces [install_cmd] by ['make']
    and returns with it; the saved value is still in [save_install_cmd] only,
    because the restoring assignments follow the [return]. *)
Theorem C3_install_cmd_left_changed :
  let env := Example.env0 [4; 6; 7] false true in
  run_all_steps env Example.st0 = Ok (tt, final_state env Example.st0) /\
  install_cmd (cfg Example.st0) = "make install" /\
  save_install_cmd (final_state env Example.st0) = "make install" /\
  install_cmd (cfg (final_state env Example.st0)) = "make".
Proof. vm_compute. repeat split. Qed.

(** For every GROMACS < 5, whatever [install_cmd] was: a run that completes
    leaves [install_cmd] at ['make'], the saved value untouched in
    [save_install_cmd]. *)
Lemma extensions_step_cmds env :
  keeps (fun st => (save_install_cmd st, install_cmd (cfg st))) (extensions_step env).
Proof.
  intros st [] st' H. unfold extensions_step, bind, gets, log, modify, call_parent in H.
  destruct (Z.of_nat (iter_idx st) <? variants_to_build st - 1)%Z.
  - injection H as <-. reflexivity.
  - destruct (parent_step env _ _); [|discriminate]. injection H as <-. reflexivity.
Qed.

Lemma keeps_weaken {A X Y} (f : State -> X) (g : State -> Y) (c : M A) :
  (forall s s', f s' = f s -> g s' = g s) -> keeps f c -> keeps g c.
Proof. intros Hfg Hc st a st' H. apply Hfg. exact (Hc _ _ _ H). Qed.

Lemma frame_cmds s s' :
  frame s' = frame s ->
  (save_install_cmd s', install_cmd (cfg s')) = (save_install_cmd s, install_cmd (cfg s)).
Proof. unfold frame. intros H. injection H as _ _ _ _ -> _ _ -> _. reflexivity. Qed.

Lemma run_variants_cmds env vs :
  forall idx, keeps (fun st => (save_install_cmd st, install_cmd (cfg st)))
                (run_variants env idx vs).
Proof.
  induction vs as [|v rest IH]; intros idx; cbn [run_variants].
  - apply keeps_ret.
  - apply keeps_bind; [|intros _; apply IH].
    unfold run_variant.
    repeat (apply keeps_bind; [|intros _]).
    + apply keeps_modify. reflexivity.
    + apply (keeps_weaken frame); [apply frame_cmds | apply configure_step_frame].
    + apply (keeps_weaken frame); [apply frame_cmds | apply build_step_frame].
    + apply (keeps_weaken frame); [apply frame_cmds | apply test_step_frame].
    + apply (keeps_weaken frame); [apply frame_cmds | apply install_step_frame].
    + apply extensions_step_cmds.
Qed.

Lemma run_all_steps_install_cmd env st st' :
  loose_lt (version env) [5] = true ->
  run_all_steps env st = Ok (tt, st') ->
  install_cmd (cfg st') = "make" /\ save_install_cmd st' = install_cmd (cfg st).
Proof.
  intros Hv H. unfold run_all_steps in H.
  apply bind_inv in H as (vb & s1 & Hplan & H).
  destruct (plan_variants_inv _ _ _ _ Hplan) as (cc & cb & ci & Hc & Hb & Hi).
  pose proof (plan_variants_ok env st cc cb ci Hc Hb Hi) as Hok; cbv zeta in Hok.
  rewrite Hok in Hplan. clear Hok.
  assert (E1 : install_cmd (cfg s1) = "make" /\ save_install_cmd s1 = install_cmd (cfg st)).
  { injection Hplan as _ <-. unfold plan_prelude. rewrite Hv. split; reflexivity. }
  clear Hplan.
  apply bind_inv in H as (co & s2 & H2 & H). injection H2 as _ <-.
  apply bind_inv in H as ([] & s3 & H3 & H). injection H3 as <-.
  apply bind_inv in H as ([] & s4 & H4 & H). injection H4 as <-.
  unfold super_run_all_steps in H.
  apply bind_inv in H as (vs & s5 & H5 & H). injection H5 as _ <-.
  apply run_variants_cmds in H. cbn in H.
  injection H as -> ->. exact (conj (proj1 E1) (proj2 E1)).
Qed.

(** ** C10: [test_step] and [runtest] *)

(** C10: whenever [test_step] returns, [cfg['runtest']] is what it was
    before the call, whether the step was skipped, testing was switched off,
    or the tests ran with ['check'] substituted and [-j N] appended. *)
Theorem C10_test_step_restores_runtest env st st' :
  test_step env st = Ok (tt, st') ->
  runtest (cfg st') = runtest (cfg st).
Proof.
  unfold test_step. intros H.
  apply bind_inv in H as (skip & s1 & H1 & H). injection H1 as <- <-.
  destruct (is_double_precision_cuda_build env st).
  - injection H as <-. reflexivity.
  - apply bind_inv in H as (rt & s1 & H1 & H). injection H1 as <- <-.
    destruct (match runtest (cfg st) with RNone => true | _ => truthy_runtest (runtest (cfg st)) end).
    + apply bind_inv in H as (old & s1 & H1 & H). injection H1 as <- <-.
      do 6 (apply bind_inv in H as (? & ? & _ & H)).
      injection H as <-. reflexivity.
    + injection H as <-. reflexivity.
Qed.

Lemma C10_witness :
  let env := Example.env0 [2020; 1] false true in
  let st' := match exec (test_step env) Example.st0 with Some s => s | None => Example.st0 end in
  test_step env Example.st0 = Ok (tt, st') /\
  runtest (cfg st') = runtest (cfg Example.st0).
Proof.
  intros env st'.
  assert (E : test_step env Example.st0 = Ok (tt, st')) by (vm_compute; reflexivity).
  split; [exact E|].
  exact (C10_test_step_restores_runtest env Example.st0 st' E).
Defined.

(** While the tests run, [runtest] is ['check -j 4 '] for [runtest = True]:
    the parent's test step sees the substituted value, the caller the old one. *)
Example test_step_trace :
  let env := Example.env0 [2020; 1] false true in
  option_map (fun s => (runtest (cfg s), parent_calls Super_test_step (trace s),
                        lookup "OMP_NUM_THREADS" (environ s)))
    (exec (test_step env) Example.st0)
  = Some (RBool true, [0], Some "1").
Proof. vm_compute. reflexivity. Qed.

(** ** C9: [install_step] and [installopts] *)

Lemma get_gromacs_arch_opts env : keeps frame_opts (get_gromacs_arch env).
Proof. unfold get_gromacs_arch. keeps_frame. Qed.

Lemma configure_step_opts env : keeps frame_opts (configure_step env).
Proof.
  unfold configure_step, configure_cuda_check, configure_plumed_check, configure_legacy,
    configure_mpi_options, configure_cmake_rest, configure_blas_lapack.
  pose proof (get_gromacs_arch_opts env).
  keeps_frame; assumption.
Qed.

Lemma build_step_opts env : keeps frame_opts (build_step env).
Proof. unfold build_step. keeps_frame. Qed.

Lemma test_step_opts env : keeps frame_opts (test_step env).
Proof. unfold test_step. keeps_frame. Qed.

Lemma extensions_step_opts env : keeps frame_opts (extensions_step env).
Proof. unfold extensions_step. keeps_frame. Qed.

(** [run_all_steps] saves the install options it starts with. *)
Lemma plan_variants_saves_installopts env st labels st1 :
  plan_variants env st = Ok (labels, st1) ->
  save_installopts st1 = installopts (cfg st).
Proof.
  intros Hplan.
  destruct (plan_variants_inv _ _ _ _ Hplan) as (cc & cb & ci & Hc & Hb & Hi).
  pose proof (plan_variants_ok env st cc cb ci Hc Hb Hi) as Hok; cbv zeta in Hok.
  rewrite Hok in Hplan. injection Hplan as _ <-.
  unfold plan_prelude. destruct (loose_lt (version env) [5]); reflexivity.
Qed.

(** An install step that is not skipped ends by the assignment of line 458. *)
Lemma install_step_resets env st st' :
  is_double_precision_cuda_build env st = false ->
  install_step env st = Ok (tt, st') ->
  installopts (cfg st') = save_installopts st'.
Proof.
  unfold install_step. intros Hskip H.
  apply bind_inv in H as (skip & s1 & H1 & H). injection H1 as <- <-.
  rewrite Hskip in H.
  do 8 (apply bind_inv in H as (? & ? & _ & H)).
  destruct (negb (truthy_str _)); [discriminate|].
  apply bind_inv in H as (saved & s & H1 & H). injection H1 as <- <-.
  injection H as <-. reflexivity.
Qed.

(** C9: every install step that is not skipped and returns leaves
    [cfg['installopts']] equal to the value [run_all_steps] saved at its
    start, at whatever point of the run the step is called (the steps never
    change [save_installopts]): the variant's own string and the [-j N]
    appended for the step are gone. *)
Theorem C9_install_step_resets_installopts env st0 labels st1 st st' :
  plan_variants env st0 = Ok (labels, st1) ->
  save_installopts st = save_installopts st1 ->
  is_double_precision_cuda_build env st = false ->
  install_step env st = Ok (tt, st') ->
  installopts (cfg st') = installopts (cfg st0) /\
  save_installopts st' = save_installopts st1.
Proof.
  intros Hplan Hsave Hskip H.
  pose proof (install_step_frame env _ _ _ H) as F.
  assert (Fs : save_installopts st' = save_installopts st).
  { unfold frame in F. now injection F. }
  rewrite (install_step_resets env st st' Hskip H), Fs, Hsave.
  split; [|reflexivity].
  exact (plan_variants_saves_installopts _ _ _ _ Hplan).
Qed.

Lemma C9_witness :
  let env := Example.env0 [2020; 1] false true in
  let st1 := planned_state env Example.st0 in
  let st := activate_variant 1 (mkVariant "-DGMX_MPI=ON --X" " " "install ") st1 in
  let st' := match exec (install_step env) st with Some s => s | None => st end in
  installopts (cfg st) = OStr "install " /\
  install_step env st = Ok (tt, st') /\
  installopts (cfg st') = OStr "".
Proof.
  intros env st1 st st'.
  assert (E : install_step env st = Ok (tt, st')) by (vm_compute; reflexivity).
  split; [reflexivity|]. split; [exact E|].
  refine (proj1 (C9_install_step_resets_installopts env Example.st0
                   ["single precision nompi"; "single precision mpi";
                    "double precision nompi"; "double precision mpi"]
                   st1 st st' _ _ _ E)).
  - vm_compute. reflexivity.
  - vm_compute. reflexivity.
  - vm_compute. reflexivity.
Defined.

(** In the pipeline the reset happens per variant: each variant that runs to
    its end leaves [installopts] at the saved value when its install step ran,
    and at the variant's own string when the step was skipped. *)
Lemma run_variant_installopts env idx v st st' :
  run_variant env idx v st = Ok (tt, st') ->
  save_installopts st' = save_installopts st /\
  exists s s',
    install_step env s = Ok (tt, s') /\
    installopts (cfg s) = OStr (v_installopts v) /\
    installopts (cfg st')
    = if is_double_precision_cuda_build env s then OStr (v_installopts v)
      else save_installopts st.
Proof.
  unfold run_variant. intros H.
  apply bind_inv in H as ([] & s4 & H4 & H). injection H4 as <-.
  apply bind_inv in H as ([] & s5 & H5 & H).
  apply bind_inv in H as ([] & s6 & H6 & H).
  apply bind_inv in H as ([] & s7 & H7 & H).
  apply bind_inv in H as ([] & s8 & H8 & H).
  apply configure_step_opts in H5. apply build_step_opts in H6.
  apply test_step_opts in H7. apply extensions_step_opts in H.
  assert (F7 : frame_opts s7 = (OStr (v_installopts v), save_installopts st)).
  { rewrite H7, H6, H5. reflexivity. }
  pose proof (install_step_frame env _ _ _ H8) as F8.
  assert (S8 : save_installopts s8 = save_installopts s7).
  { unfold frame in F8. now injection F8. }
  unfold frame_opts in F7, H. injection F7 as I7 S7. injection H as I9 S9.
  split; [congruence|].
  exists s7, s8. split; [exact H8|]. split; [exact I7|]. rewrite I9.
  destruct (is_double_precision_cuda_build env s7) eqn:Hskip.
  - unfold install_step, bind, gets in H8. rewrite Hskip in H8.
    injection H8 as <-. exact I7.
  - rewrite (install_step_resets env s7 s8 Hskip H8). congruence.
Qed.

(** ** C6: the steps of a skipped variant *)

Lemma build_step_skip env st :
  is_double_precision_cuda_build env st = true ->
  build_step env st = Ok (tt, add_event (EvLog "skipping build step" []) st).
Proof. intros H. unfold build_step, bind, gets. now rewrite H. Qed.

Lemma test_step_skip env st :
  is_double_precision_cuda_build env st = true ->
  test_step env st = Ok (tt, add_event (EvLog "skipping test step" []) st).
Proof. intros H. unfold test_step, bind, gets. now rewrite H. Qed.

Lemma install_step_skip env st :
  is_double_precision_cuda_build env st = true ->
  install_step env st = Ok (tt, add_event (EvLog "skipping install step" []) st).
Proof. intros H. unfold install_step, bind, gets. now rewrite H. Qed.

(** C6: in a state in which the variant counts as a double-precision CUDA
    build, [build_step] and [install_step] return normally, having recorded
    one log line each and called no parent step; and in the pipeline, when
    such a variant is not the last one, the run goes on with the next
    variant. *)
Theorem C6_skipped_variant_steps env st :
  is_double_precision_cuda_build env st = true ->
  build_step env st = Ok (tt, add_event (EvLog "skipping build step" []) st) /\
  install_step env st = Ok (tt, add_event (EvLog "skipping install step" []) st) /\
  (forall idx v rest s,
     configure_step env (activate_variant idx v s) = Ok (tt, st) ->
     (Z.of_nat idx < variants_to_build st - 1)%Z ->
     run_variants env idx (v :: rest) s
     = run_variants env (S idx) rest (skipped_variant idx st)).
Proof.
  intros Hskip. split; [now apply build_step_skip|]. split; [now apply install_step_skip|].
  intros idx v rest s Hconf Hidx.
  pose proof (configure_step_frame env _ _ _ Hconf) as F.
  assert (Fi : iter_idx st = idx) by (unfold frame in F; now injection F).
  assert (R : run_variant env idx v s = Ok (tt, skipped_variant idx st)).
  2:{ cbn [run_variants]. now rewrite (bind_ok _ _ _ _ _ R). }
  unfold run_variant.
  rewrite (bind_ok _ _ _ tt (activate_variant idx v s)) by reflexivity.
  rewrite (bind_ok _ _ _ _ _ Hconf).
  rewrite (bind_ok _ _ _ _ _ (build_step_skip env st Hskip)).
  rewrite (bind_ok _ _ _ tt (add_event (EvLog "skipping test step" [])
                               (add_event (EvLog "skipping build step" []) st)))
    by (now apply test_step_skip).
  rewrite (bind_ok _ _ _ tt (add_event (EvLog "skipping install step" [])
                               (add_event (EvLog "skipping test step" [])
                                  (add_event (EvLog "skipping build step" []) st))))
    by (now apply install_step_skip).
  rewrite extensions_step_skip by (cbn [iter_idx variants_to_build add_event]; lia).
  cbn [iter_idx add_event]. rewrite Fi. reflexivity.
Qed.

Lemma C6_witness :
  let env := Example.env0 [2020; 1] true true in
  let v := mkVariant "-DGMX_MPI=OFF -DGMX_THREAD_MPI=ON -DGMX_DOUBLE=ON --X" " " "install " in
  let s := planned_state env Example.st0 in
  let st := match exec (configure_step env) (activate_variant 2 v s) with
            | Some s1 => s1
            | None => s
            end in
  is_double_precision_cuda_build env st = true /\
  build_step env st = Ok (tt, add_event (EvLog "skipping build step" []) st) /\
  install_step env st = Ok (tt, add_event (EvLog "skipping install step" []) st) /\
  run_variants env 2 [v] s = run_variants env 3 [] (skipped_variant 2 st).
Proof.
  intros env v s st.
  assert (Hskip : is_double_precision_cuda_build env st = true) by (vm_compute; reflexivity).
  destruct (C6_skipped_variant_steps env st Hskip) as (Hb & Hi & Hrun).
  split; [exact Hskip|]. split; [exact Hb|]. split; [exact Hi|].
  apply Hrun.
  - vm_compute. reflexivity.
  - vm_compute. reflexivity.
Defined.

(** ** C5: CUDA and the default precision *)

(** The merged configure options of a double-precision variant contain the
    double-precision pattern. *)
Lemma merged_configopts_double env sfx cc m :
  Py.str_in (prec_opts env double) (merged_configopts env sfx cc double m) = true.
Proof.
  rewrite merged_configopts_eq.
  rewrite <- (append_assoc (mpi_type_opts env m) " ").
  apply str_in_middle.
Qed.




(** ** C8: the MPI executable *)

Section RaisesOnly.

Context (P : Error -> Prop).

Lemma raises_only_ret {A} (a : A) : raises_only P (ret a).
Proof. intros st e st' H; discriminate H. Qed.

Lemma raises_only_gets {A} (g : State -> A) : raises_only P (gets g).
Proof. intros st e st' H; discriminate H. Qed.

Lemma raises_only_modify (g : State -> State) : raises_only P (modify g).
Proof. intros st e st' H; discriminate H. Qed.

Lemma raises_only_raise {A} (e : Error) : P e -> raises_only P (@raise A e).
Proof. intros He st e' st' H; injection H as <- _; exact He. Qed.

Lemma raises_only_bind {A B} (c : M A) (k : A -> M B) :
  raises_only P c -> (forall a, raises_only P (k a)) -> raises_only P (bind c k).
Proof.
  intros Hc Hk st e st' H. unfold bind in H.
  destruct (c st) as [[a st1]|e1 s1] eqn:E.
  - exact (Hk a _ _ _ H).
  - injection H as <- _. exact (Hc _ _ _ E).
Qed.

Lemma raises_only_for_each {B} (l : list B) (body : B -> M unit) :
  (forall x, raises_only P (body x)) -> raises_only P (for_each l body).
Proof.
  intros Hb; induction l as [|x l IH]; cbn [for_each].
  - apply raises_only_ret.
  - apply raises_only_bind; [apply Hb | intros _; exact IH].
Qed.

Lemma raises_only_for_fold {A B} (l : list B) (body : A -> B -> M A) :
  (forall acc x, raises_only P (body acc x)) -> forall acc, raises_only P (for_fold l acc body).
Proof.
  intros Hb; induction l as [|x l IH]; intros acc; cbn [for_fold].
  - apply raises_only_ret.
  - apply raises_only_bind; [apply Hb | intros acc'; apply IH].
Qed.

Lemma raises_only_call_parent env s :
  P (StepFailure s) -> raises_only P (call_parent env s).
Proof.
  intros Hs st e st' H. unfold call_parent in H.
  destruct (parent_step env s st); [discriminate|]. injection H as <- _. exact Hs.
Qed.

End RaisesOnly.

(** Decomposes a goal [raises_only not_mpiexec_error c] along the syntax
    of [c]. *)
Ltac no_mpiexec_error :=
  repeat first
    [ apply raises_only_ret
    | apply raises_only_gets
    | apply raises_only_modify
    | apply raises_only_raise; intros ?; discriminate
    | apply raises_only_call_parent; intros ?; discriminate
    | apply raises_only_bind; [|intros]
    | apply raises_only_for_each; intros
    | apply raises_only_for_fold; intros
    | match goal with
      | |- raises_only _ (if ?b then _ else _) => destruct b
      | |- raises_only _ (match ?x with _ => _ end) => destruct x
      | |- raises_only _ (let _ := _ in _) => cbv zeta
      end
    | progress unfold cfg_get, cfg_set, cfg_update, cfg_update_runtest, log, print_warning, setvar,
        getenv, environ_item, environ_get, getenv_split, lib_paths, do_run_cmd ].

(** ** C7: double precision requested together with CUDA *)

(** Decomposes a goal [raises_only not_double_gpu_error c] along the syntax
    of [c]. *)
Ltac no_double_gpu_error :=
  repeat first
    [ apply raises_only_ret
    | apply raises_only_gets
    | apply raises_only_modify
    | apply raises_only_raise; intros ? H;
      first [discriminate H | injection H as H _; vm_compute in H; discriminate H]
    | apply raises_only_call_parent; intros ?; discriminate
    | apply raises_only_bind; [|intros]
    | apply raises_only_for_each; intros
    | apply raises_only_for_fold; intros
    | match goal with
      | |- raises_only _ (if ?b then _ else _) => destruct b
      | |- raises_only _ (match ?x with _ => _ end) => destruct x
      | |- raises_only _ (let _ := _ in _) => cbv zeta
      end
    | progress unfold cfg_get, cfg_set, cfg_update, cfg_update_runtest, log, print_warning, setvar,
        getenv, environ_item, environ_get, getenv_split, lib_paths, do_run_cmd ].

(** C7, as the code has it: for GROMACS >= 4.6, when [double_precision] is
    set and CUDA is a dependency, [configure_step] raises as its first
    action, and the instance is exactly as it was when the step was entered:
    no configure option has been applied, nothing has been logged or run.
    For GROMACS < 4.6 the check is not made: the step is what it is without
    the CUDA dependency, and it never raises this error. *)
Theorem C7_double_precision_conflict_from_4_6 env st :
  truthy_opt (get_software_root env "CUDA") = true ->
  double_precision (cfg st) = Some true ->
  (loose_ge (version env) [4; 6] = true ->
   configure_step env st = Err (EasyBuildError MSG_DOUBLE_GPU []) st) /\
  (loose_lt (version env) [4; 6] = true ->
   configure_step env st = configure_step (without_cuda env) st /\
   forall e s, configure_step env st = Err e s -> not_double_gpu_error e).
Proof.
  intros Hcuda Hdp. split; intros Hv.
  - unfold configure_step, configure_cuda_check, software_root.
    rewrite Hv, Hcuda. unfold bind at 1 2, cfg_get, gets. rewrite Hdp. reflexivity.
  - split.
    + unfold configure_step, configure_cuda_check, loose_ge.
      cbn [version without_cuda]. rewrite Hv. reflexivity.
    + assert (R : raises_only not_double_gpu_error (configure_step env)).
      { unfold configure_step, configure_cuda_check, loose_ge. rewrite Hv. cbn [negb].
        unfold configure_plumed_check, configure_legacy.
        no_double_gpu_error. }
      intros e s H. exact (R _ _ _ H).
Qed.

Lemma C7_witness :
  let env := Example.env0 [2020; 1] true true in
  let st := with_cfg (set_double_precision (Some true)) Example.st0 in
  configure_step env st = Err (EasyBuildError MSG_DOUBLE_GPU []) st.
Proof.
  intros env st.
  exact (proj1 (C7_double_precision_conflict_from_4_6 env st eq_refl eq_refl) eq_refl).
Defined.

(** C7 as stated fails for GROMACS 4.5.7: with CUDA present and
    [double_precision = True], [configure_step] applies its options and runs
    the configure script. *)
Lemma C7_counterexample :
  let env := Example.env0 [4; 5; 7] true true in
  let st := with_cfg (set_double_precision (Some true))
              (with_cfg (set_opt K_configopts (OStr "--enable-mpi --enable-double --X"))
                 Example.st0) in
  truthy_opt (get_software_root env "CUDA") = true /\
  double_precision (cfg st) = Some true /\
  option_map (fun s => (configopts (cfg s), parent_calls ConfigureMake_configure_step (trace s)))
    (exec (configure_step env) st)
  = Some (OStr "--enable-mpi --enable-double --X --enable-static  --with-external-blas --with-external-lapack  --without-x  --disable-threads  --without-gsl ",
          [0]).
Proof. vm_compute. repeat split. Qed.

(** What follows the MPI options never raises the error of line 258. *)
Lemma configure_cmake_rest_errors env plumed_cmd :
  raises_only not_mpiexec_error (configure_cmake_rest env plumed_cmd).
Proof.
  unfold configure_cmake_rest, configure_blas_lapack, get_gromacs_arch.
  no_mpiexec_error.
Qed.

Lemma py_in_update pat v item :
  py_in pat v = true -> py_in pat (update_value v (OStr item)) = true.
Proof.
  destruct v as [s|l]; cbn [update_value fold_left py_in]; intros H.
  - now apply str_in_append_r.
  - rewrite existsb_app, H. reflexivity.
Qed.

(** When the CUDA check lets the step go on, it has at most appended one
    option to [configopts]. *)
Lemma configure_cuda_check_continues env st s1 :
  configure_cuda_check env st = Ok (false, s1) ->
  trace s1 = trace st /\
  (cfg s1 = cfg st \/
   exists item, cfg s1 = set_opt K_configopts
                           (update_value (configopts (cfg st)) (OStr item)) (cfg st)).
Proof.
  unfold configure_cuda_check. intros H.
  destruct (loose_ge (version env) [4; 6]).
  - destruct (truthy_opt (software_root env "CUDA")).
    + unfold bind, cfg_get, gets, cfg_update, modify, ret, log in H.
      destruct (truthy_flag (double_precision (cfg st))); [discriminate|].
      destruct (py_in (double_prec_pattern st) (configopts (cfg st))).
      * destruct (double_precision (cfg st)); discriminate.
      * injection H as <-. split; [reflexivity|]. right. eexists. reflexivity.
    + unfold bind, cfg_update, modify, ret in H.
      injection H as <-. split; [reflexivity|]. right. eexists. reflexivity.
  - injection H as <-. now split; [|left].
Qed.

Lemma configure_plumed_check_cfg env : keeps cfg (configure_plumed_check env).
Proof.
  unfold configure_plumed_check, do_run_cmd.
  repeat first
    [ apply keeps_ret | apply keeps_raise | apply keeps_bind; [|intros]
    | apply keeps_modify; intros; reflexivity
    | match goal with
      | |- keeps _ (if ?b then _ else _) => destruct b
      | |- keeps _ (match ?x with _ => _ end) => destruct x
      | |- keeps _ (let _ := _ in _) => cbv zeta
      end ].
Qed.

(** The MPI block when the executable is not found: the error of line 258
    if testing is requested, raised before anything is added to the
    configuration; otherwise only log records. *)
Lemma configure_mpi_options_not_found env st :
  py_in "-DGMX_MPI=ON" (configopts (cfg st)) = true ->
  truthy_opt (which env (mpiexec (cfg st))) = false ->
  if truthy_runtest (runtest (cfg st))
  then exists s,
         configure_mpi_options env st
         = Err (EasyBuildError "'%s' not found in $PATH" [mpiexec (cfg st)]) s /\
         cfg s = cfg st /\
         forall ps, parent_calls ps (trace s) = parent_calls ps (trace st)
  else exists st', configure_mpi_options env st = Ok (tt, st') /\ cfg st' = cfg st.
Proof.
  intros Hmpi Hwhich.
  assert (E : configure_mpi_options env st
              = (let n0 := mpi_numprocs (cfg st) in
                 let par := parallel (cfg st) in
                 numprocs <-
                   (if (n0 =? 0)%Z then
                      log "No number of test MPI tasks specified -- using default: %s"
                        [Py.str_of_int par] ;;
                      ret par
                    else if (n0 >? par)%Z then
                      log "Number of test MPI tasks (%s) is greater than value for 'parallel': %s"
                        [Py.str_of_int n0; Py.str_of_int par] ;;
                      ret n0
                    else ret n0) ;;
                 (if truthy_runtest (runtest (cfg st)) then
                    raise (EasyBuildError "'%s' not found in $PATH" [mpiexec (cfg st)])
                  else ret tt) ;;
                 log "Using %s as MPI executable when testing, with numprocs flag '%s' and %s tasks"
                   [mpiexec (cfg st); mpiexec_numproc_flag (cfg st); Py.str_of_int numprocs]) st).
  { unfold configure_mpi_options.
    unfold bind at 1, cfg_get at 1, gets at 1. rewrite Hmpi. cbv zeta.
    unfold bind, cfg_get, gets, log, modify, ret, raise.
    destruct (mpi_numprocs (cfg st) =? 0)%Z;
      [|destruct (mpi_numprocs (cfg st) >? parallel (cfg st))%Z];
      cbn [cfg add_event]; rewrite Hwhich; reflexivity. }
  rewrite E. clear E. cbv zeta.
  unfold bind, log, modify, ret, raise.
  destruct (truthy_runtest (runtest (cfg st)));
    (destruct (mpi_numprocs (cfg st) =? 0)%Z;
     [|destruct (mpi_numprocs (cfg st) >? parallel (cfg st))%Z]);
    eexists; (split; [reflexivity|]); try reflexivity;
    (split; [reflexivity|]); intros ps; cbn [trace add_event];
    rewrite ?parent_calls_app; cbn [parent_calls]; now rewrite ?app_nil_r.
Qed.

(** The CUDA check of a step that it does not stop: the GPU option of
    line 180 or 184 is appended, nothing else happens. *)
Lemma configure_cuda_check_passes env st :
  loose_ge (version env) [4; 6] = true ->
  truthy_opt (get_software_root env "CUDA")
  && (truthy_flag (double_precision (cfg st))
      || py_in (double_prec_pattern st) (configopts (cfg st))) = false ->
  configure_cuda_check env st
  = Ok (false,
        with_cfg (fun c => set_opt K_configopts
                             (update_value (configopts c) (OStr (gpu_option env))) c) st).
Proof.
  intros Hv Hgo. unfold configure_cuda_check, gpu_option, software_root. rewrite Hv.
  destruct (truthy_opt (get_software_root env "CUDA")); [|reflexivity].
  cbn [andb] in Hgo. apply orb_false_elim in Hgo as [Hdp Hpat].
  unfold bind, cfg_get, gets. now rewrite Hdp, Hpat.
Qed.

(** The PLUMED check when it passes: at most a shell command is run. *)
Lemma configure_plumed_check_passes env st :
  plumed_check_passes env = true ->
  exists plumed_cmd s,
    configure_plumed_check env st = Ok (plumed_cmd, s) /\
    cfg s = cfg st /\
    forall ps, parent_calls ps (trace s) = parent_calls ps (trace st).
Proof.
  unfold plumed_check_passes, configure_plumed_check, software_root, do_run_cmd. intros H.
  destruct (truthy_opt (get_software_root env "PLUMED")).
  - unfold bind, modify, ret, raise.
    destruct (run_cmd env "plumed-patch -l") as [out|]; [|discriminate].
    rewrite H. cbn [negb]. eexists _, _. split; [reflexivity|]. split; [reflexivity|].
    intros ps. cbn [trace add_event]. rewrite parent_calls_app. cbn [parent_calls].
    apply app_nil_r.
  - eexists _, _. split; [reflexivity|]. now split.
Qed.

(** C8, as the code has it: for GROMACS >= 4.6, in a [configure_step] that
    is stopped neither by the CUDA check (the double-precision conflict, or
    the skip of a double-precision variant) nor by the PLUMED check, of a
    variant whose configopts contain [-DGMX_MPI=ON] and whose MPI executable
    [which] does not find: the step raises ['%s' not found in $PATH] if and
    only if [runtest] is true.  When it raises, only the GPU option has been
    applied and no parent step has run; when it does not, the block has
    added nothing to the configuration and the step goes on with the
    remaining options. *)
Theorem C8_mpiexec_not_found env st :
  loose_ge (version env) [4; 6] = true ->
  truthy_opt (get_software_root env "CUDA")
  && (truthy_flag (double_precision (cfg st))
      || py_in (double_prec_pattern st) (configopts (cfg st))) = false ->
  plumed_check_passes env = true ->
  py_in "-DGMX_MPI=ON" (configopts (cfg st)) = true ->
  truthy_opt (which env (mpiexec (cfg st))) = false ->
  let cuda := get_software_root env "CUDA" in
  let gpu := if truthy_opt cuda then "-DGMX_GPU=ON -DCUDA_TOOLKIT_ROOT_DIR=" ++ str_of_opt cuda
             else "-DGMX_GPU=OFF" in
  let cfg1 := set_opt K_configopts (update_value (configopts (cfg st)) (OStr gpu)) (cfg st) in
  ((exists s, configure_step env st
              = Err (EasyBuildError "'%s' not found in $PATH" [mpiexec (cfg st)]) s)
   <-> truthy_runtest (runtest (cfg st)) = true) /\
  (forall s,
     configure_step env st = Err (EasyBuildError "'%s' not found in $PATH" [mpiexec (cfg st)]) s ->
     cfg s = cfg1 /\ forall ps, parent_calls ps (trace s) = parent_calls ps (trace st)) /\
  (truthy_runtest (runtest (cfg st)) = false ->
   exists plumed_cmd s3,
     cfg s3 = cfg1 /\
     configure_step env st = configure_cmake_rest env plumed_cmd s3).
Proof.
  intros Hv Hgo Hplumed Hmpi Hwhich cuda gpu cfg1.
  pose proof (configure_cuda_check_passes env st Hv Hgo) as Hcuda.
  set (s1 := with_cfg (fun c => set_opt K_configopts
                                  (update_value (configopts c) (OStr (gpu_option env))) c) st)
    in Hcuda.
  assert (Hcfg1 : cfg s1 = cfg1) by reflexivity.
  assert (Htr1 : trace s1 = trace st) by reflexivity.
  destruct (configure_plumed_check_passes env s1 Hplumed) as (plumed_cmd & s2 & Hp & Hcfg2 & Htr2).
  assert (Hstep : configure_step env st
                  = (configure_mpi_options env ;; configure_cmake_rest env plumed_cmd) s2).
  { unfold configure_step.
    rewrite (bind_ok _ _ _ _ _ Hcuda), (bind_ok _ _ _ _ _ Hp).
    unfold loose_ge in Hv. apply negb_true_iff in Hv. now rewrite Hv. }
  assert (Hsame : mpiexec (cfg s2) = mpiexec (cfg st) /\
                  runtest (cfg s2) = runtest (cfg st) /\
                  py_in "-DGMX_MPI=ON" (configopts (cfg s2)) = true).
  { rewrite Hcfg2, Hcfg1. unfold cfg1.
    cbn [mpiexec runtest configopts set_opt]. repeat split. now apply py_in_update. }
  destruct Hsame as (Hexec & Hrt & Hmpi2).
  pose proof (configure_mpi_options_not_found env s2 Hmpi2) as Hblock.
  rewrite Hexec, Hrt in Hblock. specialize (Hblock Hwhich).
  rewrite Hstep.
  destruct (truthy_runtest (runtest (cfg st))).
  - destruct Hblock as (s & Hblock & Hcfg & Htr).
    rewrite (bind_err _ _ _ _ _ Hblock).
    split; [|split].
    + split; [reflexivity|]. intros _. now exists s.
    + intros s' H. injection H as <-. split.
      * now rewrite Hcfg, Hcfg2.
      * intros ps. now rewrite Htr, Htr2, Htr1.
    + discriminate.
  - destruct Hblock as (s3 & Hblock & Hcfg3).
    rewrite (bind_ok _ _ _ _ _ Hblock).
    split; [|split].
    + split; [|discriminate]. intros [s Herr].
      exfalso. exact (configure_cmake_rest_errors env plumed_cmd s3 _ _ Herr _ eq_refl).
    + intros s Herr.
      exfalso. exact (configure_cmake_rest_errors env plumed_cmd s3 _ _ Herr _ eq_refl).
    + intros _. exists plumed_cmd, s3. split; [|reflexivity].
      now rewrite Hcfg3, Hcfg2.
Qed.

Lemma C8_witness :
  let env := Example.env0 [2020; 1] false false in
  let st := with_cfg (set_opt K_configopts
                        (OStr "-DGMX_MPI=ON -DGMX_THREAD_MPI=OFF -DGMX_DOUBLE=OFF --X"))
              Example.st0 in
  truthy_runtest (runtest (cfg st)) = true /\
  exists s, configure_step env st = Err (EasyBuildError "'%s' not found in $PATH" ["mpirun"]) s.
Proof.
  intros env st. split; [reflexivity|].
  apply (proj1 (C8_mpiexec_not_found env st eq_refl eq_refl eq_refl eq_refl eq_refl)).
  reflexivity.
Defined.

(** C8 as stated fails: the double-precision MPI variant that
    [run_all_steps] plans with CUDA has [-DGMX_MPI=ON] in its configopts,
    the MPI executable is not found and testing is requested, yet
    [configure_step] returns (line 178) without raising. *)
Lemma C8_counterexample :
  let env := Example.env0 [2020; 1] true false in
  let st := activate_variant 3
              (mkVariant "-DGMX_MPI=ON -DGMX_THREAD_MPI=OFF -DGMX_DOUBLE=ON --X" " " "install ")
              (planned_state env Example.st0) in
  nth_error (planned_variants (planned_state env Example.st0)) 3
  = Some (mkVariant "-DGMX_MPI=ON -DGMX_THREAD_MPI=OFF -DGMX_DOUBLE=ON --X" " " "install ") /\
  py_in "-DGMX_MPI=ON" (configopts (cfg st)) = true /\
  which env (mpiexec (cfg st)) = None /\
  truthy_runtest (runtest (cfg st)) = true /\
  raised (configure_step env) st = None /\
  option_map (fun s => configopts (cfg s)) (exec (configure_step env) st)
  = Some (OStr "-DGMX_MPI=ON -DGMX_THREAD_MPI=OFF -DGMX_DOUBLE=ON --X").
Proof. vm_compute. repeat split. Qed.

(** Without testing the missing executable is ignored: no MPIEXEC option
    reaches the configuration, and the parent's configure step runs. *)
Example configure_without_mpiexec :
  let env := Example.env0 [2020; 1] false false in
  let st := with_cfg (set_runtest (RBool false))
              (with_cfg (set_opt K_configopts
                           (OStr "-DGMX_MPI=ON -DGMX_THREAD_MPI=OFF -DGMX_DOUBLE=OFF --X"))
                 Example.st0) in
  option_map (fun s => (py_in "-DMPIEXEC" (configopts (cfg s)),
                        parent_calls Super_configure_step (trace s)))
    (exec (configure_step env) st)
  = Some (false, [0]).
Proof. vm_compute. reflexivity. Qed.

(** ** Further properties of the methods *)

Lemma append_nil_r (s : string) : s ++ "" = s.
Proof. induction s as [|c s IH]; simpl; [reflexivity | now rewrite IH]. Qed.

Lemma extends_refl v : extends v v.
Proof.
  destruct v as [s|l]; cbn.
  - exists "". now rewrite append_nil_r.
  - exists []. now rewrite app_nil_r.
Qed.

Lemma extends_trans v1 v2 v3 : extends v1 v2 -> extends v2 v3 -> extends v1 v3.
Proof.
  destruct v1 as [s1|l1], v2 as [s2|l2], v3 as [s3|l3]; cbn; try tauto.
  - intros [t ->] [u ->]. exists (t ++ u). apply append_assoc.
  - intros [t ->] [u ->]. exists (t ++ u)%list. now rewrite app_assoc.
Qed.

Lemma extends_update v item : extends v (update_value v (OStr item)).
Proof.
  destruct v as [s|l]; cbn.
  - now exists (" " ++ item ++ " ").
  - now exists [item].
Qed.

(** What is found in an option value is found in every extension of it. *)
Lemma py_in_extends pat v v' : extends v v' -> py_in pat v = true -> py_in pat v' = true.
Proof.
  destruct v as [s|l], v' as [s'|l']; cbn; try tauto.
  - intros [t ->]. apply str_in_append_r.
  - intros [t ->] H. now rewrite existsb_app, H.
Qed.

Section Steps.

Context (R : State -> State -> Prop).
Hypothesis R_refl : forall st, R st st.
Hypothesis R_trans : forall s1 s2 s3, R s1 s2 -> R s2 s3 -> R s1 s3.

Lemma steps_ret {A} (a : A) : steps R (ret a).
Proof. intros st a' st' H; injection H as _ <-; apply R_refl. Qed.

Lemma steps_raise {A} (e : Error) : steps R (@raise A e).
Proof. intros st a st' H; discriminate H. Qed.

Lemma steps_gets {A} (g : State -> A) : steps R (gets g).
Proof. intros st a st' H; injection H as _ <-; apply R_refl. Qed.

Lemma steps_modify (g : State -> State) : (forall st, R st (g st)) -> steps R (modify g).
Proof. intros Hg st a st' H; injection H as _ <-; apply Hg. Qed.

Lemma steps_bind {A B} (c : M A) (k : A -> M B) :
  steps R c -> (forall a, steps R (k a)) -> steps R (bind c k).
Proof.
  intros Hc Hk st b st' H.
  apply bind_inv in H as (a & st1 & H1 & H2).
  exact (R_trans _ _ _ (Hc _ _ _ H1) (Hk a _ _ _ H2)).
Qed.

Lemma steps_for_each {B} (l : list B) (body : B -> M unit) :
  (forall x, steps R (body x)) -> steps R (for_each l body).
Proof.
  intros Hb; induction l as [|x l IH]; cbn [for_each].
  - apply steps_ret.
  - apply steps_bind; [apply Hb | intros _; exact IH].
Qed.

Lemma steps_for_fold {A B} (l : list B) (body : A -> B -> M A) :
  (forall acc x, steps R (body acc x)) -> forall acc, steps R (for_fold l acc body).
Proof.
  intros Hb; induction l as [|x l IH]; intros acc; cbn [for_fold].
  - apply steps_ret.
  - apply steps_bind; [apply Hb | intros acc'; apply IH].
Qed.

Lemma steps_call_parent env s :
  (forall st e, R st (add_event e st)) -> steps R (call_parent env s).
Proof.
  intros He st out st' H. unfold call_parent in H.
  destruct (parent_step env s st); [|discriminate].
  injection H as _ <-. apply He.
Qed.

End Steps.

Lemma configopts_grow_refl st : configopts_grow st st.
Proof. apply extends_refl. Qed.

Lemma configopts_grow_trans s1 s2 s3 :
  configopts_grow s1 s2 -> configopts_grow s2 s3 -> configopts_grow s1 s3.
Proof. apply extends_trans. Qed.

(** Decomposes a goal [steps configopts_grow c] along the syntax of [c]. *)
Ltac grows :=
  repeat first
    [ assumption
    | match goal with H : forall _, steps _ _ |- _ => apply H end
    | apply (steps_ret _ configopts_grow_refl)
    | apply steps_raise
    | apply (steps_gets _ configopts_grow_refl)
    | apply (steps_bind _ configopts_grow_trans); [|intros]
    | apply (steps_for_each _ configopts_grow_refl configopts_grow_trans); intros
    | apply (steps_for_fold _ configopts_grow_refl configopts_grow_trans); intros
    | apply steps_call_parent; intros; apply extends_refl
    | apply steps_modify; intros;
      unfold configopts_grow, add_event, set_environ, with_cfg;
      cbn [cfg configopts set_opt get_opt set_double_precision set_configure_cmd
           set_build_shared_libs];
      first [apply extends_refl | apply extends_update]
    | match goal with
      | |- steps _ (if ?b then _ else _) => destruct b
      | |- steps _ (match ?x with _ => _ end) => destruct x
      | |- steps _ (let _ := _ in _) => cbv zeta
      end
    | progress unfold cfg_get, cfg_set, cfg_update, cfg_update_runtest, log, print_warning, setvar,
        getenv, environ_item, environ_get, getenv_split, lib_paths, do_run_cmd ].

Lemma get_gromacs_arch_grows env : steps configopts_grow (get_gromacs_arch env).
Proof. unfold get_gromacs_arch. grows. Qed.

Lemma configure_plumed_check_grows env : steps configopts_grow (configure_plumed_check env).
Proof. unfold configure_plumed_check. grows. Qed.

Lemma configure_legacy_grows env pc : steps configopts_grow (configure_legacy env pc).
Proof. unfold configure_legacy. grows. Qed.

Lemma configure_mpi_options_grows env : steps configopts_grow (configure_mpi_options env).
Proof. unfold configure_mpi_options. grows. Qed.

Lemma configure_cmake_rest_grows env pc : steps configopts_grow (configure_cmake_rest env pc).
Proof.
  unfold configure_cmake_rest, configure_blas_lapack.
  pose proof (get_gromacs_arch_grows env). grows.
Qed.

Lemma configure_cuda_check_grows env : steps configopts_grow (configure_cuda_check env).
Proof. unfold configure_cuda_check. grows. Qed.

Lemma configure_step_grows env : steps configopts_grow (configure_step env).
Proof.
  unfold configure_step.
  pose proof (configure_cuda_check_grows env).
  pose proof (configure_plumed_check_grows env).
  pose proof (configure_legacy_grows env).
  pose proof (configure_mpi_options_grows env).
  pose proof (configure_cmake_rest_grows env).
  grows.
Qed.

(** X1: [configure_step] only ever appends to the configure options:
    whenever it returns, the options it was given are still there, as the
    beginning of the string (or of the list) it leaves. *)
Theorem configure_step_appends env st st' :
  configure_step env st = Ok (tt, st') ->
  extends (configopts (cfg st)) (configopts (cfg st')).
Proof. intros E. exact (configure_step_grows env _ _ _ E). Qed.

Lemma configure_step_appends_witness :
  let env := Example.env0 [2020; 1] false true in
  let st := activate_variant 1 single_mpi_2020 (planned_state env Example.st0) in
  extends (OStr "-DGMX_MPI=ON -DGMX_THREAD_MPI=OFF -DGMX_DOUBLE=OFF --X")
    (configopts (cfg (after (configure_step env) st))).
Proof.
  intros env st.
  apply (configure_step_appends env st (after (configure_step env) st)).
  vm_compute. reflexivity.
Defined.

(** ** The version gates *)

Lemma loose_lt_trans a : forall b c,
  loose_lt a b = true -> loose_lt b c = true -> loose_lt a c = true.
Proof.
  induction a as [|x a IH]; intros [|y b] [|z c]; cbn [loose_lt];
    try discriminate; try reflexivity.
  destruct (Nat.ltb_spec x y), (Nat.ltb_spec y x), (Nat.ltb_spec y z), (Nat.ltb_spec z y),
    (Nat.ltb_spec x z), (Nat.ltb_spec z x);
    intros Hab Hbc; try lia; try discriminate; try reflexivity.
  exact (IH _ _ Hab Hbc).
Qed.

Lemma loose_lt_irrefl a : loose_lt a a = false.
Proof.
  induction a as [|x a IH]; cbn [loose_lt]; [reflexivity|].
  now rewrite Nat.ltb_irrefl.
Qed.

(** A version that passes a gate passes every lower gate. *)
Lemma loose_ge_lower v lo hi :
  loose_lt lo hi = true -> loose_ge v hi = true -> loose_ge v lo = true.
Proof.
  unfold loose_ge. intros Hlh Hv. apply negb_true_iff in Hv. apply negb_true_iff.
  destruct (loose_lt v lo) eqn:E; [|reflexivity].
  now rewrite (loose_lt_trans _ _ _ E Hlh) in Hv.
Qed.

(** A version below a gate is below every higher gate. *)
Lemma loose_lt_higher v lo hi :
  loose_lt lo hi = true -> loose_lt v lo = true -> loose_lt v hi = true.
Proof. intros Hlh Hv. exact (loose_lt_trans _ _ _ Hv Hlh). Qed.

(** ** [configure_step] *)

Lemma py_in_update_item v item : py_in item (update_value v (OStr item)) = true.
Proof.
  destruct v as [s|l]; cbn [update_value fold_left py_in].
  - rewrite <- (append_assoc s " "). apply str_in_middle.
  - rewrite existsb_app. cbn. rewrite String.eqb_refl. apply orb_true_r.
Qed.

(** What follows the CUDA check only appends to the configure options. *)
Lemma configure_after_cuda_grows env :
  steps configopts_grow
    (plumed_cmd <- configure_plumed_check env ;;
     if loose_lt (version env) [4; 6] then configure_legacy env plumed_cmd
     else configure_mpi_options env ;; configure_cmake_rest env plumed_cmd).
Proof.
  pose proof (configure_plumed_check_grows env).
  pose proof (configure_legacy_grows env).
  pose proof (configure_mpi_options_grows env).
  pose proof (configure_cmake_rest_grows env).
  grows.
Qed.

(** X2: For GROMACS >= 4.6 without CUDA every configure step that returns
    has [-DGMX_GPU=OFF] in the configure options it leaves, so that no
    system-wide CUDA compiler is picked up. *)
Theorem configure_step_disables_gpu env st st' :
  loose_ge (version env) [4; 6] = true ->
  truthy_opt (get_software_root env "CUDA") = false ->
  configure_step env st = Ok (tt, st') ->
  py_in "-DGMX_GPU=OFF" (configopts (cfg st')) = true.
Proof.
  intros Hv Hcuda H. unfold configure_step in H.
  apply bind_inv in H as (returned & s1 & H1 & H).
  unfold configure_cuda_check, software_root in H1. rewrite Hv, Hcuda in H1.
  unfold bind, cfg_update, modify, ret in H1. injection H1 as <- <-.
  apply configure_after_cuda_grows in H.
  apply (py_in_extends _ _ _ H). cbn [cfg with_cfg configopts set_opt get_opt].
  apply py_in_update_item.
Qed.

Lemma configure_step_disables_gpu_witness :
  let env := Example.env0 [2020; 1] false true in
  let st := activate_variant 1 single_mpi_2020 (planned_state env Example.st0) in
  py_in "-DGMX_GPU=OFF" (configopts (cfg (after (configure_step env) st))) = true.
Proof.
  intros env st.
  apply (configure_step_disables_gpu env st (after (configure_step env) st)).
  - reflexivity.
  - reflexivity.
  - vm_compute. reflexivity.
Defined.

(** X3: With CUDA, a configure step of GROMACS >= 4.6 that is not skipped
    and returns has [-DGMX_GPU=ON -DCUDA_TOOLKIT_ROOT_DIR=<root>] in the
    configure options it leaves. *)
Theorem configure_step_enables_gpu env st st' root :
  loose_ge (version env) [4; 6] = true ->
  get_software_root env "CUDA" = Some root ->
  truthy_str root = true ->
  is_double_precision_cuda_build env st = false ->
  configure_step env st = Ok (tt, st') ->
  py_in ("-DGMX_GPU=ON -DCUDA_TOOLKIT_ROOT_DIR=" ++ root) (configopts (cfg st')) = true.
Proof.
  intros Hv Hroot Htrue Hskip H. unfold configure_step in H.
  apply bind_inv in H as (returned & s1 & H1 & H).
  unfold is_double_precision_cuda_build, software_root in Hskip.
  unfold configure_cuda_check, software_root in H1. rewrite Hv, Hroot in H1.
  rewrite Hroot in Hskip. cbn [truthy_opt] in H1, Hskip. rewrite Htrue in H1, Hskip.
  cbn [andb] in Hskip.
  unfold bind, cfg_get, gets, cfg_update, modify, ret in H1.
  destruct (truthy_flag (double_precision (cfg st))); [discriminate|].
  rewrite Hskip in H1. injection H1 as <- <-.
  apply configure_after_cuda_grows in H.
  apply (py_in_extends _ _ _ H). cbn [cfg with_cfg configopts set_opt get_opt str_of_opt].
  apply py_in_update_item.
Qed.

Lemma configure_step_enables_gpu_witness :
  let env := Example.env0 [2020; 1] true true in
  let st := activate_variant 1 single_mpi_2020 (planned_state env Example.st0) in
  py_in "-DGMX_GPU=ON -DCUDA_TOOLKIT_ROOT_DIR=/opt/cuda"
    (configopts (cfg (after (configure_step env) st))) = true.
Proof.
  intros env st.
  apply (configure_step_enables_gpu env st (after (configure_step env) st) "/opt/cuda").
  - reflexivity.
  - reflexivity.
  - reflexivity.
  - vm_compute. reflexivity.
  - vm_compute. reflexivity.
Defined.

Lemma keeps_call_parent {X} (f : State -> X) env s :
  (forall st e, f (add_event e st) = f st) -> keeps f (call_parent env s).
Proof.
  intros He st out st' H. unfold call_parent in H.
  destruct (parent_step env s st); [|discriminate].
  injection H as _ <-. apply He.
Qed.

(** Decomposes a goal [keeps f c] along the syntax of [c], for an
    observation [f] that every assignment met leaves alone by computation. *)
Ltac keeps_obs :=
  repeat first
    [ assumption
    | match goal with H : forall _, keeps _ _ |- _ => apply H end
    | apply keeps_ret
    | apply keeps_raise
    | apply keeps_gets
    | apply keeps_bind; [|intros]
    | apply keeps_for_each; intros
    | apply keeps_for_fold; intros
    | apply keeps_call_parent; intros; reflexivity
    | apply keeps_modify; intros; reflexivity
    | match goal with
      | |- keeps _ (if ?b then _ else _) => destruct b
      | |- keeps _ (match ?x with _ => _ end) => destruct x
      | |- keeps _ (let _ := _ in _) => cbv zeta
      end
    | progress unfold cfg_get, cfg_set, cfg_update, cfg_update_runtest, log, print_warning, setvar,
        getenv, environ_item, environ_get, getenv_split, lib_paths, do_run_cmd ].

Lemma get_gromacs_arch_cfg env : keeps cfg (get_gromacs_arch env).
Proof. unfold get_gromacs_arch. keeps_obs. Qed.

(** X4: [configure_step] changes no parameter of the easyconfig other than
    [configopts], [double_precision], [build_shared_libs] and
    [configure_cmd]: the build and install options and commands, [runtest],
    [parallel] and the MPI settings are as they were when it returns. *)
Theorem configure_step_other_params env st st' :
  configure_step env st = Ok (tt, st') ->
  other_params st' = other_params st.
Proof.
  revert st'.
  assert (H : keeps other_params (configure_step env)).
  { assert (Harch : keeps other_params (get_gromacs_arch env)).
    { apply (keeps_weaken cfg); [|apply get_gromacs_arch_cfg].
      intros s s' E. unfold other_params. now rewrite E. }
    unfold configure_step, configure_cuda_check, configure_plumed_check, configure_legacy,
      configure_mpi_options, configure_cmake_rest, configure_blas_lapack.
    keeps_obs. }
  intros st' E. exact (H _ _ _ E).
Qed.

Lemma configure_step_other_params_witness :
  let env := Example.env0 [2020; 1] false true in
  let st := activate_variant 1 single_mpi_2020 (planned_state env Example.st0) in
  other_params (after (configure_step env) st) = other_params st.
Proof.
  intros env st.
  apply (configure_step_other_params env st (after (configure_step env) st)).
  vm_compute. reflexivity.
Defined.

(** The configure-script branch never returns when OpenMP is requested of
    a GROMACS older than 4.5. *)
Lemma configure_legacy_openmp env plumed_cmd st :
  loose_lt (version env) [4; 5] = true ->
  tc_openmp env = true ->
  exists e s, configure_legacy env plumed_cmd st = Err e s.
Proof.
  intros Hv Homp.
  destruct (configure_legacy env plumed_cmd st) as [[a s]|e s] eqn:E; [exfalso|now exists e, s].
  unfold configure_legacy in E.
  do 8 (apply bind_inv in E as (? & ? & _ & E)).
  apply bind_inv in E as (? & ? & E9 & _).
  unfold loose_ge in E9. rewrite Hv, Homp in E9. discriminate E9.
Qed.

(** X5: For GROMACS older than 4.5 built with a toolchain that has OpenMP
    switched on, [configure_step] never returns: whatever the state, it ends
    in an exception, at the latest the one of line 224. *)
Theorem configure_step_openmp_too_old env st :
  loose_lt (version env) [4; 5] = true ->
  tc_openmp env = true ->
  exists e s, configure_step env st = Err e s.
Proof.
  intros Hv Homp.
  assert (Hv6 : loose_lt (version env) [4; 6] = true)
    by (exact (loose_lt_higher _ [4; 5] [4; 6] eq_refl Hv)).
  unfold configure_step, configure_cuda_check, loose_ge. rewrite Hv6. cbn [negb].
  unfold bind at 1, ret at 1.
  unfold bind. destruct (configure_plumed_check env st) as [[pc s1]|e s].
  - apply configure_legacy_openmp; assumption.
  - now exists e, s.
Qed.

Lemma configure_step_openmp_too_old_witness :
  exists e s,
    configure_step
      (mkEnv [4; 0; 7] "/opt/gromacs" [] false true false "" true "so"
         (fun _ => None) (fun _ => None) (fun _ => None) (fun _ => None) (fun _ => None)
         (fun _ _ => false) (fun _ => []) (fun _ => false) (fun _ _ => Some ""))
      Example.st0 = Err e s.
Proof. apply configure_step_openmp_too_old; reflexivity. Defined.

(** With the environment as the toolchain sets it and no PLUMED, the
    exception is the one of line 224. *)
Example configure_step_openmp_error :
  option_map fst
    (raised
       (configure_step
          (mkEnv [4; 0; 7] "/opt/gromacs" [] false true false "" true "so"
             (fun _ => None) (fun _ => None) (fun _ => None) (fun _ => None) (fun _ => None)
             (fun _ _ => false) (fun _ => []) (fun _ => false) (fun _ _ => Some "")))
       Example.st0)
  = Some (EasyBuildError "GROMACS version 4.0.7 does not support OpenMP" []).
Proof. vm_compute. reflexivity. Qed.

(** The CUDA check ends the step exactly for a double-precision CUDA
    build. *)
Lemma configure_cuda_check_returned env st returned s1 :
  configure_cuda_check env st = Ok (returned, s1) ->
  returned = true -> is_double_precision_cuda_build env st = true.
Proof.
  unfold configure_cuda_check, is_double_precision_cuda_build. intros H ->.
  destruct (loose_ge (version env) [4; 6]); [|discriminate].
  destruct (truthy_opt (software_root env "CUDA")).
  - unfold bind, cfg_get, gets, cfg_update, modify, ret in H.
    destruct (truthy_flag (double_precision (cfg st))); [discriminate|].
    destruct (py_in (double_prec_pattern st) (configopts (cfg st))); [reflexivity|].
    discriminate.
  - discriminate.
Qed.

(** The part of the CMake branch GROMACS >= 2019 adds, and what it leads to. *)
Lemma configure_cmake_rest_shared env plumed_cmd s st' :
  loose_ge (version env) [2019] = true ->
  configure_cmake_rest env plumed_cmd s = Ok (tt, st') ->
  build_shared_libs (cfg st') = true /\
  py_in "-DGMXAPI=ON" (configopts (cfg st')) = true /\
  py_in "-DGMX_PREFER_STATIC_LIBS=OFF" (configopts (cfg st')) = true.
Proof.
  intros Hv H. unfold configure_cmake_rest in H. rewrite Hv in H.
  pose proof (get_gromacs_arch_grows env) as Garch.
  assert (Karch : keeps (fun s => build_shared_libs (cfg s)) (get_gromacs_arch env)).
  { apply (keeps_weaken cfg); [|apply get_gromacs_arch_cfg]. now intros ? ? ->. }
  apply bind_inv in H as ([] & s4 & H1 & H).
  apply bind_inv in H1 as ([] & s2 & H1 & H2). injection H1 as <-.
  apply bind_inv in H2 as ([] & s3 & H2 & H3).
  unfold cfg_update, modify in H2. injection H2 as <-.
  assert (B4 : build_shared_libs (cfg s4) = true /\
               py_in "-DGMXAPI=ON" (configopts (cfg s4)) = true).
  { match type of H3 with ?c _ = _ =>
      assert (K : keeps (fun s => build_shared_libs (cfg s)) c) by keeps_obs;
      assert (G : steps configopts_grow c) by grows
    end.
    split.
    - rewrite (K _ _ _ H3). reflexivity.
    - apply (py_in_extends _ _ _ (G _ _ _ H3)).
      cbn [cfg with_cfg configopts set_opt get_opt]. apply py_in_update_item. }
  destruct B4 as [B4 A4]. clear H3.
  apply bind_inv in H as ([] & s5 & H5 & H).
  assert (C5 : cfg s5 = cfg s4).
  { match type of H5 with ?c _ = _ => assert (K : keeps cfg c) by keeps_obs end.
    exact (K _ _ _ H5). }
  apply bind_inv in H as (bsl & s6 & H6 & H). injection H6 as <- <-.
  rewrite C5, B4 in H.
  apply bind_inv in H as ([] & s7 & H7 & H).
  unfold cfg_update, modify in H7. injection H7 as <-.
  match type of H with ?c _ = _ =>
    assert (K : keeps (fun s => build_shared_libs (cfg s)) c)
      by (unfold configure_blas_lapack; keeps_obs);
    assert (G : steps configopts_grow c)
      by (unfold configure_blas_lapack; grows)
  end.
  pose proof (K _ _ _ H) as K'. pose proof (G _ _ _ H) as G'.
  cbn [cfg with_cfg build_shared_libs set_opt] in K'. rewrite C5 in K'.
  split; [congruence|]. split.
  - apply (py_in_extends _ _ _ G').
    cbn [cfg with_cfg configopts set_opt get_opt].
    apply py_in_update. now rewrite C5.
  - apply (py_in_extends _ _ _ G').
    cbn [cfg with_cfg configopts set_opt get_opt]. apply py_in_update_item.
Qed.

(** X6: From GROMACS 2019 on every variant that is configured is built with
    shared libraries, whatever [build_shared_libs] said: when
    [configure_step] returns for a variant it did not skip,
    [build_shared_libs] is true and the configure options hold [-DGMXAPI=ON]
    and [-DGMX_PREFER_STATIC_LIBS=OFF]. *)
Theorem configure_step_forces_shared_libs env st st' :
  loose_ge (version env) [2019] = true ->
  is_double_precision_cuda_build env st = false ->
  configure_step env st = Ok (tt, st') ->
  build_shared_libs (cfg st') = true /\
  py_in "-DGMXAPI=ON" (configopts (cfg st')) = true /\
  py_in "-DGMX_PREFER_STATIC_LIBS=OFF" (configopts (cfg st')) = true.
Proof.
  intros Hv Hskip H.
  assert (Hv6 : loose_lt (version env) [4; 6] = false).
  { apply negb_true_iff. exact (loose_ge_lower _ [4; 6] [2019] eq_refl Hv). }
  unfold configure_step in H.
  apply bind_inv in H as (returned & s1 & H1 & H).
  destruct returned.
  - pose proof (configure_cuda_check_returned _ _ _ _ H1 eq_refl). congruence.
  - apply bind_inv in H as (pc & s2 & _ & H). rewrite Hv6 in H.
    apply bind_inv in H as ([] & s3 & _ & H).
    exact (configure_cmake_rest_shared env pc s3 st' Hv H).
Qed.

Lemma configure_step_forces_shared_libs_witness :
  let env := Example.env0 [2020; 1] false true in
  let st := activate_variant 1 single_mpi_2020 (planned_state env Example.st0) in
  build_shared_libs (cfg st) = false /\
  build_shared_libs (cfg (after (configure_step env) st)) = true.
Proof.
  intros env st. split; [reflexivity|].
  refine (proj1 (configure_step_forces_shared_libs env st (after (configure_step env) st)
                   eq_refl _ _)).
  - vm_compute. reflexivity.
  - vm_compute. reflexivity.
Defined.

(** X7: From GROMACS 4.6.5 on a configure step that ran cmake returns only if
    the output of the parent's configure step shows an external FFT library,
    [dgemm_] and [cheev_]: a configuration without a decent BLAS, LAPACK
    and FFT is never accepted. *)
Theorem configure_step_checks_cmake_output env st st' :
  loose_ge (version env) [4; 6; 5] = true ->
  is_double_precision_cuda_build env st = false ->
  configure_step env st = Ok (tt, st') ->
  exists s out,
    parent_step env Super_configure_step s = Some out /\
    re_search env "Using external FFT library - \S*" out = true /\
    re_search env "Looking for dgemm_ - found" out = true /\
    re_search env "Looking for cheev_ - found" out = true.
Proof.
  intros Hv Hskip H.
  assert (Hv6 : loose_lt (version env) [4; 6] = false).
  { apply negb_true_iff. exact (loose_ge_lower _ [4; 6] [4; 6; 5] eq_refl Hv). }
  unfold configure_step in H.
  apply bind_inv in H as (returned & s1 & H1 & H).
  destruct returned.
  { pose proof (configure_cuda_check_returned _ _ _ _ H1 eq_refl). congruence. }
  apply bind_inv in H as (pc & s2 & _ & H). rewrite Hv6 in H.
  apply bind_inv in H as ([] & s3 & _ & H).
  unfold configure_cmake_rest in H.
  do 12 (apply bind_inv in H as (? & ? & _ & H)).
  apply bind_inv in H as (out & s & Hparent & H).
  unfold call_parent in Hparent.
  destruct (parent_step env Super_configure_step _) as [out'|] eqn:E; [|discriminate].
  injection Hparent as <- _.
  eexists _, out'. split; [exact E|].
  rewrite Hv in H. cbn [for_each] in H. unfold bind, ret, raise in H.
  destruct (re_search env "Using external FFT library - \S*" out'); [|discriminate].
  destruct (re_search env "Looking for dgemm_ - found" out'); [|discriminate].
  destruct (re_search env "Looking for cheev_ - found" out'); [|discriminate].
  now repeat split.
Qed.

Lemma configure_step_checks_cmake_output_witness :
  let env := Example.env0 [2020; 1] false true in
  let st := activate_variant 1 single_mpi_2020 (planned_state env Example.st0) in
  exists s out,
    parent_step env Super_configure_step s = Some out /\
    re_search env "Using external FFT library - \S*" out = true /\
    re_search env "Looking for dgemm_ - found" out = true /\
    re_search env "Looking for cheev_ - found" out = true.
Proof.
  intros env st.
  apply (configure_step_checks_cmake_output env st (after (configure_step env) st)).
  - reflexivity.
  - vm_compute. reflexivity.
  - vm_compute. reflexivity.
Defined.

(** X8: For GROMACS < 4.6 the configure-script branch reads [LIBLAPACK] from
    the environment: without it (and without PLUMED) [configure_step]
    raises [KeyError], and no parent step (so no configure script) has run
    when it does. *)
Theorem configure_step_needs_liblapack env st :
  loose_lt (version env) [4; 6] = true ->
  truthy_opt (get_software_root env "PLUMED") = false ->
  lookup "LIBLAPACK" (environ st) = None ->
  exists s,
    configure_step env st = Err (KeyError "LIBLAPACK") s /\
    forall ps, parent_calls ps (trace s) = parent_calls ps (trace st).
Proof.
  intros Hv Hplumed Henv.
  unfold configure_step, configure_cuda_check, configure_plumed_check, software_root, loose_ge.
  rewrite Hv, Hplumed. cbn [negb].
  erewrite bind_ok by reflexivity. cbv iota.
  erewrite bind_ok by reflexivity.
  unfold configure_legacy.
  erewrite bind_ok by reflexivity.
  erewrite bind_ok by reflexivity.
  match goal with |- context [if ?b then _ else _] => destruct b end;
    (erewrite bind_ok by reflexivity);
    (erewrite bind_ok by reflexivity);
    (eexists; split;
     [ apply bind_err; unfold environ_item, getenv;
       (erewrite bind_ok by reflexivity);
       match goal with
       | |- context [lookup "LIBLAPACK" (environ ?s)] =>
           change (lookup "LIBLAPACK" (environ s)) with (lookup "LIBLAPACK" (environ st))
       end;
       rewrite Henv; reflexivity
     | intros ps; cbn [trace add_event with_cfg]; rewrite parent_calls_app;
       cbn [parent_calls]; apply app_nil_r ]).
Qed.

Lemma configure_step_needs_liblapack_witness :
  exists s,
    configure_step (Example.env0 [4; 5; 7] false true) (set_environ [] Example.st0)
    = Err (KeyError "LIBLAPACK") s /\
    forall ps, parent_calls ps (trace s) = parent_calls ps [].
Proof.
  apply (configure_step_needs_liblapack (Example.env0 [4; 5; 7] false true)
           (set_environ [] Example.st0)); reflexivity.
Defined.

(** ** [test_step] *)

(** X9: [test_step] runs the parent's test step exactly when the variant is not
    a skipped double-precision CUDA build and [runtest] is [None] or true;
    with [runtest = False] (or empty) nothing is run. *)
Theorem test_step_calls_parent_iff env st st' :
  test_step env st = Ok (tt, st') ->
  parent_calls Super_test_step (trace st')
  = (parent_calls Super_test_step (trace st)
     ++ if negb (is_double_precision_cuda_build env st) && tests_requested (runtest (cfg st))
        then [iter_idx st] else [])%list.
Proof.
  unfold test_step, tests_requested. intros H.
  apply bind_inv in H as (skip & s1 & H1 & H). injection H1 as <- <-.
  destruct (is_double_precision_cuda_build env st); cbn [negb andb].
  - injection H as <-. cbn [trace add_event].
    rewrite parent_calls_app. reflexivity.
  - apply bind_inv in H as (rt & s1 & H1 & H). injection H1 as <- <-.
    destruct (match runtest (cfg st) with RNone => true | _ => truthy_runtest (runtest (cfg st)) end).
    + apply bind_inv in H as (old & s1 & H1 & H). injection H1 as <- <-.
      apply bind_inv in H as ([] & s2 & H2 & H).
      apply bind_inv in H as (rt & s3 & H3 & H).
      apply bind_inv in H as ([] & s4 & H4 & H).
      apply bind_inv in H as (par & s5 & H5 & H).
      apply bind_inv in H as ([] & s6 & H6 & H).
      apply bind_inv in H as (out & s7 & H7 & H).
      injection H as <-.
      assert (T6 : trace s6 = trace st /\ iter_idx s6 = iter_idx st).
      { assert (K : keeps (fun s => (trace s, iter_idx s))
                      (setvar "OMP_NUM_THREADS" "1" ;;
                       rt <- cfg_get runtest ;;
                       match rt with
                       | RNone | RBool _ => modify (with_cfg (set_runtest (RStr "check")))
                       | RStr _ => ret tt
                       end ;;
                       par <- cfg_get parallel ;;
                       cfg_update_runtest ("-j " ++ Py.str_of_int par))) by keeps_obs.
        assert (E : (setvar "OMP_NUM_THREADS" "1" ;;
                     rt <- cfg_get runtest ;;
                     match rt with
                     | RNone | RBool _ => modify (with_cfg (set_runtest (RStr "check")))
                     | RStr _ => ret tt
                     end ;;
                     par <- cfg_get parallel ;;
                     cfg_update_runtest ("-j " ++ Py.str_of_int par)) st = Ok (tt, s6)).
        { rewrite (bind_ok _ _ _ _ _ H2), (bind_ok _ _ _ _ _ H3), (bind_ok _ _ _ _ _ H4),
            (bind_ok _ _ _ _ _ H5). exact H6. }
        apply K in E. now injection E. }
      destruct T6 as [T6 I6].
      unfold call_parent in H7. destruct (parent_step env _ s6); [|discriminate].
      injection H7 as _ <-. cbn [trace with_cfg add_event].
      rewrite parent_calls_app, T6, I6. reflexivity.
    + injection H as <-. now rewrite app_nil_r.
Qed.

Lemma test_step_calls_parent_iff_witness :
  let env := Example.env0 [2020; 1] false true in
  let st := with_cfg (set_runtest (RBool false)) Example.st0 in
  parent_calls Super_test_step (trace (after (test_step env) st)) = [].
Proof.
  intros env st.
  apply (test_step_calls_parent_iff env st (after (test_step env) st)).
  vm_compute. reflexivity.
Defined.

(** X10: When [test_step] runs the tests, the parent's test step is entered with
    [OMP_NUM_THREADS] set to [1] and with [runtest] the test command
    (['check'] unless the easyconfig gives a string) followed by [-j] and
    the value of [parallel]; [OMP_NUM_THREADS] is still [1] when
    [test_step] returns. *)
Theorem test_step_runs_in_parallel_single_threaded env st st' :
  is_double_precision_cuda_build env st = false ->
  tests_requested (runtest (cfg st)) = true ->
  test_step env st = Ok (tt, st') ->
  lookup "OMP_NUM_THREADS" (environ st') = Some "1" /\
  exists s out,
    parent_step env Super_test_step s = Some out /\
    lookup "OMP_NUM_THREADS" (environ s) = Some "1" /\
    runtest (cfg s)
    = RStr (test_command (runtest (cfg st)) ++ " -j "
            ++ Py.str_of_int (parallel (cfg st)) ++ " ").
Proof.
  unfold test_step, tests_requested. intros Hskip Hreq H.
  apply bind_inv in H as (skip & s1 & H1 & H). injection H1 as <- <-.
  rewrite Hskip in H.
  apply bind_inv in H as (rt & s1 & H1 & H). injection H1 as <- <-.
  rewrite Hreq in H.
  apply bind_inv in H as (old & s1 & H1 & H). injection H1 as <- <-.
  apply bind_inv in H as ([] & s2 & H2 & H). injection H2 as <-.
  apply bind_inv in H as (rt & s3 & H3 & H). injection H3 as <- <-.
  cbn [cfg set_environ] in H.
  apply bind_inv in H as ([] & s4 & H4 & H).
  apply bind_inv in H as (par & s5 & H5 & H). injection H5 as <- <-.
  apply bind_inv in H as ([] & s6 & H6 & H).
  apply bind_inv in H as (out & s7 & H7 & H).
  injection H as <-.
  unfold call_parent in H7.
  destruct (parent_step env Super_test_step s6) as [out'|] eqn:E; [|discriminate].
  injection H7 as _ <-.
  assert (F : lookup "OMP_NUM_THREADS" (environ s6) = Some "1" /\
              runtest (cfg s6)
              = RStr (test_command (runtest (cfg st)) ++ " -j "
                      ++ Py.str_of_int (parallel (cfg st)) ++ " ")).
  { unfold cfg_update_runtest, bind, cfg_get, gets, modify, ret, raise in H4, H6.
    destruct (runtest (cfg st)) as [|b|cmd] eqn:Er; cbv beta iota in H4; injection H4 as <-;
      cbn [cfg with_cfg runtest set_runtest set_environ parallel] in H6;
      rewrite ?Er in H6; injection H6 as <-; split; reflexivity. }
  destruct F as [F1 F2].
  split; [exact F1|]. exists s6, out'. now repeat split.
Qed.

Lemma test_step_runs_in_parallel_single_threaded_witness :
  let env := Example.env0 [2020; 1] false true in
  exists s out,
    parent_step env Super_test_step s = Some out /\
    lookup "OMP_NUM_THREADS" (environ s) = Some "1" /\
    runtest (cfg s) = RStr "check -j 4 ".
Proof.
  intros env.
  refine (proj2 (test_step_runs_in_parallel_single_threaded env Example.st0
                   (after (test_step env) Example.st0) eq_refl eq_refl _)).
  vm_compute. reflexivity.
Defined.

(** ** [install_step] *)

Lemma find_lib_subdir_keeps {X} (f : State -> X) env libname subdirs :
  (forall v st, f (set_lib_subdir v st) = f st) ->
  (forall e st, f (add_event e st) = f st) ->
  keeps f (find_lib_subdir env libname subdirs).
Proof.
  intros Hl He. induction subdirs as [|subdir rest IH]; cbn [find_lib_subdir].
  - apply keeps_ret.
  - destruct (glob env _); [exact IH|].
    apply keeps_bind; [apply keeps_modify; intros; apply Hl|intros _].
    apply keeps_bind; [apply keeps_gets|intros ls].
    apply keeps_modify. intros; apply He.
Qed.

(** X11: An install step that is not skipped returns only once it knows where
    the libraries are: [lib_subdir] is not empty, and [libext] is the
    extension of the kind of library that was built. *)
Theorem install_step_finds_libraries env st st' :
  is_double_precision_cuda_build env st = false ->
  install_step env st = Ok (tt, st') ->
  truthy_str (lib_subdir st') = true /\
  libext st' = (if build_shared_libs (cfg st) then shared_lib_ext env else "a").
Proof.
  unfold install_step. intros Hskip H.
  apply bind_inv in H as (skip & s1 & H1 & H). injection H1 as <- <-.
  rewrite Hskip in H.
  apply bind_inv in H as (par & s1 & H1 & H). injection H1 as <- <-.
  apply bind_inv in H as ([] & s2 & H2 & H).
  unfold cfg_update, modify in H2. injection H2 as <-.
  apply bind_inv in H as (out & s3 & H3 & H).
  unfold call_parent in H3. destruct (parent_step env _ _); [|discriminate].
  injection H3 as _ <-.
  apply bind_inv in H as (bsl & s4 & H4 & H). injection H4 as <- <-.
  cbn [cfg with_cfg add_event build_shared_libs set_opt] in H.
  apply bind_inv in H as ([] & s5 & H5 & H).
  assert (E5 : libext s5 = if build_shared_libs (cfg st) then shared_lib_ext env else "a").
  { destruct (build_shared_libs (cfg st)); injection H5 as <-; reflexivity. }
  clear H5.
  apply bind_inv in H as (ext & s6 & H6 & H). injection H6 as <- <-.
  apply bind_inv in H as ([] & s7 & H7 & H).
  assert (E7 : libext s7 = libext s5).
  { match type of H7 with ?c _ = _ =>
      assert (K : keeps libext c)
        by (apply keeps_for_each; intros libdir; destruct (path_exists env _);
            [apply find_lib_subdir_keeps; reflexivity | apply keeps_ret])
    end.
    exact (K _ _ _ H7). }
  apply bind_inv in H as (ls & s8 & H8 & H). injection H8 as <- <-.
  destruct (truthy_str (lib_subdir s7)) eqn:T; cbn [negb] in H; [|discriminate].
  apply bind_inv in H as (saved & s9 & H9 & H). injection H9 as <- <-.
  injection H as <-. cbn [lib_subdir libext with_cfg].
  split; [exact T | congruence].
Qed.

Lemma install_step_finds_libraries_witness :
  let env := Example.env0 [2020; 1] false true in
  let st := activate_variant 1 single_mpi_2020 (planned_state env Example.st0) in
  lib_subdir (after (install_step env) st) = "lib" /\
  truthy_str (lib_subdir (after (install_step env) st)) = true /\
  libext (after (install_step env) st) = "a".
Proof.
  intros env st. split; [vm_compute; reflexivity|].
  apply (install_step_finds_libraries env st (after (install_step env) st)).
  - vm_compute. reflexivity.
  - vm_compute. reflexivity.
Defined.

(** X12: [make install] runs in parallel: an install step that is not skipped
    enters the parent's install step with [-j] and the value of [parallel]
    appended to the variant's install options. *)
Theorem install_step_installs_in_parallel env st st' io :
  is_double_precision_cuda_build env st = false ->
  installopts (cfg st) = OStr io ->
  install_step env st = Ok (tt, st') ->
  exists s out,
    parent_step env Super_install_step s = Some out /\
    installopts (cfg s) = OStr (io ++ " -j " ++ Py.str_of_int (parallel (cfg st)) ++ " ").
Proof.
  unfold install_step. intros Hskip Hio H.
  apply bind_inv in H as (skip & s1 & H1 & H). injection H1 as <- <-.
  rewrite Hskip in H.
  apply bind_inv in H as (par & s1 & H1 & H). injection H1 as <- <-.
  apply bind_inv in H as ([] & s2 & H2 & H).
  unfold cfg_update, modify in H2. injection H2 as <-.
  apply bind_inv in H as (out & s3 & H3 & _).
  unfold call_parent in H3.
  match type of H3 with context [parent_step env _ ?s] =>
    destruct (parent_step env Super_install_step s) as [out'|] eqn:E; [|discriminate];
    exists s, out'
  end.
  split; [exact E|].
  cbn [cfg with_cfg installopts set_opt get_opt]. rewrite Hio. reflexivity.
Qed.

Lemma install_step_installs_in_parallel_witness :
  let env := Example.env0 [2020; 1] false true in
  exists s out,
    parent_step env Super_install_step s = Some out /\
    installopts (cfg s) = OStr "install  -j 4 ".
Proof.
  intros env.
  apply (install_step_installs_in_parallel env
           (activate_variant 1 single_mpi_2020 (planned_state env Example.st0))
           (after (install_step env)
              (activate_variant 1 single_mpi_2020 (planned_state env Example.st0)))
           "install ").
  - vm_compute. reflexivity.
  - reflexivity.
  - vm_compute. reflexivity.
Defined.

(** The directory search of [install_step], lines 446-453, as a
    computation of its own. *)
Lemma install_step_unfold env st :
  is_double_precision_cuda_build env st = false ->
  install_step env st =
  (call_parent env Super_install_step ;;
   bsl <- cfg_get build_shared_libs ;;
   (if bsl then modify (set_libext (shared_lib_ext env)) else modify (set_libext "a")) ;;
   ext <- gets libext ;;
   for_each ["lib"; "lib64"] (fun libdir =>
     if path_exists env (Py.path_join (installdir env) libdir) then
       find_lib_subdir env
         (if loose_lt (version env) [5; 0] then "libgmx*." ++ ext else "libgromacs*." ++ ext)
         [libdir; Py.path_join libdir "*"]
     else ret tt) ;;
   ls <- gets lib_subdir ;;
   if negb (truthy_str ls) then
     raise (EasyBuildError "Failed to determine lib subdirectory in %s" [installdir env])
   else saved <- gets save_installopts ;; cfg_set K_installopts saved)
    (with_cfg (fun c => set_opt K_installopts
                          (update_value (installopts c)
                             (OStr ("-j " ++ Py.str_of_int (parallel (cfg st))))) c) st).
Proof.
  intros Hskip. unfold install_step.
  rewrite (bind_ok _ _ _ false st) by (unfold gets; now rewrite Hskip).
  rewrite (bind_ok _ _ _ (parallel (cfg st)) st) by reflexivity.
  erewrite bind_ok by reflexivity. reflexivity.
Qed.

(** X13: A library found under [lib64] decides [lib_subdir], whatever was found
    under [lib]: the search goes on after a match in [lib]. *)
Theorem install_step_prefers_lib64 env st st' first others :
  is_double_precision_cuda_build env st = false ->
  path_exists env (Py.path_join (installdir env) "lib64") = true ->
  glob env (Py.path_join (Py.path_join (installdir env) "lib64") (install_libname env st))
  = first :: others ->
  install_step env st = Ok (tt, st') ->
  lib_subdir st' = Py.drop (String.length (installdir env) + 1) (Py.dirname first).
Proof.
  intros Hskip Hexists Hglob H.
  rewrite (install_step_unfold env st Hskip) in H.
  apply bind_inv in H as (out & s3 & H3 & H).
  unfold call_parent in H3. destruct (parent_step env _ _); [|discriminate].
  injection H3 as _ <-.
  apply bind_inv in H as (bsl & s4 & H4 & H). injection H4 as <- <-.
  cbn [cfg with_cfg add_event build_shared_libs set_opt] in H.
  apply bind_inv in H as ([] & s5 & H5 & H).
  apply bind_inv in H as (ext & s6 & H6 & H). injection H6 as <- <-.
  assert (E5 : libext s5 = if build_shared_libs (cfg st) then shared_lib_ext env else "a").
  { destruct (build_shared_libs (cfg st)); injection H5 as <-; reflexivity. }
  clear H5.
  assert (Hname : (if loose_lt (version env) [5; 0] then "libgmx*." ++ libext s5
                   else "libgromacs*." ++ libext s5) = install_libname env st).
  { unfold install_libname. rewrite E5. now destruct (loose_lt (version env) [5; 0]). }
  rewrite Hname in H.
  apply bind_inv in H as ([] & s7 & H7 & H).
  cbn [for_each] in H7.
  apply bind_inv in H7 as ([] & sa & _ & H7).
  apply bind_inv in H7 as ([] & sb & Hb & H7). injection H7 as <-.
  rewrite Hexists in Hb. cbn [find_lib_subdir] in Hb. rewrite Hglob in Hb.
  unfold bind, modify, gets, log in Hb. injection Hb as <-.
  apply bind_inv in H as (ls & s8 & H8 & H). injection H8 as <- <-.
  destruct (negb (truthy_str _)); [discriminate|].
  apply bind_inv in H as (saved & s9 & H9 & H). injection H9 as <- <-.
  injection H as <-. reflexivity.
Qed.

Lemma install_step_prefers_lib64_witness :
  let env :=
    mkEnv [2020; 1] "/opt/gromacs" [] true false false "" true "so"
      (fun _ => None) (fun _ => None) (fun _ => None) (fun _ => None) (fun _ => None)
      (fun _ _ => true)
      (fun pat => if String.eqb pat "/opt/gromacs/lib/libgromacs*.a"
                  then ["/opt/gromacs/lib/libgromacs.a"]
                  else if String.eqb pat "/opt/gromacs/lib64/libgromacs*.a"
                       then ["/opt/gromacs/lib64/libgromacs.a"] else [])
      (fun _ => true) (fun _ _ => Some "") in
  lib_subdir (after (install_step env) Example.st0) = "lib64".
Proof.
  intros env.
  refine (install_step_prefers_lib64 env Example.st0 (after (install_step env) Example.st0)
            "/opt/gromacs/lib64/libgromacs.a" [] eq_refl eq_refl eq_refl _).
  vm_compute. reflexivity.
Defined.

(** X14: When neither [lib] nor [lib64] exists in the installation directory,
    an install step whose [make install] succeeded raises [Failed to
    determine lib subdirectory] if no library directory is known yet; if
    one is known from an earlier variant, the step returns and keeps it. *)
Theorem install_step_without_lib_dirs env st out :
  is_double_precision_cuda_build env st = false ->
  parent_step env Super_install_step
    (with_cfg (fun c => set_opt K_installopts
                          (update_value (installopts c)
                             (OStr ("-j " ++ Py.str_of_int (parallel (cfg st))))) c) st)
  = Some out ->
  path_exists env (Py.path_join (installdir env) "lib") = false ->
  path_exists env (Py.path_join (installdir env) "lib64") = false ->
  if truthy_str (lib_subdir st)
  then exists st', install_step env st = Ok (tt, st') /\ lib_subdir st' = lib_subdir st
  else exists s,
         install_step env st
         = Err (EasyBuildError "Failed to determine lib subdirectory in %s" [installdir env]) s.
Proof.
  intros Hskip Hparent Hlib Hlib64.
  rewrite (install_step_unfold env st Hskip).
  erewrite bind_ok by (unfold call_parent; rewrite Hparent; reflexivity).
  erewrite bind_ok by reflexivity.
  cbn [cfg with_cfg add_event build_shared_libs set_opt].
  destruct (build_shared_libs (cfg st));
    (erewrite bind_ok by reflexivity);
    (erewrite bind_ok by reflexivity);
    cbn [for_each]; rewrite Hlib, Hlib64;
    (erewrite bind_ok by reflexivity);
    (erewrite bind_ok by reflexivity);
    cbn [lib_subdir set_libext with_cfg add_event];
    destruct (truthy_str (lib_subdir st)); cbn [negb];
    first [eexists; split; reflexivity | eexists; reflexivity].
Qed.

Lemma install_step_without_lib_dirs_witness :
  let env :=
    mkEnv [2020; 1] "/opt/gromacs" [] true false false "" true "so"
      (fun _ => None) (fun _ => None) (fun _ => None) (fun _ => None) (fun _ => None)
      (fun _ _ => true) (fun _ => []) (fun _ => false) (fun _ _ => Some "") in
  exists s,
    install_step env Example.st0
    = Err (EasyBuildError "Failed to determine lib subdirectory in %s" ["/opt/gromacs"]) s.
Proof.
  intros env.
  exact (install_step_without_lib_dirs env Example.st0 "" eq_refl eq_refl eq_refl eq_refl).
Defined.

(** ** [run_all_steps] *)

(** Planning with a list among the common options: the [TypeError] of
    line 669, 670 or 671, raised while the first variant is put together. *)
Lemma plan_variants_type_error env st :
  (exists l, configopts (cfg st) = OList l) \/
  (exists l, buildopts (cfg st) = OList l) \/
  (exists l, installopts (cfg st) = OList l) ->
  exists s,
    plan_variants env st = Err (TypeError MSG_STR_PLUS_LIST) s /\
    trace s = trace st /\ variants_to_build s = 0%Z.
Proof.
  intros H. rewrite plan_variants_unfold.
  pose proof (plan_prelude_trace env st) as Ht.
  assert (Hn : variants_to_build (plan_prelude env st) = 0%Z) by reflexivity.
  destruct (configopts (cfg st)) as [cc|lc], (buildopts (cfg st)) as [cb|lb],
    (installopts (cfg st)) as [ci|li];
    try (destruct H as [[l H]|[[l H]|[l H]]]; discriminate);
    unfold precisions, mpitypes; cbn [app for_fold];
    unfold bind, plan_variant, str_plus, bind, cfg_get, gets, raise, cfg_update, modify, ret;
    (eexists; split; [reflexivity|]); split; assumption.
Qed.

(** X15: [run_all_steps] needs the three common options as strings: if one of
    them is a list when it is called, putting the first variant together
    already raises the [TypeError] of concatenating a string and a list;
    nothing has been logged and no step has run when it does. *)
Theorem run_all_steps_rejects_list_options env st :
  (exists l, configopts (cfg st) = OList l) \/
  (exists l, buildopts (cfg st) = OList l) \/
  (exists l, installopts (cfg st) = OList l) ->
  exists s,
    run_all_steps env st
    = Err (TypeError ("can only concatenate str (not " ++ dquote ++ "list" ++ dquote
                      ++ ") to str")) s /\
    trace s = trace st.
Proof.
  intros H.
  destruct (plan_variants_type_error env st H) as (s & Hs & Ht & _).
  exists s. split; [|exact Ht].
  unfold run_all_steps. apply bind_err. exact Hs.
Qed.

Lemma run_all_steps_rejects_list_options_witness :
  exists s,
    run_all_steps (Example.env0 [2020; 1] false true)
      (with_cfg (set_opt K_configopts (OList ["--X"; "--Y"])) Example.st0)
    = Err (TypeError ("can only concatenate str (not " ++ dquote ++ "list" ++ dquote
                      ++ ") to str")) s /\
    trace s = [].
Proof.
  apply (run_all_steps_rejects_list_options (Example.env0 [2020; 1] false true)
           (with_cfg (set_opt K_configopts (OList ["--X"; "--Y"])) Example.st0)).
  left. now exists ["--X"; "--Y"].
Defined.

(** The last variant of a run leaves [runtest] at [None]. *)
Lemma run_variants_runtest env vs :
  forall idx st st',
    vs <> [] ->
    run_variants env idx vs st = Ok (tt, st') ->
    Z.of_nat (idx + length vs) = variants_to_build st ->
    runtest (cfg st') = RNone.
Proof.
  induction vs as [|v rest IH]; intros idx st st' Hne H Hn; [now elim Hne|].
  cbn [run_variants] in H.
  apply bind_inv in H as ([] & s1 & H1 & H).
  pose proof (run_variant_extensions _ _ _ _ _ H1) as [Hv _].
  destruct rest as [|v' rest].
  - injection H as <-. cbn [length] in Hn.
    unfold run_variant in H1.
    apply bind_inv in H1 as ([] & s4 & H4 & H1). injection H4 as <-.
    apply bind_inv in H1 as ([] & s5 & H5 & H1).
    apply bind_inv in H1 as ([] & s6 & H6 & H1).
    apply bind_inv in H1 as ([] & s7 & H7 & H1).
    apply bind_inv in H1 as ([] & s8 & H8 & H1).
    apply configure_step_frame in H5. apply build_step_frame in H6.
    apply test_step_frame in H7. apply install_step_frame in H8.
    assert (F : frame s8 = frame (set_iter_idx idx st)).
    { rewrite H8, H7, H6, H5. reflexivity. }
    unfold frame in F; cbn in F. injection F as Fv Fi _ _ _ _ _ _ _.
    rewrite extensions_step_last in H1 by lia.
    unfold bind, call_parent, ret in H1.
    destruct (parent_step env _ _); [|discriminate].
    injection H1 as <-. reflexivity.
  - apply (IH (S idx) s1 st'); [discriminate|exact H|].
    rewrite Hv, <- Hn. cbn [length]. lia.
Qed.

(** X16: A run that completes returns with [cfg['runtest']] set to [None]: the
    last extensions step clears it and nothing puts the easyconfig's value
    back. *)
Theorem run_all_steps_clears_runtest env st st' :
  run_all_steps env st = Ok (tt, st') ->
  runtest (cfg st') = RNone.
Proof.
  intros H. unfold run_all_steps in H.
  apply bind_inv in H as (vb & s1 & Hplan & H).
  destruct (plan_variants_summary _ _ _ _ Hplan) as (n & Hn & Hv1 & Hl & Ht).
  apply bind_inv in H as (co & s2 & H2 & H). injection H2 as _ <-.
  apply bind_inv in H as ([] & s3 & H3 & H). injection H3 as <-.
  apply bind_inv in H as ([] & s4 & H4 & H). injection H4 as <-.
  unfold super_run_all_steps in H.
  apply bind_inv in H as (vs & s5 & H5 & H). injection H5 as <- <-.
  apply run_variants_runtest in H; [exact H| |].
  - intros E. apply (f_equal (@length _)) in E.
    change (length (planned_variants s1) = 0) in E. lia.
  - change (Z.of_nat (0 + length (planned_variants s1)) = variants_to_build s1).
    rewrite Hl, Hv1. reflexivity.
Qed.

Lemma run_all_steps_clears_runtest_witness :
  let env := Example.env0 [2020; 1] false true in
  runtest (cfg Example.st0) = RBool true /\
  runtest (cfg (final_state env Example.st0)) = RNone.
Proof.
  intros env. split; [reflexivity|].
  apply (run_all_steps_clears_runtest env Example.st0). vm_compute. reflexivity.
Defined.

Lemma frame_build_install_cmds s s' :
  frame s' = frame s -> build_install_cmds s' = build_install_cmds s.
Proof.
  unfold frame, build_install_cmds. intros H.
  injection H as _ _ _ _ -> -> _ -> ->. reflexivity.
Qed.

Lemma run_variants_build_install_cmds env vs :
  forall idx, keeps build_install_cmds (run_variants env idx vs).
Proof.
  induction vs as [|v rest IH]; intros idx; cbn [run_variants].
  - apply keeps_ret.
  - apply keeps_bind; [|intros _; apply IH].
    unfold run_variant.
    repeat (apply keeps_bind; [|intros _]).
    + apply keeps_modify. reflexivity.
    + apply (keeps_weaken frame); [apply frame_build_install_cmds | apply configure_step_frame].
    + apply (keeps_weaken frame); [apply frame_build_install_cmds | apply build_step_frame].
    + apply (keeps_weaken frame); [apply frame_build_install_cmds | apply test_step_frame].
    + apply (keeps_weaken frame); [apply frame_build_install_cmds | apply install_step_frame].
    + unfold extensions_step. keeps_obs.
Qed.

(** X17: A run that completes never changes [build_cmd], and for GROMACS >= 5
    it does not change [install_cmd] either: both are what they were when
    [run_all_steps] was called, and equal to the saved copies. *)
Theorem run_all_steps_keeps_build_cmd env st st' :
  run_all_steps env st = Ok (tt, st') ->
  build_cmd (cfg st') = build_cmd (cfg st) /\
  save_build_cmd st' = build_cmd (cfg st) /\
  save_install_cmd st' = install_cmd (cfg st) /\
  (loose_ge (version env) [5] = true -> install_cmd (cfg st') = install_cmd (cfg st)).
Proof.
  intros H. unfold run_all_steps in H.
  apply bind_inv in H as (vb & s1 & Hplan & H).
  destruct (plan_variants_inv _ _ _ _ Hplan) as (cc & cb & ci & Hc & Hb & Hi).
  pose proof (plan_variants_ok env st cc cb ci Hc Hb Hi) as Hok; cbv zeta in Hok.
  rewrite Hok in Hplan. clear Hok.
  assert (E1 : build_cmd (cfg s1) = build_cmd (cfg st) /\
               save_build_cmd s1 = build_cmd (cfg st) /\
               save_install_cmd s1 = install_cmd (cfg st) /\
               (loose_ge (version env) [5] = true ->
                install_cmd (cfg s1) = install_cmd (cfg st))).
  { injection Hplan as _ <-. unfold plan_prelude, loose_ge.
    destruct (loose_lt (version env) [5]); repeat split; try reflexivity.
    discriminate. }
  clear Hplan.
  apply bind_inv in H as (co & s2 & H2 & H). injection H2 as _ <-.
  apply bind_inv in H as ([] & s3 & H3 & H). injection H3 as <-.
  apply bind_inv in H as ([] & s4 & H4 & H). injection H4 as <-.
  unfold super_run_all_steps in H.
  apply bind_inv in H as (vs & s5 & H5 & H). injection H5 as _ <-.
  apply run_variants_build_install_cmds in H. unfold build_install_cmds in H. cbn in H.
  injection H as -> -> -> ->. exact E1.
Qed.

Lemma run_all_steps_keeps_build_cmd_witness :
  let env := Example.env0 [2020; 1] false true in
  build_cmd (cfg (final_state env Example.st0)) = "make" /\
  install_cmd (cfg (final_state env Example.st0)) = "make install".
Proof.
  intros env.
  destruct (run_all_steps_keeps_build_cmd env Example.st0 (final_state env Example.st0))
    as (Hb & _ & _ & Hi).
  - vm_compute. reflexivity.
  - split; [exact Hb | exact (Hi eq_refl)].
Defined.

(** ** [get_gromacs_arch] *)

(** X18: [get_gromacs_arch] always returns, leaves the easyconfig and the
    environment as they are, and never names an instruction set the GROMACS
    version does not know:
    [AVX_512] and [AVX_512_KNL] only from 2016 on, [AVX2_256] only from 5.0
    on; and an optarch that mentions AVX never falls back to autodetection. *)
Theorem get_gromacs_arch_fits_version env st :
  exists res st',
    get_gromacs_arch env st = Ok (res, st') /\
    cfg st' = cfg st /\ environ st' = environ st /\
    (res = Some "AVX_512_KNL" \/ res = Some "AVX_512" -> loose_ge (version env) [2016] = true) /\
    (res = Some "AVX2_256" -> loose_ge (version env) [5; 0] = true) /\
    (Py.str_in "AVX" (Py.upper (optarch env)) = true ->
     In res [Some "AVX_512_KNL"; Some "AVX_512"; Some "AVX2_256"; Some "AVX_256"]).
Proof.
  unfold get_gromacs_arch. cbv zeta.
  unfold bind, ret, log, modify.
  destruct (Py.str_in "MIC-AVX512" (Py.upper (optarch env))) eqn:E1;
    destruct (Py.str_in "AVX512" (Py.upper (optarch env))) eqn:E2;
    destruct (Py.str_in "AVX2" (Py.upper (optarch env))) eqn:E3;
    destruct (Py.str_in "AVX" (Py.upper (optarch env))) eqn:E4;
    destruct (loose_ge (version env) [2016]) eqn:V1;
    destruct (loose_ge (version env) [5; 0]) eqn:V2;
    cbn [andb];
    try (eexists _, _; split; [reflexivity|];
         repeat split; try reflexivity;
         try (intros [H|H]; discriminate H); try (intros H; discriminate H);
         intros _; cbn; tauto).
  all: destruct (Py.str_in "SSE3" (Py.upper (optarch env))
                 || Py.str_in "SSE2" (Py.upper (optarch env))
                 || Py.str_in "MARCH=NOCONA" (Py.upper (optarch env)));
    [|destruct (String.eqb (Py.upper (optarch env)) OPTARCH_GENERIC);
      [destruct (cpu_is_x86_64 env)|destruct (truthy_str (Py.upper (optarch env)))]];
    eexists _, _; (split; [reflexivity|]);
    repeat split; try reflexivity;
    try (intros [H|H]; discriminate H); try (intros H; discriminate H).
Qed.

(** ** [sanity_check_step] *)

Lemma fold_dsuff pat l : forall init,
  fold_left (fun dsuff configopts =>
               if Py.str_in pat configopts then Some "_d" else dsuff) l init
  = if existsb (Py.str_in pat) l then Some "_d" else init.
Proof.
  induction l as [|x l IH]; intros init; cbn [fold_left existsb]; [reflexivity|].
  rewrite IH. destruct (Py.str_in pat x); cbn [orb]; [|reflexivity].
  now destruct (existsb (Py.str_in pat) l).
Qed.

(** The loop of lines 541-548: the [_d] suffix is checked exactly when CUDA
    is absent and some entry of configopts holds the pattern. *)
Lemma sanity_suffixes_spec env st :
  sanity_suffixes env st
  = if negb (truthy_opt (get_software_root env "CUDA"))
       && existsb (Py.str_in (double_prec_pattern st)) (opt_items (configopts (cfg st)))
    then [""; "_d"] else [""].
Proof.
  unfold sanity_suffixes. cbv zeta.
  destruct (truthy_opt (get_software_root env "CUDA")); cbn [negb andb]; [reflexivity|].
  rewrite fold_dsuff.
  now destruct (existsb _ _).
Qed.

Lemma flat_map_single {A B C} (g : A -> B -> C) (x : B) (l : list A) :
  flat_map (fun a => map (g a) [x]) l = map (fun a => g a x) l.
Proof. induction l as [|a l IH]; cbn [flat_map]; [reflexivity | now rewrite IH]. Qed.

(** With CUDA the suffix list is [['']]: one file per binary and per
    library. *)
Lemma sanity_check_paths_cuda env st :
  truthy_opt (get_software_root env "CUDA") = true ->
  files (sanity_check_paths env st)
  = (map (fun b => Py.path_join "bin" b)
       (sanity_bins env ++ with_mpi_variants env (mpisuffix (cfg st)) (sanity_mpi_bins0 env))
     ++ map (fun l => Py.path_join (lib_subdir st) ("lib" ++ l ++ "." ++ libext st))
          (sanity_libnames env (build_shared_libs (cfg st))
           ++ with_mpi_variants env (mpisuffix (cfg st))
                (sanity_mpi_libnames0 env (build_shared_libs (cfg st)))))%list.
Proof.
  intros Hcuda. unfold sanity_check_paths. cbv zeta. cbn [files].
  rewrite sanity_suffixes_spec, Hcuda. cbn [negb andb].
  rewrite !flat_map_single, !map_map.
  apply f_equal2; apply map_ext; intros a; rewrite ?append_nil_r; reflexivity.
Qed.

(** The names lines 527-528 add are the given ones with the MPI suffix. *)
Lemma with_mpi_variants_in env sfx l b :
  In b (with_mpi_variants env sfx l) ->
  exists name s,
    In name l /\
    In s [""; if loose_lt (version env) [4; 6] then sfx else "_mpi"] /\
    b = name ++ s.
Proof.
  unfold with_mpi_variants. destruct (tc_usempi env); cbv zeta; intros H.
  - apply in_app_or in H as [H|H].
    + exists b, "". rewrite append_nil_r. split; [exact H|]. split; [now left | reflexivity].
    + apply in_map_iff in H as (name & <- & Hn).
      eexists name, _. split; [exact Hn|]. split; [right; left; reflexivity | reflexivity].
  - exists b, "". rewrite append_nil_r. split; [exact H|]. split; [now left | reflexivity].
Qed.

Lemma sanity_bins_names env name :
  In name (sanity_bins env ++ sanity_mpi_bins0 env) ->
  In name ["mdrun"; "gmx"; "editconf"; "g_lie"; "genbox"; "genconf"].
Proof.
  unfold sanity_bins, sanity_mpi_bins0.
  destruct (loose_ge (version env) [5; 0]), (loose_lt (version env) [5; 1]);
    cbn [app In]; tauto.
Qed.

Lemma sanity_libnames_names env shared name :
  In name (sanity_libnames env shared ++ sanity_mpi_libnames0 env shared) ->
  In name ["gromacs"; "gmxana"; "gmx"; "md"; "gmxpreprocess"].
Proof.
  unfold sanity_libnames, sanity_mpi_libnames0.
  destruct (loose_ge (version env) [5; 0]), (loose_ge (version env) [4; 6]),
    (loose_ge (version env) [4; 5]), shared;
    cbn [app In]; tauto.
Qed.

(** X19: With CUDA as a dependency the sanity check adds no double-precision
    suffix, whatever the configure options say: every file it requires is
    [bin/<name><sfx>] for one of the six binaries, or
    [<lib_subdir>/lib<name><sfx>.<libext>] for one of the five libraries,
    where [sfx] is empty or the MPI suffix ([_mpi] from GROMACS 4.6 on, the
    easyconfig's [mpisuffix] before). *)
Theorem sanity_check_cuda_file_names env st f :
  truthy_opt (get_software_root env "CUDA") = true ->
  In f (files (sanity_check_paths env st)) ->
  let mpisuff := if loose_lt (version env) [4; 6] then mpisuffix (cfg st) else "_mpi" in
  exists name sfx,
    In sfx [""; mpisuff] /\
    ((In name ["mdrun"; "gmx"; "editconf"; "g_lie"; "genbox"; "genconf"] /\
      f = Py.path_join "bin" (name ++ sfx)) \/
     (In name ["gromacs"; "gmxana"; "gmx"; "md"; "gmxpreprocess"] /\
      f = Py.path_join (lib_subdir st) ("lib" ++ name ++ sfx ++ "." ++ libext st))).
Proof.
  intros Hcuda Hf mpisuff.
  rewrite (sanity_check_paths_cuda env st Hcuda) in Hf.
  apply in_app_or in Hf as [Hf|Hf]; apply in_map_iff in Hf as (b & <- & Hb);
    apply in_app_or in Hb as [Hb|Hb].
  - exists b, "". rewrite append_nil_r. split; [now left|]. left. split; [|reflexivity].
    apply (sanity_bins_names env). apply in_or_app. now left.
  - apply with_mpi_variants_in in Hb as (name & s & Hn & Hs & ->).
    exists name, s. split; [exact Hs|]. left. split; [|reflexivity].
    apply (sanity_bins_names env). apply in_or_app. now right.
  - exists b, "". split; [now left|]. right. split; [|reflexivity].
    apply (sanity_libnames_names env (build_shared_libs (cfg st))). apply in_or_app. now left.
  - apply with_mpi_variants_in in Hb as (name & s & Hn & Hs & ->).
    exists name, s. split; [exact Hs|]. right. split.
    + apply (sanity_libnames_names env (build_shared_libs (cfg st))). apply in_or_app. now right.
    + now rewrite append_assoc.
Qed.

Lemma sanity_check_cuda_file_names_witness :
  let env := Example.env0 [2020; 1] true true in
  let st := set_libext "so" (set_lib_subdir "lib64" (planned_state env Example.st0)) in
  exists name sfx,
    In sfx [""; "_mpi"] /\
    ((In name ["mdrun"; "gmx"; "editconf"; "g_lie"; "genbox"; "genconf"] /\
      "bin/gmx_mpi" = Py.path_join "bin" (name ++ sfx)) \/
     (In name ["gromacs"; "gmxana"; "gmx"; "md"; "gmxpreprocess"] /\
      "bin/gmx_mpi" = Py.path_join "lib64" ("lib" ++ name ++ sfx ++ "." ++ "so"))).
Proof.
  intros env st.
  apply (sanity_check_cuda_file_names env st "bin/gmx_mpi"); [reflexivity|].
  vm_compute. right; left; reflexivity.
Defined.

(** The configure options and the pattern planning leaves behind. *)
Lemma plan_variants_configopts env st labels st1 :
  plan_variants env st = Ok (labels, st1) ->
  exists cc,
    configopts (cfg st) = OStr cc /\
    configopts (cfg st1)
    = OList (flat_map (fun p => map (merged_configopts env (mpisuffix (cfg st)) cc p)
                                  (mpitypes env))
               (precisions (double_precision (cfg st)))) /\
    double_prec_pattern st1 = prec_opts env double.
Proof.
  intros Hplan.
  destruct (plan_variants_inv _ _ _ _ Hplan) as (cc & cb & ci & Hc & Hb & Hi).
  pose proof (plan_variants_ok env st cc cb ci Hc Hb Hi) as Hok; cbv zeta in Hok.
  remember (precisions (double_precision (cfg st))) as P eqn:EP.
  remember (mpitypes env) as Q eqn:EQ.
  assert (Es : st1 = set_variants_to_build
                      (Z.of_nat (length (flat_map (fun p =>
                         map (merged_configopts env (mpisuffix (cfg st)) cc p) Q) P)))
                      (set_lists
                         (flat_map (fun p =>
                            map (merged_configopts env (mpisuffix (cfg st)) cc p) Q) P)
                         (flat_map (fun _ => map (merged_buildopts env cb) Q) P)
                         (flat_map (fun _ => map (merged_installopts env ci) Q) P)
                         (plan_prelude env st))) by congruence.
  exists cc. split; [exact Hc|]. subst st1. split; [reflexivity|].
  unfold set_variants_to_build, set_lists, with_cfg; cbn [double_prec_pattern].
  unfold plan_prelude. destruct (loose_lt (version env) [5]); reflexivity.
Qed.

Lemma in_flat_map_suffix (f : string -> string) (names suffixes : list string) b suff :
  In b names -> In suff suffixes ->
  In (f (b ++ suff)) (map f (flat_map (fun b => map (fun suff => b ++ suff) suffixes) names)).
Proof.
  intros Hb Hs. apply in_map. apply in_flat_map. exists b. split; [exact Hb|].
  apply in_map_iff. now exists suff.
Qed.

(** X20: Without CUDA, on the option lists [run_all_steps] has planned with
    double precision enabled, the sanity check asks for every binary twice:
    under its own name and with the [_d] suffix. *)
Theorem sanity_check_requires_double_binaries env st labels st1 b :
  plan_variants env st = Ok (labels, st1) ->
  double_precision (cfg st) <> Some false ->
  truthy_opt (get_software_root env "CUDA") = false ->
  In b (sanity_bins env ++ with_mpi_variants env (mpisuffix (cfg st1)) (sanity_mpi_bins0 env)) ->
  In (Py.path_join "bin" b) (files (sanity_check_paths env st1)) /\
  In (Py.path_join "bin" (b ++ "_d")) (files (sanity_check_paths env st1)).
Proof.
  intros Hplan Hdp Hcuda Hb.
  destruct (plan_variants_configopts _ _ _ _ Hplan) as (cc & _ & Hco & Hpat).
  assert (Hsuff : sanity_suffixes env st1 = [""; "_d"]).
  { rewrite sanity_suffixes_spec, Hcuda, Hco, Hpat. cbn [negb andb opt_items].
    assert (Hp : precisions (double_precision (cfg st)) = [single; double]).
    { destruct (double_precision (cfg st)) as [[|]|]; try reflexivity. now elim Hdp. }
    rewrite Hp.
    replace (existsb _ _) with true; [reflexivity|].
    symmetry. apply existsb_exists.
    exists (merged_configopts env (mpisuffix (cfg st)) cc double nompi).
    split; [|apply merged_configopts_double].
    apply in_flat_map. exists double. split; [right; now left|].
    apply in_map. unfold mpitypes. now left. }
  unfold sanity_check_paths. cbv zeta. cbn [files]. rewrite Hsuff.
  split; apply in_or_app; left.
  - rewrite <- (append_nil_r b) at 1.
    apply (in_flat_map_suffix (Py.path_join "bin")); [exact Hb | now left].
  - apply (in_flat_map_suffix (Py.path_join "bin")); [exact Hb | right; now left].
Qed.

Lemma sanity_check_requires_double_binaries_witness :
  let env := Example.env0 [2020; 1] false true in
  In "bin/gmx_mpi" (files (sanity_check_paths env (planned_state env Example.st0))) /\
  In "bin/gmx_mpi_d" (files (sanity_check_paths env (planned_state env Example.st0))).
Proof.
  intros env.
  apply (sanity_check_requires_double_binaries env Example.st0
           ["single precision nompi"; "single precision mpi";
            "double precision nompi"; "double precision mpi"]
           (planned_state env Example.st0) "gmx_mpi").
  - vm_compute. reflexivity.
  - discriminate.
  - reflexivity.
  - vm_compute. right; left; reflexivity.
Defined.

(** X21: With an MPI toolchain every binary that can be built with MPI is
    checked in both builds: under its plain name and with the MPI suffix
    ([_mpi] from GROMACS 4.6 on, the easyconfig's [mpisuffix] before). *)
Theorem sanity_check_mpi_twins env st b :
  tc_usempi env = true ->
  In b (sanity_mpi_bins0 env) ->
  In (Py.path_join "bin" b) (files (sanity_check_paths env st)) /\
  In (Py.path_join "bin"
        (b ++ if loose_lt (version env) [4; 6] then mpisuffix (cfg st) else "_mpi"))
    (files (sanity_check_paths env st)).
Proof.
  intros Hmpi Hb.
  assert (Hs : In "" (sanity_suffixes env st)).
  { rewrite sanity_suffixes_spec. destruct (_ && _); now left. }
  unfold sanity_check_paths. cbv zeta. cbn [files].
  unfold with_mpi_variants. rewrite Hmpi. cbv zeta.
  split; apply in_or_app; left.
  - rewrite <- (append_nil_r b) at 1.
    apply (in_flat_map_suffix (Py.path_join "bin")); [|exact Hs].
    apply in_or_app; right. apply in_or_app; now left.
  - match goal with |- In (Py.path_join "bin" ?x) _ => rewrite <- (append_nil_r x) at 1 end.
    apply (in_flat_map_suffix (Py.path_join "bin")); [|exact Hs].
    apply in_or_app; right. apply in_or_app; right.
    apply in_map_iff. now exists b.
Qed.

Lemma sanity_check_mpi_twins_witness :
  let env := Example.env0 [4; 5; 7] false true in
  In "bin/mdrun" (files (sanity_check_paths env Example.st0)) /\
  In "bin/mdrun_mpi" (files (sanity_check_paths env Example.st0)).
Proof.
  intros env.
  apply (sanity_check_mpi_twins env Example.st0 "mdrun"); [reflexivity|].
  vm_compute. left; reflexivity.
Defined.

(** ** Skipped variants stay skipped *)

(** X22: A variant that counts as a double-precision CUDA build when
    [configure_step] is entered still counts as one when it returns: the
    build, test and install steps that follow are skipped as well. *)
Theorem configure_step_keeps_variant_skipped env st st' :
  is_double_precision_cuda_build env st = true ->
  configure_step env st = Ok (tt, st') ->
  is_double_precision_cuda_build env st' = true.
Proof.
  unfold is_double_precision_cuda_build. cbv zeta. intros Hskip H.
  apply andb_true_iff in Hskip as [Hcuda Hin]. rewrite Hcuda. cbn [andb].
  pose proof (configure_step_frame env _ _ _ H) as F.
  assert (Fp : double_prec_pattern st' = double_prec_pattern st)
    by (unfold frame in F; now injection F).
  rewrite Fp.
  exact (py_in_extends _ _ _ (configure_step_grows env _ _ _ H) Hin).
Qed.

Lemma configure_step_keeps_variant_skipped_witness :
  let env := Example.env0 [4; 5; 7] true true in
  let st := activate_variant 2 (mkVariant "--disable-mpi --enable-double  --X" " " "install ")
              (planned_state env Example.st0) in
  parent_calls ConfigureMake_configure_step (trace (after (configure_step env) st)) = [2] /\
  is_double_precision_cuda_build env (after (configure_step env) st) = true.
Proof.
  intros env st. split; [vm_compute; reflexivity|].
  apply (configure_step_keeps_variant_skipped env st (after (configure_step env) st)).
  - vm_compute. reflexivity.
  - vm_compute. reflexivity.
Defined.

(** ** The MPI executable, when it is found *)

(** The MPI block when [which] finds the executable: three options are
    appended, the number of tasks being [parallel] when [mpi_numprocs] is 0
    and [mpi_numprocs] otherwise. *)
Lemma configure_mpi_options_found env st st' path :
  py_in "-DGMX_MPI=ON" (configopts (cfg st)) = true ->
  which env (mpiexec (cfg st)) = Some path ->
  truthy_str path = true ->
  configure_mpi_options env st = Ok (tt, st') ->
  configopts (cfg st')
  = update_value
      (update_value
         (update_value (configopts (cfg st)) (OStr ("-DMPIEXEC=" ++ path)))
         (OStr ("-DMPIEXEC_NUMPROC_FLAG=" ++ mpiexec_numproc_flag (cfg st))))
      (OStr ("-DNUMPROC="
             ++ Py.str_of_int (if (mpi_numprocs (cfg st) =? 0)%Z then parallel (cfg st)
                               else mpi_numprocs (cfg st)))).
Proof.
  intros Hmpi Hwhich Hpath H. unfold configure_mpi_options in H.
  apply bind_inv in H as (co & s1 & H1 & H). injection H1 as <- <-.
  rewrite Hmpi in H.
  apply bind_inv in H as (n0 & s1 & H1 & H). injection H1 as <- <-.
  apply bind_inv in H as (par & s1 & H1 & H). injection H1 as <- <-.
  apply bind_inv in H as (numprocs & s4 & H4 & H).
  assert (E4 : numprocs = (if (mpi_numprocs (cfg st) =? 0)%Z then parallel (cfg st)
                           else mpi_numprocs (cfg st)) /\ cfg s4 = cfg st).
  { unfold bind, log, modify, ret in H4.
    destruct (mpi_numprocs (cfg st) =? 0)%Z;
      [|destruct (mpi_numprocs (cfg st) >? parallel (cfg st))%Z];
      injection H4 as <- <-; split; reflexivity. }
  destruct E4 as [-> C4]. clear H4.
  apply bind_inv in H as (name & s5 & H5 & H). injection H5 as <- <-.
  apply bind_inv in H as (flag & s6 & H6 & H). injection H6 as <- <-.
  rewrite C4, Hwhich in H. cbn [truthy_opt str_of_opt] in H. rewrite Hpath in H.
  apply bind_inv in H as ([] & s7 & H7 & H).
  unfold bind, cfg_update, modify in H7. injection H7 as <-.
  unfold log, modify in H. injection H as <-.
  cbn [cfg with_cfg add_event configopts set_opt get_opt]. now rewrite C4.
Qed.

(** X23: For an MPI variant of GROMACS >= 4.6 whose MPI executable is found,
    the configure options [configure_step] leaves name the executable, the
    flag for the number of tasks, and the number of tasks: [parallel] when
    [mpi_numprocs] is 0, else [mpi_numprocs] (even above [parallel]). *)
Theorem configure_step_sets_mpiexec env st st' path :
  loose_ge (version env) [4; 6] = true ->
  is_double_precision_cuda_build env st = false ->
  py_in "-DGMX_MPI=ON" (configopts (cfg st)) = true ->
  which env (mpiexec (cfg st)) = Some path ->
  truthy_str path = true ->
  configure_step env st = Ok (tt, st') ->
  py_in ("-DMPIEXEC=" ++ path) (configopts (cfg st')) = true /\
  py_in ("-DMPIEXEC_NUMPROC_FLAG=" ++ mpiexec_numproc_flag (cfg st)) (configopts (cfg st'))
  = true /\
  py_in ("-DNUMPROC="
         ++ Py.str_of_int (if (mpi_numprocs (cfg st) =? 0)%Z then parallel (cfg st)
                           else mpi_numprocs (cfg st)))
    (configopts (cfg st')) = true.
Proof.
  intros Hv Hskip Hmpi Hwhich Hpath H.
  assert (Hv6 : loose_lt (version env) [4; 6] = false) by (now apply negb_true_iff).
  unfold configure_step in H.
  apply bind_inv in H as (returned & s1 & H1 & H).
  destruct returned.
  { pose proof (configure_cuda_check_returned _ _ _ _ H1 eq_refl). congruence. }
  apply bind_inv in H as (pc & s2 & H2 & H). rewrite Hv6 in H.
  apply bind_inv in H as ([] & s3 & H3 & H).
  apply configure_plumed_check_cfg in H2.
  destruct (configure_cuda_check_continues env st s1 H1) as [_ Hcfg1].
  assert (Hsame : mpiexec (cfg s2) = mpiexec (cfg st) /\
                  mpiexec_numproc_flag (cfg s2) = mpiexec_numproc_flag (cfg st) /\
                  mpi_numprocs (cfg s2) = mpi_numprocs (cfg st) /\
                  parallel (cfg s2) = parallel (cfg st) /\
                  py_in "-DGMX_MPI=ON" (configopts (cfg s2)) = true).
  { rewrite H2. destruct Hcfg1 as [->|[item ->]]; [now repeat split|].
    cbn [mpiexec mpiexec_numproc_flag mpi_numprocs parallel configopts set_opt].
    repeat split. now apply py_in_update. }
  destruct Hsame as (Hexec & Hflag & Hnum & Hpar & Hmpi2).
  rewrite <- Hexec in Hwhich.
  pose proof (configure_mpi_options_found env s2 s3 path Hmpi2 Hwhich Hpath H3) as E3.
  rewrite Hflag, Hnum, Hpar in E3.
  apply configure_cmake_rest_grows in H.
  unfold configopts_grow in H. rewrite E3 in H.
  repeat split; apply (py_in_extends _ _ _ H).
  - do 2 apply py_in_update. apply py_in_update_item.
  - apply py_in_update. apply py_in_update_item.
  - apply py_in_update_item.
Qed.

Lemma configure_step_sets_mpiexec_witness :
  let env := Example.env0 [2020; 1] false true in
  let st := activate_variant 1 single_mpi_2020 (planned_state env Example.st0) in
  py_in "-DMPIEXEC=/usr/bin/mpirun" (configopts (cfg (after (configure_step env) st))) = true /\
  py_in "-DMPIEXEC_NUMPROC_FLAG=-np" (configopts (cfg (after (configure_step env) st))) = true /\
  py_in "-DNUMPROC=4" (configopts (cfg (after (configure_step env) st))) = true.
Proof.
  intros env st.
  apply (configure_step_sets_mpiexec env st (after (configure_step env) st) "/usr/bin/mpirun").
  - reflexivity.
  - vm_compute. reflexivity.
  - vm_compute. reflexivity.
  - reflexivity.
  - reflexivity.
  - vm_compute. reflexivity.
Defined.

(** ** CUDA and [double_precision] over a whole run *)

Lemma double_precision_lowered_refl st : double_precision_lowered st st.
Proof. now left. Qed.

Lemma double_precision_lowered_trans s1 s2 s3 :
  double_precision_lowered s1 s2 -> double_precision_lowered s2 s3 ->
  double_precision_lowered s1 s3.
Proof.
  unfold double_precision_lowered. intros [H1|H1] [H2|H2]; rewrite ?H2, ?H1; auto.
Qed.

Lemma find_lib_subdir_lowers env libname subdirs :
  steps double_precision_lowered (find_lib_subdir env libname subdirs).
Proof.
  intros st a st' H. left.
  exact (find_lib_subdir_keeps (fun s => double_precision (cfg s)) env libname subdirs
           (fun _ _ => eq_refl) (fun _ _ => eq_refl) _ _ _ H).
Qed.

(** Decomposes a goal [steps double_precision_lowered c]. *)
Ltac lowers :=
  repeat first
    [ assumption
    | match goal with H : forall _, steps _ _ |- _ => apply H end
    | apply find_lib_subdir_lowers
    | apply (steps_ret _ double_precision_lowered_refl)
    | apply steps_raise
    | apply (steps_gets _ double_precision_lowered_refl)
    | apply (steps_bind _ double_precision_lowered_trans); [|intros]
    | apply (steps_for_each _ double_precision_lowered_refl double_precision_lowered_trans);
      intros
    | apply (steps_for_fold _ double_precision_lowered_refl double_precision_lowered_trans);
      intros
    | apply steps_call_parent; intros; left; reflexivity
    | apply steps_modify; intros; first [left; reflexivity | right; reflexivity]
    | match goal with
      | |- steps _ (if ?b then _ else _) => destruct b
      | |- steps _ (match ?x with _ => _ end) => destruct x
      | |- steps _ (let _ := _ in _) => cbv zeta
      end
    | progress unfold cfg_get, cfg_set, cfg_update, cfg_update_runtest, log, print_warning, setvar,
        getenv, environ_item, environ_get, getenv_split, lib_paths, do_run_cmd ].

(** No step of a variant sets [double_precision] to anything but [False]. *)
Lemma run_variant_lowers env idx v : steps double_precision_lowered (run_variant env idx v).
Proof.
  unfold run_variant, configure_step, configure_cuda_check, configure_plumed_check,
    configure_legacy, configure_mpi_options, configure_cmake_rest, configure_blas_lapack,
    get_gromacs_arch, build_step, test_step, install_step, extensions_step.
  lowers.
Qed.

(** The configure step of a double-precision CUDA build returns at line
    178 with [double_precision] set to [False]. *)
Lemma configure_step_skips env s :
  loose_ge (version env) [4; 6] = true ->
  truthy_opt (get_software_root env "CUDA") = true ->
  truthy_flag (double_precision (cfg s)) = false ->
  py_in (double_prec_pattern s) (configopts (cfg s)) = true ->
  exists s', configure_step env s = Ok (tt, s') /\ double_precision (cfg s') = Some false.
Proof.
  intros Hv Hcuda Hfl Hin.
  unfold configure_step, configure_cuda_check, software_root.
  rewrite Hv, Hcuda. unfold bind, cfg_get, gets, modify, log, ret.
  rewrite Hfl, Hin.
  destruct (double_precision (cfg s)) as [[|]|] eqn:Es; [discriminate| |].
  - eexists. split; [reflexivity|]. exact Es.
  - eexists. split; reflexivity.
Qed.

(** With CUDA, a variant of GROMACS >= 4.6 whose configure options hold
    the double-precision pattern leaves [double_precision] at [False]. *)
Lemma run_variant_cuda_double env idx v st st' :
  loose_ge (version env) [4; 6] = true ->
  truthy_opt (get_software_root env "CUDA") = true ->
  truthy_flag (double_precision (cfg st)) = false ->
  Py.str_in (double_prec_pattern st) (v_configopts v) = true ->
  run_variant env idx v st = Ok (tt, st') ->
  double_precision (cfg st') = Some false.
Proof.
  intros Hv Hcuda Hdp Hin H. unfold run_variant in H.
  apply bind_inv in H as ([] & s1 & H1 & H). injection H1 as <-.
  apply bind_inv in H as ([] & s2 & H2 & H).
  assert (E2 : double_precision (cfg s2) = Some false).
  { destruct (configure_step_skips env (activate_variant idx v st) Hv Hcuda Hdp Hin)
      as (s' & E & D).
    rewrite E in H2. injection H2 as <-. exact D. }
  assert (K : keeps (fun s => double_precision (cfg s))
                (build_step env ;; test_step env ;; install_step env ;; extensions_step env)).
  { pose proof (fun l s =>
                  find_lib_subdir_keeps (fun s => double_precision (cfg s)) env l s
                    (fun _ _ => eq_refl) (fun _ _ => eq_refl)) as Kf.
    unfold build_step, test_step, install_step, extensions_step. keeps_obs; apply Kf. }
  rewrite (K _ _ _ H). exact E2.
Qed.

Lemma run_variants_cuda_double env vs :
  forall idx st st',
    loose_ge (version env) [4; 6] = true ->
    truthy_opt (get_software_root env "CUDA") = true ->
    truthy_flag (double_precision (cfg st)) = false ->
    double_precision (cfg st) = Some false
    \/ Exists (fun v => Py.str_in (double_prec_pattern st) (v_configopts v) = true) vs ->
    run_variants env idx vs st = Ok (tt, st') ->
    double_precision (cfg st') = Some false.
Proof.
  induction vs as [|v rest IH]; intros idx st st' Hv Hcuda Hdp Hex H.
  - injection H as <-. destruct Hex as [E|E]; [exact E | inversion E].
  - cbn [run_variants] in H.
    apply bind_inv in H as ([] & s1 & H1 & H).
    pose proof (run_variant_lowers env idx v _ _ _ H1) as L.
    assert (P1 : double_prec_pattern s1 = double_prec_pattern st).
    { unfold run_variant in H1.
      apply bind_inv in H1 as ([] & s4 & H4 & H1). injection H4 as <-.
      apply bind_inv in H1 as ([] & s5 & H5 & H1).
      apply bind_inv in H1 as ([] & s6 & H6 & H1).
      apply bind_inv in H1 as ([] & s7 & H7 & H1).
      apply bind_inv in H1 as ([] & s8 & H8 & H1).
      apply configure_step_frame in H5. apply build_step_frame in H6.
      apply test_step_frame in H7. apply install_step_frame in H8.
      assert (F : frame s8 = frame (activate_variant idx v st)).
      { rewrite H8, H7, H6, H5. reflexivity. }
      assert (K : keeps double_prec_pattern (extensions_step env))
        by (unfold extensions_step; keeps_obs).
      rewrite (K _ _ _ H1). unfold frame in F. now injection F. }
    assert (D1 : truthy_flag (double_precision (cfg s1)) = false).
    { destruct L as [L|L]; rewrite L; [exact Hdp | reflexivity]. }
    apply (IH (S idx) s1 st' Hv Hcuda D1); [|exact H].
    destruct Hex as [E|E].
    + left. destruct L as [L|L]; congruence.
    + inversion E as [? ? Hhere|? ? Hlater]; subst.
      * left. exact (run_variant_cuda_double env idx v st s1 Hv Hcuda Hdp Hhere H1).
      * right. now rewrite P1.
Qed.

Lemma zip_variants_in c : forall lc lb li,
  length lb = length lc -> length li = length lc -> In c lc ->
  exists v, In v (zip_variants lc lb li) /\ v_configopts v = c.
Proof.
  induction lc as [|c0 lc IH]; intros [|b lb] [|i li] Hb Hi Hin; cbn in *; try easy.
  destruct Hin as [->|Hin].
  - eexists. split; [left; reflexivity | reflexivity].
  - injection Hb as Hb. injection Hi as Hi.
    destruct (IH lb li Hb Hi Hin) as (v & Hv & Hc). exists v. split; [now right | exact Hc].
Qed.

(** Planning leaves [double_precision] alone and makes the three option
    lists equally long. *)
Lemma plan_variants_shape env st labels st1 :
  plan_variants env st = Ok (labels, st1) ->
  double_precision (cfg st1) = double_precision (cfg st) /\
  length (opt_items (buildopts (cfg st1))) = length (opt_items (configopts (cfg st1))) /\
  length (opt_items (installopts (cfg st1))) = length (opt_items (configopts (cfg st1))).
Proof.
  intros Hplan.
  destruct (plan_variants_inv _ _ _ _ Hplan) as (cc & cb & ci & Hc & Hb & Hi).
  pose proof (plan_variants_ok env st cc cb ci Hc Hb Hi) as Hok; cbv zeta in Hok.
  remember (precisions (double_precision (cfg st))) as P eqn:EP.
  remember (mpitypes env) as Q eqn:EQ.
  assert (Es : st1 = set_variants_to_build
                      (Z.of_nat (length (flat_map (fun p =>
                         map (merged_configopts env (mpisuffix (cfg st)) cc p) Q) P)))
                      (set_lists
                         (flat_map (fun p =>
                            map (merged_configopts env (mpisuffix (cfg st)) cc p) Q) P)
                         (flat_map (fun _ => map (merged_buildopts env cb) Q) P)
                         (flat_map (fun _ => map (merged_installopts env ci) Q) P)
                         (plan_prelude env st))) by congruence.
  subst st1. unfold set_variants_to_build, set_lists, with_cfg, plan_prelude.
  cbn [cfg double_precision buildopts configopts installopts set_opt opt_items].
  rewrite !flat_map_map_length.
  split; [|split; reflexivity].
  destruct (loose_lt (version env) [5]); reflexivity.
Qed.

(** X24: With CUDA among the dependencies and [double_precision] left unset, a
    run of GROMACS >= 4.6 that completes ends with [double_precision] set to
    [False]: the double-precision variants are planned, the first of them
    reaches line 177 of [configure_step], and no later step sets the
    parameter back. *)
Theorem run_all_steps_cuda_disables_double env st st' :
  loose_ge (version env) [4; 6] = true ->
  truthy_opt (get_software_root env "CUDA") = true ->
  double_precision (cfg st) = None ->
  run_all_steps env st = Ok (tt, st') ->
  double_precision (cfg st') = Some false.
Proof.
  intros Hv Hcuda Hdp H. unfold run_all_steps in H.
  apply bind_inv in H as (vb & s1 & Hplan & H).
  destruct (plan_variants_shape _ _ _ _ Hplan) as (D1 & Lb & Li).
  destruct (plan_variants_configopts _ _ _ _ Hplan) as (cc & Hc & Hlc & Hpat).
  apply bind_inv in H as (co & s2 & H2 & H). injection H2 as _ <-.
  apply bind_inv in H as ([] & s3 & H3 & H). injection H3 as <-.
  apply bind_inv in H as ([] & s4 & H4 & H). injection H4 as <-.
  unfold super_run_all_steps in H.
  apply bind_inv in H as (vs & s5 & H5 & H). injection H5 as <- <-.
  apply (run_variants_cuda_double env _ _ _ _ Hv Hcuda) in H; [exact H | |].
  - change (truthy_flag (double_precision (cfg s1)) = false).
    rewrite D1, Hdp. reflexivity.
  - right. apply Exists_exists.
    change (exists v, In v (planned_variants s1) /\
                      Py.str_in (double_prec_pattern s1) (v_configopts v) = true).
    assert (Hin : In (merged_configopts env (mpisuffix (cfg st)) cc double nompi)
                     (opt_items (configopts (cfg s1)))).
    { rewrite Hlc. cbn [opt_items]. apply in_flat_map. exists double. split.
      - rewrite Hdp. right. left. reflexivity.
      - apply in_map. left. reflexivity. }
    destruct (zip_variants_in _ _ _ _ Lb Li Hin) as (v & Hv1 & Hv2).
    exists v. split; [exact Hv1|].
    rewrite Hv2, Hpat. apply merged_configopts_double.
Qed.

Lemma run_all_steps_cuda_disables_double_witness :
  let env := Example.env0 [2020; 1] true true in
  double_precision (cfg Example.st0) = None /\
  double_precision (cfg (final_state env Example.st0)) = Some false.
Proof.
  intros env. split; [reflexivity|].
  apply (run_all_steps_cuda_disables_double env Example.st0);
    [reflexivity | reflexivity | reflexivity |].
  vm_compute. reflexivity.
Defined.
